(** * Shift-template versioning and work-shift resolution

    A shallow embedding of the shift-template service
    (services/shiftTemplateService: [calculateTimeInfo], [getCurrentVersion],
    [createShiftType], [updateShiftType], [deleteShiftType],
    [createDefaultShiftTemplate], [hasDefaultTemplate],
    [ensureDefaultTemplate], [getCurrentTemplate], [updateTemplateName]) and
    of the calendar service (services/calendarService: [upsertWorkShift],
    [updateWorkShift], [deleteWorkShift], [batchUpsertWorkShifts],
    [getShiftTypes], [getWorkShifts], [getEvents], [getCalendarRange],
    [getDaySchedule], [deleteEvent]), together with the properties the
    specification states about them and further properties of the code.

    Conventions of the embedding:
    - UUIDs are natural numbers; a row created without an explicit key
      receives a number no row of its table carries.
    - A table is the list of its rows; [findOne] without an [order] clause
      returns the first matching row.
    - A JavaScript value that may be [undefined], [null] or present is a
      [Field]; a column that may be [NULL] is an [option].
    - A number that may be [NaN] is a [JSNumber].
    - A calendar date is a day number.  Requests carry dates as strings;
      their conversion, [new Date(work_date)], is a parameter of the
      reconciler.
    - Every service call returns the store it leaves behind, the
      transaction events it issued and its outcome.
    - The database refuses what its columns cannot hold ([BIGINT],
      [SMALLINT], [INTEGER] and [TIME] columns), gives a time back as
      [HH:MM:SS], and does not delete a schedule that a row of
      [work_shifts] points to.  The timestamps [created_at] and
      [updated_at] of the rows are not part of the model. *)

From Stdlib Require Import ZArith List Bool Lia String Ascii.
From Stdlib Require Import Permutation Sorted.
Import ListNotations.
Local Open Scope string_scope.
Local Open Scope list_scope.
Local Open Scope Z_scope.

(* ================================================================== *)
(** ** JavaScript values *)
(* ================================================================== *)

(** [NaN] or an integer: the only numbers the time arithmetic meets. *)
Inductive JSNumber : Type :=
| NaN
| Num (z : Z).

Definition js_add (a b : JSNumber) : JSNumber :=
  match a, b with
  | Num x, Num y => Num (x + y)
  | _, _ => NaN
  end.

Definition js_sub (a b : JSNumber) : JSNumber :=
  match a, b with
  | Num x, Num y => Num (x - y)
  | _, _ => NaN
  end.

Definition js_mul (a b : JSNumber) : JSNumber :=
  match a, b with
  | Num x, Num y => Num (x * y)
  | _, _ => NaN
  end.

(** [a > b]; any comparison with [NaN] is false. *)
Definition js_gt (a b : JSNumber) : bool :=
  match a, b with
  | Num x, Num y => y <? x
  | _, _ => false
  end.

(** An optional property of a request body. *)
Inductive Field (A : Type) : Type :=
| Undefined
| Null
| Value (a : A).

Arguments Undefined {A}.
Arguments Null {A}.
Arguments Value {A} a.

(** JavaScript truthiness of a string-valued property: [undefined], [null]
    and the empty string are falsy. *)
Definition truthy (f : Field string) : bool :=
  match f with
  | Value s => negb (String.eqb s "")
  | _ => false
  end.

(** [f !== undefined]. *)
Definition defined {A} (f : Field A) : bool :=
  match f with
  | Undefined => false
  | _ => true
  end.

(** [f ?? null], read as a nullable column value. *)
Definition nullish {A} (f : Field A) : option A :=
  match f with
  | Value a => Some a
  | _ => None
  end.

(** [s.split(sep)] for a one-character separator. *)
Fixpoint split_on (sep : ascii) (s : string) : list string :=
  match s with
  | EmptyString => [EmptyString]
  | String c rest =>
      if Ascii.eqb c sep then EmptyString :: split_on sep rest
      else match split_on sep rest with
           | [] => [String c EmptyString]
           | p :: ps => String c p :: ps
           end
  end.

Definition digit_of_ascii (c : ascii) : option Z :=
  let n := Z.of_nat (nat_of_ascii c) in
  if (48 <=? n) && (n <=? 57) then Some (n - 48) else None.

Fixpoint digits_value (acc : Z) (s : string) : JSNumber :=
  match s with
  | EmptyString => Num acc
  | String c rest =>
      match digit_of_ascii c with
      | Some d => digits_value (10 * acc + d) rest
      | None => NaN
      end
  end.

(** [Number(s)] on the strings a time component can be: a run of decimal
    digits reads as its value and the empty string as [0], as in
    JavaScript.  The other numeric literals of the language (signs,
    fractions, exponents, radix prefixes, surrounding blanks) do not occur
    in a [HH:mm:ss] component and read as [NaN] here. *)
Definition Number (s : string) : JSNumber := digits_value 0 s.

(** The [i]-th variable of an array destructuring: [undefined] past the
    end, which arithmetic turns into [NaN]. *)
Definition element (xs : list JSNumber) (i : nat) : JSNumber :=
  match nth_error xs i with
  | Some n => n
  | None => NaN
  end.

(* ================================================================== *)
(** ** Time arithmetic: [calculateTimeInfo] *)
(* ================================================================== *)

Record TimeInfo : Type := mkTimeInfo {
  ti_crosses_midnight : bool;
  ti_duration_minutes : JSNumber
}.

(** [!s] for [s : string | null]. *)
Definition falsy_time (t : option string) : bool :=
  match t with
  | None => true
  | Some s => String.eqb s ""
  end.

Definition total_minutes (t : string) : JSNumber :=
  let parts := map Number (split_on ":" t) in
  js_add (js_mul (element parts 0) (Num 60)) (element parts 1).

Definition calculateTimeInfo (start_time end_time : option string) : TimeInfo :=
  match start_time, end_time with
  | Some s, Some e =>
      if falsy_time start_time || falsy_time end_time
      then mkTimeInfo false (Num 0)
      else
        let start_total_minutes := total_minutes s in
        let end_total_minutes := total_minutes e in
        let crosses_midnight := js_gt start_total_minutes end_total_minutes in
        let duration_minutes :=
          if crosses_midnight
          then js_add (js_sub (Num (24 * 60)) start_total_minutes)
                      end_total_minutes
          else js_sub end_total_minutes start_total_minutes in
        mkTimeInfo crosses_midnight duration_minutes
  | _, _ => mkTimeInfo false (Num 0)
  end.

(** *** Well-formed times *)

Definition digit_value (c : ascii) : Z := Z.of_nat (nat_of_ascii c) - 48.

Definition is_digit (c : ascii) : bool :=
  (0 <=? digit_value c) && (digit_value c <=? 9).

(** [[0-1][0-9]|2[0-3]] *)
Definition is_hour (a b : ascii) : bool :=
  is_digit a && is_digit b && (10 * digit_value a + digit_value b <=? 23).

(** [[0-5][0-9]] *)
Definition is_sixty (a b : ascii) : bool :=
  is_digit a && is_digit b && (digit_value a <=? 5).

(** A time of day written [HH:MM] or [HH:MM:SS]. *)
Definition is_time (s : string) : bool :=
  match s with
  | String h1 (String h2 (String sep (String m1 (String m2 rest)))) =>
      is_hour h1 h2 && Ascii.eqb sep ":" && is_sixty m1 m2 &&
      match rest with
      | EmptyString => true
      | String sep' (String s1 (String s2 EmptyString)) =>
          Ascii.eqb sep' ":" && is_sixty s1 s2
      | _ => false
      end
  | _ => false
  end.

(** Minutes since midnight of a well-formed time, read off its digits. *)
Definition minute_of_day (s : string) : Z :=
  match s with
  | String h1 (String h2 (String _ (String m1 (String m2 _)))) =>
      (10 * digit_value h1 + digit_value h2) * 60
      + (10 * digit_value m1 + digit_value m2)
  | _ => 0
  end.

(* ================================================================== *)
(** ** Data model *)
(* ================================================================== *)

Abbreviation uuid := nat (only parsing).

(** A calendar date ([DATEONLY] columns) is its day number.  A request
    carries its dates as strings; the reconciler turns them into calendar
    dates with [new Date(work_date)], which is a parameter of its model. *)
Abbreviation Date := Z (only parsing).

(** A point in time ([DATE] columns, [new Date()]). *)
Abbreviation Timestamp := Z (only parsing).

Record ShiftTemplate : Type := mkShiftTemplate {
  template_id : uuid;
  tpl_owner_user_id : uuid;
  tpl_name : string;
  tpl_deleted_at : option Timestamp
}.

Record ShiftTemplateVersion : Type := mkShiftTemplateVersion {
  template_version_id : uuid;
  ver_template_id : uuid;
  version_no : Z;
  effective_from : Date;
  ver_created_by_user_id : uuid
}.

Record ShiftType : Type := mkShiftType {
  shift_type_id : uuid;
  st_template_id : uuid;
  st_code : string;
  st_name : string;
  st_color : option Z;
  st_sort_order : option Z;
  st_deleted_at : option Timestamp
}.

Record ShiftTypeSchedule : Type := mkShiftTypeSchedule {
  schedule_id : uuid;
  sch_shift_type_id : uuid;
  sch_template_version_id : uuid;
  start_time : option string;
  end_time : option string;
  crosses_midnight : bool;
  duration_minutes : JSNumber
}.

Record WorkShift : Type := mkWorkShift {
  work_shift_id : uuid;
  owner_user_id : uuid;
  work_date : Date;
  ws_schedule_id : uuid;
  note : option string;
  visibility_level : Z;
  created_by_user_id : uuid;
  deleted_at : option Timestamp;
  deleted_by_user_id : option uuid
}.

(** The five tables.  Creation and update timestamps are left out: no
    decision of the services reads them. *)
Record DB : Type := mkDB {
  shift_templates : list ShiftTemplate;
  shift_template_versions : list ShiftTemplateVersion;
  shift_types : list ShiftType;
  shift_type_schedules : list ShiftTypeSchedule;
  work_shifts : list WorkShift
}.

Definition set_shift_types (f : list ShiftType -> list ShiftType) (db : DB) : DB :=
  mkDB (shift_templates db) (shift_template_versions db)
       (f (shift_types db)) (shift_type_schedules db) (work_shifts db).

Definition set_schedules
    (f : list ShiftTypeSchedule -> list ShiftTypeSchedule) (db : DB) : DB :=
  mkDB (shift_templates db) (shift_template_versions db)
       (shift_types db) (f (shift_type_schedules db)) (work_shifts db).

Definition set_work_shifts (f : list WorkShift -> list WorkShift) (db : DB) : DB :=
  mkDB (shift_templates db) (shift_template_versions db)
       (shift_types db) (shift_type_schedules db) (f (work_shifts db)).

(** The error identifiers the services throw, with their payloads, and
    the errors of the persistence layer: [TIME_CONSISTENCY_VIOLATION] is
    the error of the model validator of that name, [VALIDATION_ERROR] that
    of an attribute validator, and [DATABASE_ERROR] an error of the
    database itself: a value its column cannot hold, a foreign key that a
    statement would break. *)
Inductive ServiceError : Type :=
| TEMPLATE_NOT_FOUND
| SHIFT_TYPE_NOT_FOUND
| WORK_SHIFT_NOT_FOUND
| FORBIDDEN
| IN_USE
| MAX_SHIFT_TYPES_EXCEEDED
| INVALID_SHIFT_TYPE (invalid_code : string) (work_date : string)
| DUPLICATE_DATE (duplicate_dates : list string)
| TEMPLATE_VERSION_NOT_FOUND (work_date : string)
| TIME_CONSISTENCY_VIOLATION
| VALIDATION_ERROR
| DATABASE_ERROR.

Inductive TxEvent : Type :=
| TxBegin
| TxCommit
| TxRollback.

(** What a service call leaves behind: the store visible to later calls,
    the transaction events it issued, and its value or the error thrown. *)
Record Run (A : Type) : Type := mkRun {
  store : DB;
  events : list TxEvent;
  result : ServiceError + A
}.

Arguments mkRun {A} store events result.
Arguments store {A} r.
Arguments events {A} r.
Arguments result {A} r.

(* ================================================================== *)
(** ** Statements against the store *)
(* ================================================================== *)

(** A sequence of awaited statements: each sees the rows its predecessors
    wrote; a [throw] skips the rest and keeps the rows written so far (it
    is the enclosing transaction, if any, that undoes them). *)
Definition Stmt (A : Type) : Type := DB -> DB * (ServiceError + A).

Definition ret {A} (a : A) : Stmt A := fun db => (db, inr a).

Definition throw {A} (e : ServiceError) : Stmt A := fun db => (db, inl e).

Definition bind {A B} (m : Stmt A) (k : A -> Stmt B) : Stmt B :=
  fun db =>
    match m db with
    | (db', inr a) => k a db'
    | (db', inl e) => (db', inl e)
    end.

Definition query {A} (q : DB -> A) : Stmt A := fun db => (db, inr (q db)).

Definition write (f : DB -> DB) : Stmt unit := fun db => (f db, inr tt).

Notation "x <- m ;; k" := (bind m (fun x => k))
  (at level 61, m at next level, right associativity).
Notation "m ;;; k" := (bind m (fun _ => k))
  (at level 61, right associativity).

(** [sequelize.transaction(async (transaction) => body)]: the body runs on
    the transaction's working copy and may read the committed store through
    statements issued without the [transaction] option; the copy replaces
    the store on return and is dropped on a throw. *)
Definition transaction {A} (body : DB -> Stmt A) (db : DB) : Run A :=
  match body db db with
  | (working, inr a) => mkRun working [TxBegin; TxCommit] (inr a)
  | (_, inl e) => mkRun db [TxBegin; TxRollback] (inl e)
  end.

(** Statements issued outside any transaction commit one by one. *)
Definition autocommit {A} (body : Stmt A) (db : DB) : Run A :=
  let '(db', r) := body db in mkRun db' [] r.

Definition is_null {A} (o : option A) : bool :=
  match o with
  | None => true
  | Some _ => false
  end.

Definition fresh_uuid (used : list uuid) : uuid := S (fold_right Nat.max 0%nat used).

(** *** Column types *)

(** The integers a [SMALLINT], an [INTEGER] and a [BIGINT] column hold. *)
Definition in_smallint (z : Z) : bool := (-32768 <=? z) && (z <=? 32767).
Definition in_integer (z : Z) : bool := (-2147483648 <=? z) && (z <=? 2147483647).
Definition in_bigint (z : Z) : bool :=
  (-9223372036854775808 <=? z) && (z <=? 9223372036854775807).

(** A nullable integer column takes [NULL] and the integers of its type. *)
Definition column_holds (in_type : Z -> bool) (v : option Z) : bool :=
  match v with
  | Some z => in_type z
  | None => true
  end.

Definition same_value (a b : option Z) : bool :=
  match a, b with
  | Some x, Some y => x =? y
  | None, None => true
  | _, _ => false
  end.

(** A time as a [TIME] column gives it back: with its seconds. *)
Definition with_seconds (s : string) : string :=
  match s with
  | String _ (String _ (String _ (String _ (String _ EmptyString)))) => s ++ ":00"
  | _ => s
  end.

(** What a [TIME] column holds once a value is written to it; [None] when
    the database rejects the value.  A time written [HH:MM] or [HH:MM:SS]
    is held, and read back, as [HH:MM:SS].  These are the two ways of
    writing a time that the arithmetic of the service reads; the other
    notations of the database (a fraction of a second, a time zone, AM and
    PM) are left out, and a string that is not a well-formed time reads as
    rejected. *)
Definition time_column (t : option string) : option (option string) :=
  match t with
  | None => Some None
  | Some s => if is_time s then Some (Some (with_seconds s)) else None
  end.

(** The attribute validator [min: 0] of [duration_minutes]: it compares
    what [parseFloat] reads, and lets pass what reads as [NaN]. *)
Definition duration_validator (d : JSNumber) : bool :=
  match d with
  | Num z => 0 <=? z
  | NaN => true
  end.

(** The [INTEGER] column [duration_minutes] holds no [NaN]. *)
Definition integer_column (d : JSNumber) : bool :=
  match d with
  | Num z => in_integer z
  | NaN => false
  end.

(** *** ShiftTemplate *)

(** [ShiftTemplate.findOne({ where: { owner_user_id, deleted_at: null } })] *)
Definition find_active_template (user_id : uuid) (db : DB) : option ShiftTemplate :=
  find (fun t => Nat.eqb (tpl_owner_user_id t) user_id && is_null (tpl_deleted_at t))
       (shift_templates db).

(** *** ShiftTemplateVersion *)

(** [ORDER BY effective_from DESC LIMIT 1] *)
Fixpoint latest_by_effective_from (vs : list ShiftTemplateVersion)
  : option ShiftTemplateVersion :=
  match vs with
  | [] => None
  | v :: rest =>
      match latest_by_effective_from rest with
      | None => Some v
      | Some w => if effective_from w <=? effective_from v then Some v else Some w
      end
  end.

(** [ShiftTemplateVersion.findOne({ where: { template_id },
      order: [["effective_from", "DESC"]] })] *)
Definition find_latest_version (tid : uuid) (db : DB) : option ShiftTemplateVersion :=
  latest_by_effective_from
    (filter (fun v => Nat.eqb (ver_template_id v) tid) (shift_template_versions db)).

(** [ShiftTemplateVersion.findOne({ where: { template_id,
      effective_from: { [Op.lte]: date } }, order: [["effective_from", "DESC"]] })] *)
Definition find_version_in_force (tid : uuid) (date : Date) (db : DB)
  : option ShiftTemplateVersion :=
  latest_by_effective_from
    (filter (fun v => Nat.eqb (ver_template_id v) tid && (effective_from v <=? date))
            (shift_template_versions db)).

(** *** ShiftType *)

Definition live_shift_type_of (tid : uuid) (st : ShiftType) : bool :=
  Nat.eqb (st_template_id st) tid && is_null (st_deleted_at st).

(** [ShiftType.count({ where: { template_id, deleted_at: null } })] *)
Definition count_live_shift_types (tid : uuid) (db : DB) : Z :=
  Z.of_nat (List.length (filter (live_shift_type_of tid) (shift_types db))).

(** [ShiftType.max("sort_order", ...)]: [null] when no row has one. *)
Fixpoint max_sort_order (sts : list ShiftType) : option Z :=
  match sts with
  | [] => None
  | st :: rest =>
      match st_sort_order st, max_sort_order rest with
      | Some a, Some b => Some (Z.max a b)
      | Some a, None => Some a
      | None, m => m
      end
  end.

(** [ShiftType.findOne({ where: { shift_type_id, deleted_at: null },
      include: [{ model: ShiftTemplate, as: "template", required: true }] })] *)
Definition find_shift_type_with_template (id : uuid) (db : DB)
  : option (ShiftType * ShiftTemplate) :=
  match find (fun st => Nat.eqb (shift_type_id st) id && is_null (st_deleted_at st)
                        && existsb (fun t => Nat.eqb (template_id t) (st_template_id st))
                                   (shift_templates db))
             (shift_types db) with
  | Some st =>
      match find (fun t => Nat.eqb (template_id t) (st_template_id st))
                 (shift_templates db) with
      | Some t => Some (st, t)
      | None => None
      end
  | None => None
  end.

(** [ShiftType.findOne({ where: { code, deleted_at: null },
      include: [{ model: ShiftTemplate, as: "template",
                  where: { owner_user_id, deleted_at: null }, required: true }] })] *)
Definition find_shift_type_of_owner (code : string) (user_id : uuid) (db : DB)
  : option ShiftType :=
  find (fun st => String.eqb (st_code st) code && is_null (st_deleted_at st)
                  && existsb (fun t => Nat.eqb (template_id t) (st_template_id st)
                                       && Nat.eqb (tpl_owner_user_id t) user_id
                                       && is_null (tpl_deleted_at t))
                             (shift_templates db))
       (shift_types db).

(** [ShiftType.findOne({ where: { code, template_id, deleted_at: null } })] *)
Definition find_shift_type_by_code (code : string) (tid : uuid) (db : DB)
  : option ShiftType :=
  find (fun st => String.eqb (st_code st) code && Nat.eqb (st_template_id st) tid
                  && is_null (st_deleted_at st))
       (shift_types db).

(** [shift_type.save()] on an instance that was [loaded] from its row and
    assigned new values since: the row with this primary key takes the
    instance's column values.  Only the columns whose value changed are
    written, so it is a changed [color] or [sort_order] that the [BIGINT]
    and [SMALLINT] columns can refuse. *)
Definition save_shift_type (loaded st : ShiftType) : Stmt unit :=
  fun db =>
    if (same_value (st_color loaded) (st_color st)
        || column_holds in_bigint (st_color st))
       && (same_value (st_sort_order loaded) (st_sort_order st)
           || column_holds in_smallint (st_sort_order st))
    then
      (set_shift_types
         (map (fun r => if Nat.eqb (shift_type_id r) (shift_type_id st) then st else r))
         db,
       inr tt)
    else (db, inl DATABASE_ERROR).

(** *** ShiftTypeSchedule *)

(** The model-level validator [timeConsistency]: start and end are both
    present or both absent. *)
Definition timeConsistency (start_t end_t : option string) : bool :=
  Bool.eqb (negb (is_null start_t)) (negb (is_null end_t)).

(** [ShiftTypeSchedule.findOne({ where: { shift_type_id, template_version_id } })] *)
Definition find_schedule (stid vid : uuid) (db : DB) : option ShiftTypeSchedule :=
  find (fun s => Nat.eqb (sch_shift_type_id s) stid
                 && Nat.eqb (sch_template_version_id s) vid)
       (shift_type_schedules db).

(** What happens to the values of a schedule on their way to the table:
    the validators of the model run first, then the database takes the
    values or refuses them.  Returns the two times as the table holds
    them. *)
Definition schedule_columns (start_t end_t : option string) (duration : JSNumber)
  : ServiceError + (option string * option string) :=
  if timeConsistency start_t end_t then
    if duration_validator duration then
      match time_column start_t, time_column end_t with
      | Some held_start, Some held_end =>
          if integer_column duration then inr (held_start, held_end)
          else inl DATABASE_ERROR
      | _, _ => inl DATABASE_ERROR
      end
    else inl VALIDATION_ERROR
  else inl TIME_CONSISTENCY_VIOLATION.

(** [ShiftTypeSchedule.create({...})]; the instance it returns carries the
    values of the inserted row. *)
Definition create_schedule (stid vid : uuid) (start_t end_t : option string)
    (crosses : bool) (duration : JSNumber) : Stmt ShiftTypeSchedule :=
  fun db =>
    match schedule_columns start_t end_t duration with
    | inr (held_start, held_end) =>
        let row := mkShiftTypeSchedule
                     (fresh_uuid (map schedule_id (shift_type_schedules db)))
                     stid vid held_start held_end crosses duration in
        (set_schedules (fun rows => rows ++ [row]) db, inr row)
    | inl e => (db, inl e)
    end.

(** [schedule.save()] *)
Definition save_schedule (s : ShiftTypeSchedule) : Stmt unit :=
  fun db =>
    match schedule_columns (start_time s) (end_time s) (duration_minutes s) with
    | inr (held_start, held_end) =>
        let row := mkShiftTypeSchedule (schedule_id s) (sch_shift_type_id s)
                     (sch_template_version_id s) held_start held_end
                     (crosses_midnight s) (duration_minutes s) in
        (set_schedules
           (map (fun r => if Nat.eqb (schedule_id r) (schedule_id s) then row else r))
           db,
         inr tt)
    | inl e => (db, inl e)
    end.

(** [schedule.destroy()].  The table of work shifts refers to the
    schedules by a foreign key ([work_shifts.schedule_id], not nullable,
    with no action on delete), and a soft-deleted work shift is a row like
    any other: the database refuses to delete a schedule that a row of
    [work_shifts] points to. *)
Definition destroy_schedule (s : ShiftTypeSchedule) : Stmt unit :=
  fun db =>
    if existsb (fun w => Nat.eqb (ws_schedule_id w) (schedule_id s)) (work_shifts db)
    then (db, inl DATABASE_ERROR)
    else
      (set_schedules
         (filter (fun r => negb (Nat.eqb (schedule_id r) (schedule_id s)))) db,
       inr tt).

(** The schedule of a shift type under a version, created with no times
    when the version has none for it. *)
Definition find_or_create_schedule (stid vid : uuid) : Stmt ShiftTypeSchedule :=
  fun db =>
    match find_schedule stid vid db with
    | Some s => (db, inr s)
    | None => create_schedule stid vid None None false (Num 0) db
    end.

(** *** WorkShift *)

Definition live_work_shift (w : WorkShift) : bool := is_null (deleted_at w).

(** [WorkShift.findOne({ where: { schedule_id, deleted_at: null } })] *)
Definition find_live_reference (sid : uuid) (db : DB) : option WorkShift :=
  find (fun w => Nat.eqb (ws_schedule_id w) sid && live_work_shift w) (work_shifts db).

(** [WorkShift.findOne({ where: { schedule_id: { [Op.in]: ids }, deleted_at: null } })] *)
Definition find_live_reference_in (sids : list uuid) (db : DB) : option WorkShift :=
  find (fun w => existsb (Nat.eqb (ws_schedule_id w)) sids && live_work_shift w)
       (work_shifts db).

Definition same_day_of_owner (user_id : uuid) (date : Date) (w : WorkShift) : bool :=
  Nat.eqb (owner_user_id w) user_id && (work_date w =? date).

(** The columns an upsert supplies. *)
Record WorkShiftValues : Type := mkWorkShiftValues {
  val_owner_user_id : uuid;
  val_work_date : Date;
  val_schedule_id : uuid;
  val_note : option string;
  val_visibility_level : Z;
  val_created_by_user_id : uuid
}.

(** The [DO UPDATE SET] of the upsert: the supplied columns overwrite the
    conflicting row; [work_shift_id], [deleted_at] and [deleted_by_user_id]
    are not among them and keep what the row has. *)
Definition overwrite (v : WorkShiftValues) (w : WorkShift) : WorkShift :=
  mkWorkShift (work_shift_id w) (val_owner_user_id v) (val_work_date v)
              (val_schedule_id v) (val_note v) (val_visibility_level v)
              (val_created_by_user_id v) (deleted_at w) (deleted_by_user_id w).

(** [WorkShift.upsert(values, { returning: true,
      conflictFields: ["owner_user_id", "work_date"] })]:
    [INSERT ... ON CONFLICT (owner_user_id, work_date) DO UPDATE].  The
    model's unique index on these two columns has no [where], so a
    soft-deleted row of the owner and day conflicts like a live one. *)
Definition upsert_work_shift (v : WorkShiftValues) : Stmt WorkShift :=
  fun db =>
    let conflicts := same_day_of_owner (val_owner_user_id v) (val_work_date v) in
    match find conflicts (work_shifts db) with
    | Some old =>
        (set_work_shifts (map (fun w => if conflicts w then overwrite v w else w)) db,
         inr (overwrite v old))
    | None =>
        let row := mkWorkShift (fresh_uuid (map work_shift_id (work_shifts db)))
                     (val_owner_user_id v) (val_work_date v) (val_schedule_id v)
                     (val_note v) (val_visibility_level v)
                     (val_created_by_user_id v) None None in
        (set_work_shifts (fun rows => rows ++ [row]) db, inr row)
    end.

(** [note || null] *)
Definition note_or_null (n : Field string) : option string :=
  if truthy n then nullish n else None.

Definition find_or_throw {A} (q : DB -> option A) (e : ServiceError) : Stmt A :=
  fun db =>
    match q db with
    | Some a => (db, inr a)
    | None => (db, inl e)
    end.

(* ================================================================== *)
(** ** The shift-type registry (shiftTemplateService) *)
(* ================================================================== *)

Record DefaultShiftTypeInfo : Type := mkDefaultShiftTypeInfo {
  default_code : string;
  default_start_time : option string;
  default_end_time : option string;
  default_crosses_midnight : bool;
  default_duration_minutes : Z;
  default_sort_order : Z
}.

(** The shift types of a new user's template (names and colours left
    out). *)
Definition DEFAULT_SHIFT_TYPES : list DefaultShiftTypeInfo :=
  [ mkDefaultShiftTypeInfo "D" (Some "06:30:00") (Some "15:00:00") false 510 1;
    mkDefaultShiftTypeInfo "E" (Some "14:30:00") (Some "23:00:00") false 510 2;
    mkDefaultShiftTypeInfo "N" (Some "22:30:00") (Some "07:00:00") true 510 3;
    mkDefaultShiftTypeInfo "OFF" None None false 0 4 ].

Definition MAX_SHIFT_TYPES_PER_TEMPLATE : Z := 10.

(** [getCurrentVersion(template_id)].  The service passes it no
    transaction, so inside a transaction it reads the committed store. *)
Definition getCurrentVersion (tid : uuid) (committed : DB) : Stmt ShiftTemplateVersion :=
  fun db =>
    match find_latest_version tid committed with
    | Some v => (db, inr v)
    | None => (db, inl TEMPLATE_NOT_FOUND)
    end.

(** The shift type with the times of its schedule, as the registry
    returns it. *)
Record ShiftTypeView : Type := mkShiftTypeView {
  view_shift_type_id : uuid;
  view_code : string;
  view_name : string;
  view_color : option Z;
  view_sort_order : option Z;
  view_start_time : option string;
  view_end_time : option string;
  view_crosses_midnight : bool;
  view_duration_minutes : JSNumber
}.

Record CreateShiftTypeData : Type := mkCreateShiftTypeData {
  new_code : string;
  new_name : string;
  new_color : Field Z;
  new_start_time : Field string;
  new_end_time : Field string;
  new_sort_order : Field Z
}.

(** [ShiftType.create({...})]: [color] is a [BIGINT] column and
    [sort_order] a [SMALLINT] one. *)
Definition create_shift_type (tid : uuid) (code name : string)
    (color sort_order : option Z) : Stmt ShiftType :=
  fun db =>
    if column_holds in_bigint color && column_holds in_smallint sort_order then
      let row := mkShiftType (fresh_uuid (map shift_type_id (shift_types db)))
                   tid code name color sort_order None in
      (set_shift_types (fun rows => rows ++ [row]) db, inr row)
    else (db, inl DATABASE_ERROR).

Definition createShiftType (user_id : uuid) (data : CreateShiftTypeData)
  : DB -> Run ShiftTypeView :=
  transaction (fun committed =>
    (* 1. the caller's active template *)
    template <- find_or_throw (find_active_template user_id) TEMPLATE_NOT_FOUND ;;
    (* 2. at most ten live shift types per template *)
    current_count <- query (count_live_shift_types (template_id template)) ;;
    if MAX_SHIFT_TYPES_PER_TEMPLATE <=? current_count
    then throw MAX_SHIFT_TYPES_EXCEEDED
    else
      (* 3. sort_order: the largest one in use plus one *)
      sort_order <-
        match nullish (new_sort_order data) with
        | Some n => ret n
        | None =>
            max_sort <- query (fun db =>
              max_sort_order (filter (live_shift_type_of (template_id template))
                                     (shift_types db))) ;;
            ret (match max_sort with Some m => m | None => 0 end + 1)
        end ;;
      (* 4. the shift type *)
      shift_type <- create_shift_type (template_id template) (new_code data)
                      (new_name data) (nullish (new_color data)) (Some sort_order) ;;
      (* 5. its schedule, always created, times or not *)
      let '(start_t, end_t, time_info) :=
        if truthy (new_start_time data) && truthy (new_end_time data)
        then (nullish (new_start_time data), nullish (new_end_time data),
              calculateTimeInfo (nullish (new_start_time data))
                                (nullish (new_end_time data)))
        else (None, None, mkTimeInfo false (Num 0)) in
      current_version <- getCurrentVersion (template_id template) committed ;;
      create_schedule (shift_type_id shift_type)
                      (template_version_id current_version)
                      start_t end_t (ti_crosses_midnight time_info)
                      (ti_duration_minutes time_info) ;;;
      ret (mkShiftTypeView (shift_type_id shift_type) (st_code shift_type)
             (st_name shift_type) (st_color shift_type) (st_sort_order shift_type)
             start_t end_t (ti_crosses_midnight time_info)
             (ti_duration_minutes time_info))).

Record UpdateShiftTypeData : Type := mkUpdateShiftTypeData {
  upd_code : option string;        (* [None]: the property is undefined *)
  upd_name : option string;
  upd_color : Field Z;
  upd_start_time : Field string;
  upd_end_time : Field string;
  upd_sort_order : Field Z
}.

(** Step 2 of [updateShiftType]: the defined properties overwrite the
    instance's columns. *)
Definition assign_shift_type (data : UpdateShiftTypeData) (st : ShiftType) : ShiftType :=
  mkShiftType (shift_type_id st) (st_template_id st)
    (match upd_code data with Some c => c | None => st_code st end)
    (match upd_name data with Some n => n | None => st_name st end)
    (if defined (upd_color data) then nullish (upd_color data) else st_color st)
    (if defined (upd_sort_order data) then nullish (upd_sort_order data)
     else st_sort_order st)
    (st_deleted_at st).

Definition with_times (s : ShiftTypeSchedule) (start_t end_t : option string)
    (crosses : bool) (duration : JSNumber) : ShiftTypeSchedule :=
  mkShiftTypeSchedule (schedule_id s) (sch_shift_type_id s)
    (sch_template_version_id s) start_t end_t crosses duration.

(** Step 3 of [updateShiftType]: the current version's schedule row.
    Returns the times reported to the caller. *)
Definition update_times (id : uuid) (current_version : ShiftTemplateVersion)
    (data : UpdateShiftTypeData) (existing_schedule : option ShiftTypeSchedule)
  : Stmt (option string * option string * TimeInfo) :=
  if defined (upd_start_time data) && defined (upd_end_time data) then
    if truthy (upd_start_time data) && truthy (upd_end_time data) then
      (* both times given *)
      let start_t := nullish (upd_start_time data) in
      let end_t := nullish (upd_end_time data) in
      let time_info := calculateTimeInfo start_t end_t in
      match existing_schedule with
      | Some s =>
          save_schedule (with_times s start_t end_t
                           (ti_crosses_midnight time_info)
                           (ti_duration_minutes time_info)) ;;;
          ret (start_t, end_t, time_info)
      | None =>
          create_schedule id (template_version_id current_version) start_t end_t
            (ti_crosses_midnight time_info) (ti_duration_minutes time_info) ;;;
          ret (start_t, end_t, time_info)
      end
    else
      (* start_time or end_time is null *)
      match existing_schedule with
      | Some s =>
          in_use <- query (find_live_reference (schedule_id s)) ;;
          match in_use with
          | Some _ =>
              (* in use: keep the row, clear its times *)
              save_schedule (with_times s None None false (Num 0)) ;;;
              ret (None, None, mkTimeInfo false (Num 0))
          | None =>
              (* not in use: drop the row *)
              destroy_schedule s ;;;
              ret (None, None, mkTimeInfo false (Num 0))
          end
      | None => ret (None, None, mkTimeInfo false (Num 0))
      end
  else
    (* no time given: report the existing values *)
    match existing_schedule with
    | Some s => ret (start_time s, end_time s,
                     mkTimeInfo (crosses_midnight s) (duration_minutes s))
    | None => ret (None, None, mkTimeInfo false (Num 0))
    end.

Definition updateShiftType (user_id id : uuid) (data : UpdateShiftTypeData)
  : DB -> Run ShiftTypeView :=
  transaction (fun committed =>
    (* 1. the shift type and its owner *)
    found <- find_or_throw (find_shift_type_with_template id) SHIFT_TYPE_NOT_FOUND ;;
    let '(shift_type, template) := found in
    if negb (Nat.eqb (tpl_owner_user_id template) user_id)
    then throw FORBIDDEN
    else
      (* 2. the shift type's own columns *)
      let loaded := shift_type in
      let shift_type := assign_shift_type data loaded in
      save_shift_type loaded shift_type ;;;
      (* 3. the times *)
      current_version <- getCurrentVersion (template_id template) committed ;;
      existing_schedule <-
        query (find_schedule id (template_version_id current_version)) ;;
      times <- update_times id current_version data existing_schedule ;;
      let '(start_t, end_t, time_info) := times in
      ret (mkShiftTypeView (shift_type_id shift_type) (st_code shift_type)
             (st_name shift_type) (st_color shift_type) (st_sort_order shift_type)
             start_t end_t (ti_crosses_midnight time_info)
             (ti_duration_minutes time_info))).

Definition with_deleted_at (st : ShiftType) (at_ : Timestamp) : ShiftType :=
  mkShiftType (shift_type_id st) (st_template_id st) (st_code st) (st_name st)
              (st_color st) (st_sort_order st) (Some at_).

(** The ids of every schedule bound to a shift type, whatever the version:
    [ShiftTypeSchedule.findAll({ where: { shift_type_id } })]. *)
Definition schedule_ids_of (id : uuid) (db : DB) : list uuid :=
  map schedule_id
      (filter (fun s => Nat.eqb (sch_shift_type_id s) id) (shift_type_schedules db)).

(** [deleteShiftType(user_id, shift_type_id)]; [now] is the clock reading
    of [new Date()]. *)
Definition deleteShiftType (now : Timestamp) (user_id id : uuid)
  : DB -> Run (uuid * Timestamp) :=
  transaction (fun _ =>
    (* 1. the shift type and its owner *)
    found <- find_or_throw (find_shift_type_with_template id) SHIFT_TYPE_NOT_FOUND ;;
    let '(shift_type, template) := found in
    if negb (Nat.eqb (tpl_owner_user_id template) user_id)
    then throw FORBIDDEN
    else
      (* 2. is a schedule of it on a live work shift? *)
      schedule_ids <- query (schedule_ids_of id) ;;
      (if (0 <? Z.of_nat (List.length schedule_ids))
       then
         in_use <- query (find_live_reference_in schedule_ids) ;;
         match in_use with
         | Some _ => throw IN_USE
         | None => ret tt
         end
       else ret tt) ;;;
      (* 3. soft delete *)
      save_shift_type shift_type (with_deleted_at shift_type now) ;;;
      ret (shift_type_id shift_type, now)).

(* ================================================================== *)
(** ** The work-shift reconciler (calendarService) *)
(* ================================================================== *)

Section Reconciler.

(** [new Date(work_date)] as the store reads it for a [DATEONLY] column:
    the calendar day of the request's date string.  How the string is
    parsed and which time zone the server runs in are left open.  Every
    string is given a day: a string that [new Date] cannot read, with
    which the database refuses the row, is outside this model. *)
Variable dateOnly : string -> Date.

Definition upsertWorkShift (user_id : uuid) (work_date : string)
    (shift_type_code : string) (note_ : Field string) : DB -> Run WorkShift :=
  autocommit (
    (* 1. the shift type of that code on a live template of the caller *)
    shift_type <- find_or_throw (find_shift_type_of_owner shift_type_code user_id)
                    SHIFT_TYPE_NOT_FOUND ;;
    (* 2. the schedule under the template's latest version *)
    template <- find_or_throw (find_active_template user_id) TEMPLATE_NOT_FOUND ;;
    latest_version <- find_or_throw (find_latest_version (template_id template))
                        TEMPLATE_NOT_FOUND ;;
    schedule <- find_or_create_schedule (shift_type_id shift_type)
                  (template_version_id latest_version) ;;
    (* 3. upsert *)
    upsert_work_shift
      (mkWorkShiftValues user_id (dateOnly work_date) (schedule_id schedule)
         (note_or_null note_) 0 user_id)).

Definition mark_deleted (now : Timestamp) (user_id : uuid) (w : WorkShift) : WorkShift :=
  mkWorkShift (work_shift_id w) (owner_user_id w) (work_date w) (ws_schedule_id w)
              (note w) (visibility_level w) (created_by_user_id w)
              (Some now) (Some user_id).

(** [deleteWorkShift(user_id, work_shift_id)]: soft delete. *)
Definition deleteWorkShift (now : Timestamp) (user_id id : uuid) : DB -> Run unit :=
  autocommit (
    work_shift <-
      find_or_throw
        (fun db => find (fun w => Nat.eqb (work_shift_id w) id
                                  && Nat.eqb (owner_user_id w) user_id
                                  && live_work_shift w)
                        (work_shifts db))
        WORK_SHIFT_NOT_FOUND ;;
    write (set_work_shifts
             (map (fun w => if Nat.eqb (work_shift_id w) (work_shift_id work_shift)
                            then mark_deleted now user_id work_shift else w)))).

(** *** Batch upsert *)

Record BatchEntry : Type := mkBatchEntry {
  entry_work_date : string;
  entry_shift_type_code : string;
  entry_note : Field string
}.

(** [new Set(xs)], in insertion order. *)
Fixpoint new_Set (xs : list string) : list string :=
  match xs with
  | [] => []
  | x :: rest => x :: filter (fun y => negb (String.eqb y x)) (new_Set rest)
  end.

(** [xs.indexOf(x)] *)
Fixpoint indexOf (x : string) (xs : list string) : Z :=
  match xs with
  | [] => -1
  | y :: rest =>
      if String.eqb y x then 0
      else let i := indexOf x rest in if i <? 0 then -1 else i + 1
  end.

(** [xs.filter((x, index) => p(x, index))], counting from [index]. *)
Fixpoint filter_indexed {A} (p : A -> Z -> bool) (index : Z) (xs : list A) : list A :=
  match xs with
  | [] => []
  | x :: rest =>
      if p x index then x :: filter_indexed p (index + 1) rest
      else filter_indexed p (index + 1) rest
  end.

(** The payload of [DUPLICATE_DATE]. *)
Definition duplicate_dates_of (dates : list string) : list string :=
  new_Set (filter_indexed (fun date index => negb (indexOf date dates =? index)) 0 dates).

(** Step 4-2 of the batch loop: the version in force on the entry's date,
    else the template's latest one. *)
Definition valid_version (tid : uuid) (work_date : string)
  : Stmt ShiftTemplateVersion :=
  fun db =>
    match find_version_in_force tid (dateOnly work_date) db with
    | Some v => (db, inr v)
    | None =>
        match find_latest_version tid db with
        | Some v => (db, inr v)
        | None => (db, inl (TEMPLATE_VERSION_NOT_FOUND work_date))
        end
    end.

(** One turn of the batch loop. *)
Definition upsert_entry (user_id : uuid) (template : ShiftTemplate) (ws : BatchEntry)
  : Stmt WorkShift :=
  (* 4-1. the shift type of that code on the template *)
  shift_type <-
    find_or_throw (find_shift_type_by_code (entry_shift_type_code ws)
                                           (template_id template))
      (INVALID_SHIFT_TYPE (entry_shift_type_code ws) (entry_work_date ws)) ;;
  (* 4-2. the schedule under the version valid on that date *)
  version <- valid_version (template_id template) (entry_work_date ws) ;;
  schedule <- find_or_create_schedule (shift_type_id shift_type)
                (template_version_id version) ;;
  (* 4-3. upsert *)
  upsert_work_shift
    (mkWorkShiftValues user_id (dateOnly (entry_work_date ws)) (schedule_id schedule)
       (note_or_null (entry_note ws)) 0 user_id).

Fixpoint upsert_entries (user_id : uuid) (template : ShiftTemplate)
    (entries : list BatchEntry) (saved_work_shifts : list WorkShift)
  : Stmt (list WorkShift) :=
  match entries with
  | [] => ret saved_work_shifts
  | ws :: rest =>
      work_shift <- upsert_entry user_id template ws ;;
      upsert_entries user_id template rest (saved_work_shifts ++ [work_shift])
  end.

Record WorkShiftDetail : Type := mkWorkShiftDetail {
  detail_work_shift_id : uuid;
  detail_work_date : Date;
  detail_shift_type_code : string;
  detail_shift_type_name : string;
  detail_shift_type_color : option Z;
  detail_start_time : option string;
  detail_end_time : option string;
  detail_note : option string
}.

(** [s || null] on a nullable string column. *)
Definition string_or_null (s : option string) : option string :=
  match s with
  | Some v => if String.eqb v "" then None else Some v
  | None => None
  end.

(** Steps 6 and 7 of the batch: the saved rows joined with their schedule
    and shift type (both required), in table order. *)
Definition work_shifts_with_details (ids : list uuid) (db : DB) : list WorkShiftDetail :=
  flat_map
    (fun w =>
       if existsb (Nat.eqb (work_shift_id w)) ids then
         match find (fun s => Nat.eqb (schedule_id s) (ws_schedule_id w))
                    (shift_type_schedules db) with
         | Some s =>
             match find (fun st => Nat.eqb (shift_type_id st) (sch_shift_type_id s))
                        (shift_types db) with
             | Some st =>
                 [mkWorkShiftDetail (work_shift_id w) (work_date w) (st_code st)
                    (st_name st) (st_color st) (string_or_null (start_time s))
                    (string_or_null (end_time s)) (string_or_null (note w))]
             | None => []
             end
         | None => []
         end
       else [])
    (work_shifts db).

Definition batchUpsertWorkShifts (user_id : uuid) (entries : list BatchEntry)
    (db : DB) : Run (list WorkShiftDetail) :=
  (* 1. no date twice in the request *)
  let dates := map entry_work_date entries in
  let unique_dates := new_Set dates in
  if negb (Nat.eqb (List.length dates) (List.length unique_dates))
  then mkRun db [] (inl (DUPLICATE_DATE (duplicate_dates_of dates)))
  else
    (* 2. the caller's active template *)
    match find_active_template user_id db with
    | None => mkRun db [] (inl TEMPLATE_NOT_FOUND)
    | Some template =>
        (* 3. const transaction = await sequelize.transaction() *)
        let working := db in
        (* 4. the loop, inside try *)
        match upsert_entries user_id template entries [] working with
        | (working, inr saved_work_shifts) =>
            (* 5. await transaction.commit() *)
            let db := working in
            (* 6, 7. the response, read outside the transaction *)
            mkRun db [TxBegin; TxCommit]
              (inr (work_shifts_with_details (map work_shift_id saved_work_shifts) db))
        | (_, inl error) =>
            (* catch: not committed, so await transaction.rollback(); throw *)
            mkRun db [TxBegin; TxRollback] (inl error)
        end
    end.

End Reconciler.

(* ================================================================== *)
(** ** Vocabulary of the properties *)
(* ================================================================== *)

(** The versions of a template. *)
Definition version_of (tid : uuid) (db : DB) (v : ShiftTemplateVersion) : Prop :=
  In v (shift_template_versions db) /\ ver_template_id v = tid.



(** Two stores with the same templates, versions and shift types: what the
    statements of a batch leave untouched. *)
Definition same_definitions (db db' : DB) : Prop :=
  shift_templates db' = shift_templates db
  /\ shift_template_versions db' = shift_template_versions db
  /\ shift_types db' = shift_types db.

(** The rows of the work-shift table for an owner and a day, and the live
    ones among them. *)
Definition rows_of_day (user_id : uuid) (date : Date) (db : DB) : list WorkShift :=
  filter (same_day_of_owner user_id date) (work_shifts db).

Definition live_rows_of_day (user_id : uuid) (date : Date) (db : DB) : list WorkShift :=
  filter live_work_shift (rows_of_day user_id date db).

(** A schedule that a live work shift points to. *)
Definition referenced_by_live_work_shift (sid : uuid) (db : DB) : Prop :=
  exists w, In w (work_shifts db)
            /\ ws_schedule_id w = sid
            /\ live_work_shift w = true.

(** A schedule that a row of the work-shift table points to, live or
    soft-deleted. *)
Definition referenced_by_work_shift (sid : uuid) (db : DB) : Prop :=
  exists w, In w (work_shifts db) /\ ws_schedule_id w = sid.

(** A shift type one of whose schedules, under whatever version, a live
    work shift points to. *)
Definition shift_type_in_use (id : uuid) (db : DB) : Prop :=
  exists s, In s (shift_type_schedules db)
            /\ sch_shift_type_id s = id
            /\ referenced_by_live_work_shift (schedule_id s) db.

(** The schedule table with the times of one row cleared in place, and
    with one row removed. *)
Definition clear_times_of (s : ShiftTypeSchedule) (rows : list ShiftTypeSchedule)
  : list ShiftTypeSchedule :=
  map (fun r => if Nat.eqb (schedule_id r) (schedule_id s)
                then with_times s None None false (Num 0) else r) rows.

Definition without_schedule (s : ShiftTypeSchedule) (rows : list ShiftTypeSchedule)
  : list ShiftTypeSchedule :=
  filter (fun r => negb (Nat.eqb (schedule_id r) (schedule_id s))) rows.


(** The colour and the sort order that a request gives fit the [BIGINT]
    and the [SMALLINT] column. *)
Definition update_storable (data : UpdateShiftTypeData) : Prop :=
  column_holds in_bigint (nullish (upd_color data)) = true
  /\ column_holds in_smallint (nullish (upd_sort_order data)) = true.

(** The sort order [createShiftType] gives the new shift type of a
    template: the one of the request, or one more than the largest among
    the template's live shift types. *)
Definition sort_order_of_new (data : CreateShiftTypeData) (tid : uuid) (db : DB) : Z :=
  match nullish (new_sort_order data) with
  | Some n => n
  | None =>
      match max_sort_order (filter (live_shift_type_of tid) (shift_types db)) with
      | Some m => m
      | None => 0
      end + 1
  end.

Definition create_storable (data : CreateShiftTypeData) (tid : uuid) (db : DB) : Prop :=
  column_holds in_bigint (nullish (new_color data)) = true
  /\ in_smallint (sort_order_of_new data tid db) = true.

(** The store in the middle of [updateShiftType], after step 2. *)
Definition after_step_2 (data : UpdateShiftTypeData) (st : ShiftType) (db : DB) : DB :=
  set_shift_types
    (map (fun r => if Nat.eqb (shift_type_id r) (shift_type_id st)
                   then assign_shift_type data st else r)) db.

(* ================================================================== *)
(** ** Example stores *)
(* ================================================================== *)

(** For the examples: [YYYY-MM-DD] read as the number [YYYYMMDD], which
    orders days as the calendar does. *)
Definition iso_day (s : string) : Date :=
  match map Number (split_on "-" s) with
  | [Num y; Num m; Num d] => y * 10000 + m * 100 + d
  | _ => 0
  end.

Definition alice : uuid := 1%nat.
Definition bob : uuid := 2%nat.

Definition base_template : ShiftTemplate := mkShiftTemplate 1 alice "base" None.

(** Two versions of the template, in force from 2024-01-01 and from
    2024-02-01. *)
Definition version_1 : ShiftTemplateVersion :=
  mkShiftTemplateVersion 1 1 1 20240101 alice.
Definition version_2 : ShiftTemplateVersion :=
  mkShiftTemplateVersion 2 1 2 20240201 alice.

Definition day_type : ShiftType := mkShiftType 1 1 "D" "Day" None (Some 1) None.
Definition night_type : ShiftType := mkShiftType 2 1 "N" "Night" None (Some 2) None.

Definition day_schedule_v1 : ShiftTypeSchedule :=
  mkShiftTypeSchedule 1 1 1 (Some "06:30:00") (Some "15:00:00") false (Num 510).
Definition day_schedule_v2 : ShiftTypeSchedule :=
  mkShiftTypeSchedule 2 1 2 (Some "07:00:00") (Some "15:00:00") false (Num 480).

(** A template with two versions, two shift types and no work shift yet. *)
Definition versioned_db : DB :=
  mkDB [base_template] [version_1; version_2] [day_type; night_type]
       [day_schedule_v1; day_schedule_v2] [].

(** A template that has a shift type but no version. *)
Definition unversioned_db : DB :=
  mkDB [base_template] [] [day_type] [] [].

(** Alice puts the day shift on 2024-01-15, then deletes that work shift
    at time 7. *)
Definition assigned_db : DB :=
  store (upsertWorkShift iso_day alice "2024-01-15" "D" Null versioned_db).

Definition deleted_day_db : DB :=
  store (deleteWorkShift 7 alice 1 assigned_db).

(** A template that holds ten live shift types. *)
Definition full_db : DB :=
  mkDB [base_template] [version_1]
       (map (fun n => mkShiftType n 1 "T" "type" None (Some (Z.of_nat n)) None)
            (seq 1 10))
       [] [].

(* ================================================================== *)
(** ** Listings *)
(* ================================================================== *)

(** [ORDER BY]: a stable insertion sort, so that rows the order does not
    tell apart come in table order. *)
Fixpoint insert_by {A} (leb : A -> A -> bool) (x : A) (xs : list A) : list A :=
  match xs with
  | [] => [x]
  | y :: rest => if leb x y then x :: y :: rest else y :: insert_by leb x rest
  end.

Definition order_by {A} (leb : A -> A -> bool) (xs : list A) : list A :=
  fold_right (insert_by leb) [] xs.

(** [ASC] on a nullable integer column: PostgreSQL puts [NULL] last. *)
Definition asc_nulls_last (a b : option Z) : bool :=
  match a, b with
  | Some x, Some y => x <=? y
  | Some _, None => true
  | None, Some _ => false
  | None, None => true
  end.

(** [n || 0] *)
Definition number_or_zero (n : JSNumber) : JSNumber :=
  match n with
  | NaN => Num 0
  | Num z => Num z
  end.

Record ShiftTypeListing : Type := mkShiftTypeListing {
  listing_template_id : uuid;
  listing_template_name : string;
  listing_shift_types : list ShiftTypeView
}.

(** One element of the response of [getShiftTypes]: the shift type with
    the first schedule the [LEFT JOIN] gave it, if any. *)
Definition shift_type_with_schedule (vid : uuid) (db : DB) (st : ShiftType)
  : ShiftTypeView :=
  match find_schedule (shift_type_id st) vid db with
  | Some schedule =>
      mkShiftTypeView (shift_type_id st) (st_code st) (st_name st) (st_color st)
        (st_sort_order st) (string_or_null (start_time schedule))
        (string_or_null (end_time schedule)) (crosses_midnight schedule)
        (number_or_zero (duration_minutes schedule))
  | None =>
      mkShiftTypeView (shift_type_id st) (st_code st) (st_name st) (st_color st)
        (st_sort_order st) None None false (Num 0)
  end.

(** [ShiftType.findAll({ where: { template_id, deleted_at: null }, ...,
      order: [["sort_order", "ASC"]] })] *)
Definition live_shift_types_in_order (tid : uuid) (db : DB) : list ShiftType :=
  order_by (fun a b => asc_nulls_last (st_sort_order a) (st_sort_order b))
           (filter (live_shift_type_of tid) (shift_types db)).

Definition getShiftTypes (user_id : uuid) : DB -> Run ShiftTypeListing :=
  autocommit (
    (* 1. the caller's active template *)
    template <- find_or_throw (find_active_template user_id) TEMPLATE_NOT_FOUND ;;
    (* 2. its latest version *)
    latest_version <- find_or_throw (find_latest_version (template_id template))
                        TEMPLATE_NOT_FOUND ;;
    (* 3. the shift types with their schedules under that version *)
    query (fun db =>
      mkShiftTypeListing (template_id template) (tpl_name template)
        (map (shift_type_with_schedule (template_version_id latest_version) db)
             (live_shift_types_in_order (template_id template) db)))).

(* ================================================================== *)
(** ** Templates (shiftTemplateService) *)
(* ================================================================== *)

Definition DEFAULT_TEMPLATE_NAME : string := "기본 3교대".

(** The names and colours of [DEFAULT_SHIFT_TYPES], in the same order. *)
Definition DEFAULT_SHIFT_TYPE_LABELS : list (string * Z) :=
  [ ("데이", 4294288931); ("이브닝", 4293467747);
    ("나이트", 4283979478); ("오프", 4281648985) ].

(** [ShiftTemplate.create({ owner_user_id, name })] *)
Definition create_template (user_id : uuid) (name : string) : Stmt ShiftTemplate :=
  fun db =>
    let row := mkShiftTemplate (fresh_uuid (map template_id (shift_templates db)))
                 user_id name None in
    (mkDB (shift_templates db ++ [row]) (shift_template_versions db)
          (shift_types db) (shift_type_schedules db) (work_shifts db),
     inr row).

(** [ShiftTemplateVersion.create({ template_id, version_no, effective_from,
      created_by_user_id })] *)
Definition create_version (tid : uuid) (no : Z) (from : Date) (user_id : uuid)
  : Stmt ShiftTemplateVersion :=
  fun db =>
    let row := mkShiftTemplateVersion
                 (fresh_uuid (map template_version_id (shift_template_versions db)))
                 tid no from user_id in
    (mkDB (shift_templates db) (shift_template_versions db ++ [row])
          (shift_types db) (shift_type_schedules db) (work_shifts db),
     inr row).

(** Step 3 of [createDefaultShiftTemplate]: one shift type per entry of
    the table. *)
Fixpoint create_default_shift_types (tid : uuid)
    (infos : list (DefaultShiftTypeInfo * (string * Z))) (created : list ShiftType)
  : Stmt (list ShiftType) :=
  match infos with
  | [] => ret created
  | (type_info, (name, color)) :: rest =>
      shift_type <- create_shift_type tid (default_code type_info) name (Some color)
                      (Some (default_sort_order type_info)) ;;
      create_default_shift_types tid rest (created ++ [shift_type])
  end.

(** Step 4: one schedule per created shift type, with the times of the
    entry at the same index. *)
Fixpoint create_default_schedules (vid : uuid)
    (pairs : list (ShiftType * DefaultShiftTypeInfo))
    (created : list ShiftTypeSchedule) : Stmt (list ShiftTypeSchedule) :=
  match pairs with
  | [] => ret created
  | (shift_type, type_info) :: rest =>
      schedule <- create_schedule (shift_type_id shift_type) vid
                    (default_start_time type_info) (default_end_time type_info)
                    (default_crosses_midnight type_info)
                    (Num (default_duration_minutes type_info)) ;;
      create_default_schedules vid rest (created ++ [schedule])
  end.

Record DefaultTemplate : Type := mkDefaultTemplate {
  created_template : ShiftTemplate;
  created_version : ShiftTemplateVersion;
  created_shift_types : list ShiftType;
  created_schedules : list ShiftTypeSchedule
}.

(** The body of [createDefaultShiftTemplate]; [today] is the calendar day
    of [new Date()].  The unique index on the live (owner, name) pairs is
    the store's to enforce: the body is meant for an owner without a live
    template, which is when [ensureDefaultTemplate] runs it. *)
Definition executeInTransaction (today : Date) (user_id : uuid) : Stmt DefaultTemplate :=
  (* 1. the template *)
  template <- create_template user_id DEFAULT_TEMPLATE_NAME ;;
  (* 2. its version 1 *)
  version <- create_version (template_id template) 1 today user_id ;;
  (* 3. the shift types *)
  shift_types <- create_default_shift_types (template_id template)
                   (combine DEFAULT_SHIFT_TYPES DEFAULT_SHIFT_TYPE_LABELS) [] ;;
  (* 4. their schedules under the version *)
  schedules <- create_default_schedules (template_version_id version)
                 (combine shift_types DEFAULT_SHIFT_TYPES) [] ;;
  ret (mkDefaultTemplate template version shift_types schedules).

(** [createDefaultShiftTemplate(user_id)], without an external
    transaction: the body in a transaction of its own.  With an external
    transaction the body, [executeInTransaction], runs in the caller's. *)
Definition createDefaultShiftTemplate (today : Date) (user_id : uuid)
  : DB -> Run DefaultTemplate :=
  transaction (fun _ => executeInTransaction today user_id).

(** [hasDefaultTemplate(user_id)] *)
Definition hasDefaultTemplate (user_id : uuid) (db : DB) : bool :=
  negb (is_null (find_active_template user_id db)).

(** [ensureDefaultTemplate(user_id)], without an external transaction. *)
Definition ensureDefaultTemplate (today : Date) (user_id : uuid) (db : DB) : Run unit :=
  if negb (hasDefaultTemplate user_id db)
  then
    let run := createDefaultShiftTemplate today user_id db in
    mkRun (store run) (events run)
          (match result run with
           | inl e => inl e
           | inr _ => inr tt
           end)
  else mkRun db [] (inr tt).

Record CurrentTemplate : Type := mkCurrentTemplate {
  current_template_id : uuid;
  current_template_name : string;
  current_owner_user_id : uuid;
  current_version : option ShiftTemplateVersion
}.

(** [getCurrentTemplate(user_id)] *)
Definition getCurrentTemplate (user_id : uuid) : DB -> Run CurrentTemplate :=
  autocommit (
    template <- find_or_throw (find_active_template user_id) TEMPLATE_NOT_FOUND ;;
    latest_version <- query (find_latest_version (template_id template)) ;;
    ret (mkCurrentTemplate (template_id template) (tpl_name template)
           (tpl_owner_user_id template) latest_version)).

(** Another live template of the owner with that name:
    [ShiftTemplate.findOne({ where: { owner_user_id, name, deleted_at: null,
      template_id: { [Op.ne]: template_id } } })] *)
Definition find_other_template_named (user_id : uuid) (name : string) (tid : uuid)
    (db : DB) : option ShiftTemplate :=
  find (fun t => Nat.eqb (tpl_owner_user_id t) user_id
                 && String.eqb (tpl_name t) name
                 && is_null (tpl_deleted_at t)
                 && negb (Nat.eqb (template_id t) tid))
       (shift_templates db).

(** [template.name = name; template.save()]: the row with this primary
    key takes the new name. *)
Definition rename_template (tid : uuid) (name : string) (db : DB) : DB :=
  mkDB (map (fun t => if Nat.eqb (template_id t) tid
                      then mkShiftTemplate (template_id t) (tpl_owner_user_id t)
                             name (tpl_deleted_at t)
                      else t)
            (shift_templates db))
       (shift_template_versions db) (shift_types db) (shift_type_schedules db)
       (work_shifts db).

(** [updateTemplateName(user_id, name)].  The errors are the messages the
    service throws. *)
Definition updateTemplateName (user_id : uuid) (name : string) (db : DB)
  : DB * (string + ShiftTemplate) :=
  match find_active_template user_id db with
  | None => (db, inl "TEMPLATE_NOT_FOUND")
  | Some template =>
      match find_other_template_named user_id name (template_id template) db with
      | Some _ => (db, inl "DUPLICATE_NAME")
      | None =>
          (rename_template (template_id template) name db,
           inr (mkShiftTemplate (template_id template) (tpl_owner_user_id template)
                  name (tpl_deleted_at template)))
      end
  end.

(* ================================================================== *)
(** ** Reading the calendar (calendarService) *)
(* ================================================================== *)

(** [updateWorkShift(user_id, work_shift_id, shift_type_code, note)] *)
Definition set_schedule_and_note (new_schedule_id : option uuid)
    (new_note : Field string) (w : WorkShift) : WorkShift :=
  mkWorkShift (work_shift_id w) (owner_user_id w) (work_date w)
    (match new_schedule_id with Some sid => sid | None => ws_schedule_id w end)
    (if defined new_note then nullish new_note else note w)
    (visibility_level w) (created_by_user_id w) (deleted_at w) (deleted_by_user_id w).

(** [WorkShift.findOne({ where: { work_shift_id, owner_user_id,
      deleted_at: null } })] *)
Definition find_live_work_shift (id user_id : uuid) (db : DB) : option WorkShift :=
  find (fun w => Nat.eqb (work_shift_id w) id
                 && Nat.eqb (owner_user_id w) user_id
                 && live_work_shift w)
       (work_shifts db).

(** [work_shift.update(update_data)]: the row with this primary key takes
    the columns of [update_data]. *)
Definition update_work_shift (id : uuid) (new_schedule_id : option uuid)
    (new_note : Field string) : Stmt unit :=
  write (set_work_shifts
           (map (fun w => if Nat.eqb (work_shift_id w) id
                          then set_schedule_and_note new_schedule_id new_note w
                          else w))).

Definition updateWorkShift (user_id id : uuid) (shift_type_code : Field string)
    (note_ : Field string) : DB -> Run WorkShift :=
  autocommit (
    work_shift <- find_or_throw (find_live_work_shift id user_id)
                    WORK_SHIFT_NOT_FOUND ;;
    new_schedule_id <-
      (if truthy shift_type_code
       then
         match nullish shift_type_code with
         | Some code =>
             shift_type <- find_or_throw (find_shift_type_of_owner code user_id)
                             SHIFT_TYPE_NOT_FOUND ;;
             template <- find_or_throw (find_active_template user_id)
                           TEMPLATE_NOT_FOUND ;;
             latest_version <- find_or_throw
                                 (find_latest_version (template_id template))
                                 TEMPLATE_NOT_FOUND ;;
             schedule <- find_or_create_schedule (shift_type_id shift_type)
                           (template_version_id latest_version) ;;
             ret (Some (schedule_id schedule))
         | None => ret None
         end
       else ret None) ;;
    update_work_shift (work_shift_id work_shift) new_schedule_id note_ ;;;
    ret (set_schedule_and_note new_schedule_id note_ work_shift)).

(** The schedule and shift type an inner join gives a work shift, as the
    element of a response; nothing when either is missing. *)
Definition work_shift_detail (db : DB) (w : WorkShift) : option WorkShiftDetail :=
  match find (fun s => Nat.eqb (schedule_id s) (ws_schedule_id w))
             (shift_type_schedules db) with
  | Some s =>
      match find (fun st => Nat.eqb (shift_type_id st) (sch_shift_type_id s))
                 (shift_types db) with
      | Some st =>
          Some (mkWorkShiftDetail (work_shift_id w) (work_date w) (st_code st)
                  (st_name st) (st_color st) (string_or_null (start_time s))
                  (string_or_null (end_time s)) (string_or_null (note w)))
      | None => None
      end
  | None => None
  end.

Definition option_to_list {A} (o : option A) : list A :=
  match o with
  | Some a => [a]
  | None => []
  end.

Record Event : Type := mkEvent {
  event_id : uuid;
  ev_owner_user_id : uuid;
  ev_created_by_user_id : uuid;
  ev_title : string;
  ev_memo : option string;
  ev_place : option string;
  ev_all_day : bool;
  start_at : Timestamp;
  end_at : Timestamp;
  ev_visibility_level : Z;
  ev_deleted_at : option Timestamp;
  ev_deleted_by_user_id : option uuid
}.

Record EventView : Type := mkEventView {
  view_event_id : uuid;
  view_title : string;
  view_memo : option string;
  view_place : option string;
  view_all_day : bool;
  view_start_at : Timestamp;
  view_end_at : Timestamp;
  view_visibility_level : Z
}.

Definition event_view (e : Event) : EventView :=
  mkEventView (event_id e) (ev_title e) (string_or_null (ev_memo e))
    (string_or_null (ev_place e)) (ev_all_day e) (start_at e) (end_at e)
    (ev_visibility_level e).

(** The model-level validator of [Event]: an event starts before it ends. *)
Definition event_time_consistency (e : Event) : bool := start_at e <? end_at e.

Definition live_event_of (user_id : uuid) (e : Event) : bool :=
  Nat.eqb (ev_owner_user_id e) user_id && is_null (ev_deleted_at e).

Record DayWorkShift : Type := mkDayWorkShift {
  day_work_shift_id : uuid;
  day_shift_type_code : string;
  day_shift_type_name : string;
  day_shift_type_color : option Z;
  day_start_time : option string;
  day_end_time : option string;
  day_note : option string
}.

(** The element of [getDaySchedule]: that of [getWorkShifts] less its
    date. *)
Definition without_date (d : WorkShiftDetail) : DayWorkShift :=
  mkDayWorkShift (detail_work_shift_id d) (detail_shift_type_code d)
    (detail_shift_type_name d) (detail_shift_type_color d)
    (detail_start_time d) (detail_end_time d) (detail_note d).

Record DaySchedule : Type := mkDaySchedule {
  day_date : string;
  day_work_shifts : list DayWorkShift;
  day_events : list EventView
}.

Record CalendarRange : Type := mkCalendarRange {
  range_work_shifts : list WorkShiftDetail;
  range_events : list EventView
}.

Section Reading.

(** The calendar day a date string denotes in a [where] clause on a
    [DATEONLY] column. *)
Variable dateLiteral : string -> Date.

(** [d = new Date(date); d.setHours(0, 0, 0, 0)] and
    [d.setHours(23, 59, 59, 999)]: the first and the last instant of the
    server's day of [date]. *)
Variable startOfDay : string -> Timestamp.
Variable endOfDay : string -> Timestamp.

(** The rows of [getWorkShifts] before the joins. *)
Definition live_work_shifts_between (user_id : uuid) (start_date end_date : string)
    (db : DB) : list WorkShift :=
  filter (fun w => Nat.eqb (owner_user_id w) user_id
                   && ((dateLiteral start_date <=? work_date w)
                       && (work_date w <=? dateLiteral end_date))
                   && live_work_shift w)
         (work_shifts db).

(** [getWorkShifts(user_id, start_date, end_date)] *)
Definition getWorkShifts (user_id : uuid) (start_date end_date : string) (db : DB)
  : list WorkShiftDetail :=
  flat_map (fun w => option_to_list (work_shift_detail db w))
    (order_by (fun a b => work_date a <=? work_date b)
       (live_work_shifts_between user_id start_date end_date db)).

(** [getEvents(user_id, start_date, end_date)]: the live events of the
    owner that overlap the period, by start. *)
Definition getEvents (user_id : uuid) (start_date end_date : string)
    (events_table : list Event) : list EventView :=
  map event_view
    (order_by (fun a b => start_at a <=? start_at b)
       (filter (fun e => live_event_of user_id e
                         && ((start_at e <=? endOfDay end_date)
                             && (startOfDay start_date <=? end_at e)))
               events_table)).

(** [getCalendarRange(user_id, start_date, end_date)] *)
Definition getCalendarRange (user_id : uuid) (start_date end_date : string)
    (db : DB) (events_table : list Event) : CalendarRange :=
  mkCalendarRange (getWorkShifts user_id start_date end_date db)
                  (getEvents user_id start_date end_date events_table).

(** [getDaySchedule(user_id, date)]: the work shift of the day, if any,
    and the events that start on the day. *)
Definition getDaySchedule (user_id : uuid) (date : string) (db : DB)
    (events_table : list Event) : DaySchedule :=
  let work_shift :=
    find (fun w => Nat.eqb (owner_user_id w) user_id
                   && (work_date w =? dateLiteral date)
                   && live_work_shift w
                   && negb (is_null (work_shift_detail db w)))
         (work_shifts db) in
  let events :=
    order_by (fun a b => start_at a <=? start_at b)
      (filter (fun e => live_event_of user_id e
                        && ((startOfDay date <=? start_at e)
                            && (start_at e <=? endOfDay date)))
              events_table) in
  mkDaySchedule date
    (match work_shift with
     | Some w => map without_date (option_to_list (work_shift_detail db w))
     | None => []
     end)
    (map event_view events).

End Reading.

(** [deleteEvent(user_id, event_id)]: soft delete; [now] is the clock
    reading.  The error is the message the service throws. *)
Definition deleteEvent (now : Timestamp) (user_id id : uuid)
    (events_table : list Event) : list Event * (string + unit) :=
  match find (fun e => Nat.eqb (event_id e) id && live_event_of user_id e)
             events_table with
  | None => (events_table, inl "EVENT_NOT_FOUND")
  | Some _ =>
      (map (fun e => if Nat.eqb (event_id e) id
                     then mkEvent (event_id e) (ev_owner_user_id e)
                            (ev_created_by_user_id e) (ev_title e) (ev_memo e)
                            (ev_place e) (ev_all_day e) (start_at e) (end_at e)
                            (ev_visibility_level e) (Some now) (Some user_id)
                     else e)
           events_table,
       inr tt)
  end.

(** For the examples: instants counted in seconds, a day of [iso_day]
    taking 100000 of them, and two events of Alice on 2024-01-15: a
    meeting from 09:00 to 10:00 and a deleted one. *)
Definition day_start (s : string) : Timestamp := iso_day s * 100000.
Definition day_end (s : string) : Timestamp := iso_day s * 100000 + 86399.

Definition example_events : list Event :=
  [ mkEvent 1 alice alice "meeting" None None false
      (20240115 * 100000 + 32400) (20240115 * 100000 + 36000) 0 None None;
    mkEvent 2 alice alice "dentist" None None false
      (20240115 * 100000 + 50400) (20240115 * 100000 + 54000) 0 (Some 5) (Some alice) ].

(* ================================================================== *)
(** ** Constraints of the schema *)
(* ================================================================== *)

(** The unique index of [shift_templates]: among an owner's live templates
    a name is borne by one id. *)
Definition live_names_distinct (db : DB) : Prop :=
  forall t1 t2,
    In t1 (shift_templates db) -> In t2 (shift_templates db) ->
    tpl_owner_user_id t1 = tpl_owner_user_id t2 ->
    tpl_name t1 = tpl_name t2 ->
    tpl_deleted_at t1 = None -> tpl_deleted_at t2 = None ->
    template_id t1 = template_id t2.

(** The foreign keys of versions and shift types to their template. *)
Definition templates_referenced (db : DB) : Prop :=
  (forall v, In v (shift_template_versions db) ->
             In (ver_template_id v) (map template_id (shift_templates db)))
  /\ (forall st, In st (shift_types db) ->
                 In (st_template_id st) (map template_id (shift_templates db))).

(** The foreign key of schedules to their shift type. *)
Definition shift_types_referenced (db : DB) : Prop :=
  forall s, In s (shift_type_schedules db) ->
            In (sch_shift_type_id s) (map shift_type_id (shift_types db)).

(** The unique index of [work_shifts]: an owner has at most one row, live
    or not, per day. *)
Definition one_row_per_day (db : DB) : Prop :=
  forall user_id date, (List.length (rows_of_day user_id date db) <= 1)%nat.

(** A store without any row. *)
Definition empty_db : DB := mkDB [] [] [] [] [].

(** The limit on the live shift types of a template. *)
Definition within_capacity (db : DB) : Prop :=
  forall tid, count_live_shift_types tid db <= MAX_SHIFT_TYPES_PER_TEMPLATE.

(** The primary key and the unique index of [work_shifts]. *)
Definition work_shifts_well_keyed (db : DB) : Prop :=
  NoDup (map work_shift_id (work_shifts db)) /\ one_row_per_day db.

(** A schedule row without times, as the reconciler creates them. *)
Definition untimed (s : ShiftTypeSchedule) : Prop :=
  start_time s = None /\ end_time s = None
  /\ crosses_midnight s = false /\ duration_minutes s = Num 0.

(** The reconciler's footprint on the definitions, from a store [db0]:
    templates, versions and shift types as they were, and the schedules
    with untimed rows added at the end. *)
Definition definitions_extended (db0 db : DB) : Prop :=
  same_definitions db0 db
  /\ exists added, shift_type_schedules db = shift_type_schedules db0 ++ added
                   /\ Forall untimed added.

(** A statement keeps a property of the store, whatever it returns. *)
Definition stmt_preserves {A} (P : DB -> Prop) (m : Stmt A) : Prop :=
  forall db db' r, m db = (db', r) -> P db -> P db'.

(* ================================================================== *)
(** ** Properties of the time arithmetic *)
(* ================================================================== *)

Section TimeInfoFacts.

Lemma is_digit_digit_of_ascii (c : ascii) :
  is_digit c = true -> digit_of_ascii c = Some (digit_value c).
Proof.
  unfold is_digit, digit_of_ascii, digit_value. intros H.
  apply andb_true_iff in H. destruct H as [H0 H9].
  apply Z.leb_le in H0. apply Z.leb_le in H9.
  replace (48 <=? Z.of_nat (nat_of_ascii c)) with true
    by (symmetry; apply Z.leb_le; lia).
  replace (Z.of_nat (nat_of_ascii c) <=? 57) with true
    by (symmetry; apply Z.leb_le; lia).
  reflexivity.
Qed.

Lemma is_digit_not_colon (c : ascii) :
  is_digit c = true -> Ascii.eqb c ":" = false.
Proof.
  intros H. destruct (Ascii.eqb_spec c ":") as [->|]; [|reflexivity].
  discriminate H.
Qed.

Lemma is_digit_range (c : ascii) :
  is_digit c = true -> 0 <= digit_value c <= 9.
Proof.
  unfold is_digit. intros H. apply andb_true_iff in H.
  destruct H as [H0 H9]. apply Z.leb_le in H0. apply Z.leb_le in H9. lia.
Qed.

Lemma split_on_step (sep c : ascii) (r : string) :
  Ascii.eqb c sep = false ->
  split_on sep (String c r) =
  match split_on sep r with
  | [] => [String c EmptyString]
  | p :: ps => String c p :: ps
  end.
Proof. intros H. simpl. rewrite H. reflexivity. Qed.

Lemma split_on_sep (sep : ascii) (r : string) :
  split_on sep (String sep r) = EmptyString :: split_on sep r.
Proof. simpl. rewrite Ascii.eqb_refl. reflexivity. Qed.

Lemma Number_two_digits (a b : ascii) :
  is_digit a = true -> is_digit b = true ->
  Number (String a (String b EmptyString))
  = Num (10 * digit_value a + digit_value b).
Proof.
  intros Ha Hb. unfold Number. simpl.
  rewrite (is_digit_digit_of_ascii _ Ha), (is_digit_digit_of_ascii _ Hb).
  f_equal; lia.
Qed.

(** The parser of [calculateTimeInfo] reads a well-formed time as its
    minute of the day. *)
Lemma is_hour_inv (a b : ascii) :
  is_hour a b = true ->
  is_digit a = true /\ is_digit b = true
  /\ 10 * digit_value a + digit_value b <= 23.
Proof.
  unfold is_hour. intros H.
  apply andb_prop in H. destruct H as [H H23].
  apply andb_prop in H. destruct H as [Ha Hb].
  apply Z.leb_le in H23. auto.
Qed.

Lemma is_sixty_inv (a b : ascii) :
  is_sixty a b = true ->
  is_digit a = true /\ is_digit b = true /\ digit_value a <= 5.
Proof.
  unfold is_sixty. intros H.
  apply andb_prop in H. destruct H as [H H5].
  apply andb_prop in H. destruct H as [Ha Hb].
  apply Z.leb_le in H5. auto.
Qed.

Lemma is_time_inv (s : string) :
  is_time s = true ->
  exists h1 h2 m1 m2 rest,
    s = String h1 (String h2 (String ":" (String m1 (String m2 rest))))
    /\ is_hour h1 h2 = true /\ is_sixty m1 m2 = true
    /\ (rest = EmptyString \/
        exists s1 s2, rest = String ":" (String s1 (String s2 EmptyString))).
Proof.
  destruct s as [|h1 [|h2 [|sep [|m1 [|m2 rest]]]]]; try discriminate.
  cbn [is_time]. intros H.
  apply andb_prop in H. destruct H as [H Hrest].
  apply andb_prop in H. destruct H as [H Hm].
  apply andb_prop in H. destruct H as [Hh Hsep].
  apply Ascii.eqb_eq in Hsep. subst sep.
  exists h1, h2, m1, m2, rest. repeat split; try assumption.
  destruct rest as [|sep' [|s1 [|s2 [|]]]]; try discriminate.
  - left. reflexivity.
  - right. apply andb_prop in Hrest. destruct Hrest as [Hsep' _].
    apply Ascii.eqb_eq in Hsep'. subst sep'. exists s1, s2. reflexivity.
Qed.

(** The parser of [calculateTimeInfo] reads a well-formed time as its
    minute of the day. *)
Lemma total_minutes_is_time (s : string) :
  is_time s = true -> total_minutes s = Num (minute_of_day s).
Proof.
  intros H. apply is_time_inv in H.
  destruct H as (h1 & h2 & m1 & m2 & rest & -> & Hh & Hm & Hrest).
  apply is_hour_inv in Hh. destruct Hh as (Hh1 & Hh2 & _).
  apply is_sixty_inv in Hm. destruct Hm as (Hm1 & Hm2 & _).
  assert (Hparts : exists tl,
    split_on ":" (String h1 (String h2 (String ":" (String m1 (String m2 rest)))))
    = String h1 (String h2 EmptyString)
        :: String m1 (String m2 EmptyString) :: tl).
  { rewrite (split_on_step _ _ _ (is_digit_not_colon h1 Hh1)).
    rewrite (split_on_step _ _ _ (is_digit_not_colon h2 Hh2)).
    rewrite split_on_sep.
    rewrite (split_on_step _ _ _ (is_digit_not_colon m1 Hm1)).
    rewrite (split_on_step _ _ _ (is_digit_not_colon m2 Hm2)).
    destruct Hrest as [-> | (s1 & s2 & ->)].
    - exists []. reflexivity.
    - rewrite split_on_sep. eexists. reflexivity. }
  destruct Hparts as [tl Hparts].
  unfold total_minutes. rewrite Hparts.
  cbn [map element nth_error].
  rewrite !Number_two_digits by assumption.
  cbn [minute_of_day js_mul js_add]. reflexivity.
Qed.

Lemma minute_of_day_range (s : string) :
  is_time s = true -> 0 <= minute_of_day s <= 1439.
Proof.
  intros H. apply is_time_inv in H.
  destruct H as (h1 & h2 & m1 & m2 & rest & -> & Hh & Hm & _).
  apply is_hour_inv in Hh. destruct Hh as (Hh1 & Hh2 & Hh23).
  apply is_sixty_inv in Hm. destruct Hm as (Hm1 & Hm2 & Hm5).
  apply is_digit_range in Hh1, Hh2, Hm1, Hm2.
  cbn [minute_of_day]. lia.
Qed.

Lemma is_time_not_empty (s : string) :
  is_time s = true -> String.eqb s "" = false.
Proof. destruct s; [discriminate | reflexivity]. Qed.

(** What [calculateTimeInfo] returns on two well-formed times. *)
Lemma calculateTimeInfo_is_time (s e : string) :
  is_time s = true -> is_time e = true ->
  calculateTimeInfo (Some s) (Some e) =
  mkTimeInfo (minute_of_day e <? minute_of_day s)
    (Num (if minute_of_day e <? minute_of_day s
          then 1440 - minute_of_day s + minute_of_day e
          else minute_of_day e - minute_of_day s)).
Proof.
  intros Hs He. unfold calculateTimeInfo, falsy_time.
  rewrite (is_time_not_empty _ Hs), (is_time_not_empty _ He).
  cbn [orb].
  rewrite (total_minutes_is_time _ Hs), (total_minutes_is_time _ He).
  cbn [js_gt]. destruct (minute_of_day e <? minute_of_day s); reflexivity.
Qed.

(** C4: on two well-formed times, [calculateTimeInfo] reports that the
    shift crosses midnight exactly when the start's minute of the day is
    greater than the end's, and a duration of [1440 - start + end] minutes
    when it crosses and [end - start] otherwise; so 22:30 to 07:00 crosses
    midnight and lasts 510 minutes, and 06:30 to 15:00 does not cross and
    lasts 510 minutes. *)
Theorem calculateTimeInfo_crossing_and_duration (s e : string) :
  is_time s = true -> is_time e = true ->
  calculateTimeInfo (Some s) (Some e)
  = mkTimeInfo (minute_of_day e <? minute_of_day s)
      (Num (if minute_of_day e <? minute_of_day s
            then 1440 - minute_of_day s + minute_of_day e
            else minute_of_day e - minute_of_day s))
  /\ calculateTimeInfo (Some "22:30") (Some "07:00") = mkTimeInfo true (Num 510)
  /\ calculateTimeInfo (Some "06:30") (Some "15:00") = mkTimeInfo false (Num 510).
Proof.
  intros Hs He. split.
  - apply calculateTimeInfo_is_time; assumption.
  - split; reflexivity.
Qed.

Lemma calculateTimeInfo_crossing_and_duration_witness :
  is_time "22:30:00" = true /\ is_time "07:00:00" = true /\
  calculateTimeInfo (Some "22:30:00") (Some "07:00:00") = mkTimeInfo true (Num 510).
Proof.
  split; [reflexivity | split; [reflexivity |]].
  apply (calculateTimeInfo_crossing_and_duration "22:30:00" "07:00:00");
    reflexivity.
Defined.

(** C10: when start and end are the same well-formed time,
    [calculateTimeInfo] reports no midnight crossing and a duration of 0;
    and whatever the two well-formed times, the duration stays below 1440
    minutes, so no pair of times denotes a 24-hour shift. *)
Theorem calculateTimeInfo_equal_times (s e : string) :
  is_time s = true -> is_time e = true ->
  calculateTimeInfo (Some s) (Some s) = mkTimeInfo false (Num 0)
  /\ exists d, ti_duration_minutes (calculateTimeInfo (Some s) (Some e)) = Num d
              /\ 0 <= d < 1440.
Proof.
  intros Hs He. split.
  - rewrite (calculateTimeInfo_is_time _ _ Hs Hs).
    rewrite Z.ltb_irrefl, Z.sub_diag. reflexivity.
  - rewrite (calculateTimeInfo_is_time _ _ Hs He). cbn [ti_duration_minutes].
    eexists. split; [reflexivity |].
    pose proof (minute_of_day_range _ Hs). pose proof (minute_of_day_range _ He).
    destruct (Z.ltb_spec (minute_of_day e) (minute_of_day s)); lia.
Qed.

Lemma calculateTimeInfo_equal_times_witness :
  is_time "08:00" = true /\
  calculateTimeInfo (Some "08:00") (Some "08:00") = mkTimeInfo false (Num 0).
Proof.
  split; [reflexivity |].
  apply (calculateTimeInfo_equal_times "08:00" "08:00"); reflexivity.
Defined.

(** The durations and crossings written out in [DEFAULT_SHIFT_TYPES] are
    the ones [calculateTimeInfo] computes from their times. *)
Example DEFAULT_SHIFT_TYPES_consistent :
  Forall (fun d => calculateTimeInfo (default_start_time d) (default_end_time d)
                   = mkTimeInfo (default_crosses_midnight d)
                                (Num (default_duration_minutes d)))
         DEFAULT_SHIFT_TYPES.
Proof. repeat constructor. Qed.

End TimeInfoFacts.

(* ================================================================== *)
(** ** Version resolution *)
(* ================================================================== *)

Section VersionResolution.

Lemma latest_by_effective_from_none (vs : list ShiftTemplateVersion) :
  latest_by_effective_from vs = None -> vs = [].
Proof.
  destruct vs as [|v rest]; [reflexivity |]. simpl.
  destruct (latest_by_effective_from rest) as [w|]; [|discriminate].
  destruct (effective_from w <=? effective_from v); discriminate.
Qed.

Lemma latest_by_effective_from_in (vs : list ShiftTemplateVersion) v :
  latest_by_effective_from vs = Some v -> In v vs.
Proof.
  revert v. induction vs as [|x rest IH]; intros v; simpl; [discriminate |].
  destruct (latest_by_effective_from rest) as [w|].
  - destruct (effective_from w <=? effective_from x); intros [= <-]; auto.
  - intros [= <-]. auto.
Qed.

Lemma latest_by_effective_from_max (vs : list ShiftTemplateVersion) v :
  latest_by_effective_from vs = Some v ->
  forall w, In w vs -> effective_from w <= effective_from v.
Proof.
  revert v. induction vs as [|x rest IH]; intros v; simpl; [discriminate |].
  destruct (latest_by_effective_from rest) as [b|] eqn:Hrest.
  - specialize (IH b eq_refl).
    destruct (Z.leb_spec (effective_from b) (effective_from x)) as [Hle|Hlt];
      intros [= <-] w [<- | Hin]; try lia.
    + specialize (IH w Hin). lia.
    + apply IH. exact Hin.
  - apply latest_by_effective_from_none in Hrest. subst rest.
    intros [= <-] w [<- | []]. lia.
Qed.

Lemma find_latest_version_some tid db v :
  find_latest_version tid db = Some v ->
  version_of tid db v /\
  forall w, version_of tid db w -> effective_from w <= effective_from v.
Proof.
  unfold find_latest_version, version_of. intros H. split.
  - apply latest_by_effective_from_in in H. apply filter_In in H.
    destruct H as [Hin Ht]. apply Nat.eqb_eq in Ht. auto.
  - intros w [Hin Ht]. apply (latest_by_effective_from_max _ _ H).
    apply filter_In. split; [exact Hin | apply Nat.eqb_eq; exact Ht].
Qed.

Lemma find_latest_version_none tid db :
  find_latest_version tid db = None -> forall w, ~ version_of tid db w.
Proof.
  unfold find_latest_version, version_of. intros H w [Hin Ht].
  apply latest_by_effective_from_none in H.
  assert (Hw : In w (filter (fun v => Nat.eqb (ver_template_id v) tid)
                            (shift_template_versions db))).
  { apply filter_In. split; [exact Hin | apply Nat.eqb_eq; exact Ht]. }
  rewrite H in Hw. exact Hw.
Qed.



Lemma find_or_create_schedule_spec stid vid db :
  exists db' s,
    find_or_create_schedule stid vid db = (db', inr s)
    /\ In s (shift_type_schedules db')
    /\ sch_shift_type_id s = stid
    /\ sch_template_version_id s = vid
    /\ same_definitions db db'
    /\ work_shifts db' = work_shifts db.
Proof.
  unfold find_or_create_schedule.
  destruct (find_schedule stid vid db) as [s|] eqn:Hf.
  - exists db, s. unfold find_schedule in Hf. apply find_some in Hf.
    destruct Hf as [Hin Hp]. apply andb_prop in Hp. destruct Hp as [H1 H2].
    apply Nat.eqb_eq in H1. apply Nat.eqb_eq in H2.
    unfold same_definitions. repeat split; assumption.
  - unfold create_schedule. cbn [timeConsistency is_null negb Bool.eqb].
    eexists. eexists. split; [reflexivity |].
    unfold same_definitions. cbn. repeat split.
    apply in_or_app. right. left. reflexivity.
Qed.

Lemma upsert_work_shift_spec v db :
  exists db' w,
    upsert_work_shift v db = (db', inr w)
    /\ work_date w = val_work_date v
    /\ ws_schedule_id w = val_schedule_id v
    /\ same_definitions db db'
    /\ shift_type_schedules db' = shift_type_schedules db.
Proof.
  unfold upsert_work_shift.
  destruct (find _ (work_shifts db)) as [old|];
    eexists; eexists; (split; [reflexivity |]);
    unfold same_definitions; cbn; repeat split.
Qed.

End VersionResolution.

Section BatchEntryResolution.

Variable dateOnly : string -> Date.







(** A turn of the batch loop, failed or not, leaves templates, versions
    and shift types as they were. *)
Lemma upsert_entry_frame user_id template ws db db' r :
  upsert_entry dateOnly user_id template ws db = (db', r) ->
  same_definitions db db'.
Proof.
  unfold upsert_entry, bind, find_or_throw, valid_version.
  assert (Hrefl : same_definitions db db) by (unfold same_definitions; auto).
  destruct (find_shift_type_by_code _ _ db) as [st|];
    [| intros [= <- _]; exact Hrefl].
  destruct (find_version_in_force _ _ db) as [v|];
    [| destruct (find_latest_version _ db) as [v|];
       [| intros [= <- _]; exact Hrefl]].
  all: destruct (find_or_create_schedule_spec (shift_type_id st)
                   (template_version_id v) db)
         as (db1 & s & -> & _ & _ & _ & (T1 & V1 & S1) & _);
       match goal with |- context [upsert_work_shift ?vals db1] =>
         destruct (upsert_work_shift_spec vals db1)
           as (db2 & w & -> & _ & _ & (T2 & V2 & S2) & _) end;
       intros [= <- _]; unfold same_definitions;
       rewrite T2, V2, S2, T1, V1, S1; auto.
Qed.





End BatchEntryResolution.

Example valid_version_between_versions :
  valid_version iso_day 1 "2024-01-15" versioned_db = (versioned_db, inr version_1).
Proof. reflexivity. Qed.

Example valid_version_after_last_version :
  valid_version iso_day 1 "2024-02-15" versioned_db = (versioned_db, inr version_2).
Proof. reflexivity. Qed.

Example valid_version_before_first_version :
  valid_version iso_day 1 "2023-12-15" versioned_db = (versioned_db, inr version_2).
Proof. reflexivity. Qed.



(* ================================================================== *)
(** ** The duplicate-date check *)
(* ================================================================== *)

Section DuplicateDates.

Lemma new_Set_In (xs : list string) (d : string) : In d (new_Set xs) <-> In d xs.
Proof.
  induction xs as [|x rest IH]; simpl; [tauto |].
  rewrite filter_In, IH, negb_true_iff, String.eqb_neq.
  destruct (string_dec x d) as [-> | Hne]; [tauto |].
  split; [tauto |]. intros [? | ?]; [tauto |]. right. split; [assumption |].
  intros ->. apply Hne. reflexivity.
Qed.

Lemma new_Set_NoDup (xs : list string) : NoDup (new_Set xs).
Proof.
  induction xs as [|x rest IH]; simpl; constructor.
  - rewrite filter_In, negb_true_iff, String.eqb_neq. tauto.
  - apply NoDup_filter. exact IH.
Qed.

Lemma filter_length_le {A} (p : A -> bool) (xs : list A) :
  (List.length (filter p xs) <= List.length xs)%nat.
Proof.
  induction xs as [|x rest IH]; simpl; [lia |].
  destruct (p x); simpl; lia.
Qed.

Lemma filter_all {A} (p : A -> bool) (xs : list A) :
  (forall x, In x xs -> p x = true) -> filter p xs = xs.
Proof.
  induction xs as [|x rest IH]; simpl; intros H; [reflexivity |].
  rewrite (H x (or_introl eq_refl)). f_equal. apply IH. auto.
Qed.

Lemma filter_length_eq {A} (p : A -> bool) (xs : list A) :
  List.length (filter p xs) = List.length xs -> forall x, In x xs -> p x = true.
Proof.
  induction xs as [|x rest IH]; simpl; intros H y Hy; [contradiction |].
  pose proof (filter_length_le p rest) as Hle.
  destruct (p x) eqn:Hp; simpl in H; [| lia].
  destruct Hy as [<- | Hy]; [exact Hp |]. apply IH; [lia | exact Hy].
Qed.

Lemma new_Set_length_le (xs : list string) :
  (List.length (new_Set xs) <= List.length xs)%nat.
Proof.
  induction xs as [|x rest IH]; cbn [new_Set List.length]; [lia |].
  pose proof (filter_length_le (fun y => negb (String.eqb y x)) (new_Set rest)). lia.
Qed.

(** The sizes of the array and of its [Set] agree exactly when no date
    occurs twice. *)
Lemma new_Set_length (xs : list string) :
  List.length (new_Set xs) = List.length xs <-> NoDup xs.
Proof.
  induction xs as [|x rest IH]; cbn [new_Set List.length].
  - split; [constructor | reflexivity].
  - pose proof (filter_length_le (fun y => negb (String.eqb y x)) (new_Set rest)) as Hf.
    pose proof (new_Set_length_le rest) as Hs.
    split.
    + intros H. assert (Hlen : List.length (new_Set rest) = List.length rest) by lia.
      constructor; [| apply IH; exact Hlen].
      intros Hin. apply (proj2 (new_Set_In rest x)) in Hin.
      assert (Hlenf : List.length (filter (fun y => negb (String.eqb y x)) (new_Set rest))
                      = List.length (new_Set rest)) by lia.
      pose proof (filter_length_eq _ _ Hlenf x Hin) as Hall.
      simpl in Hall. rewrite String.eqb_refl in Hall. discriminate.
    + intros Hnd. inversion Hnd as [|? ? Hnotin Hnd']; subst.
      rewrite filter_all.
      * f_equal. apply IH. exact Hnd'.
      * intros y Hy. apply (proj1 (new_Set_In rest y)) in Hy.
        apply negb_true_iff, String.eqb_neq.
        intros ->. contradiction.
Qed.

Lemma indexOf_bounds (x : string) (xs : list string) :
  -1 <= indexOf x xs < Z.of_nat (List.length xs).
Proof.
  induction xs as [|y rest IH]; simpl; [lia |].
  destruct (String.eqb y x); [lia |].
  destruct (Z.ltb_spec (indexOf x rest) 0); lia.
Qed.

Lemma indexOf_In (x : string) (xs : list string) :
  In x xs -> 0 <= indexOf x xs.
Proof.
  induction xs as [|y rest IH]; simpl; [contradiction |].
  destruct (String.eqb_spec y x) as [|Hne]; [lia |].
  intros [? | Hin]; [contradiction |]. specialize (IH Hin).
  destruct (Z.ltb_spec (indexOf x rest) 0); lia.
Qed.

(** The index of a date that occurs in a prefix lies inside the prefix. *)
Lemma indexOf_app_in (x : string) (prefix rest : list string) :
  In x prefix -> indexOf x (prefix ++ rest) < Z.of_nat (List.length prefix).
Proof.
  induction prefix as [|y p IH]; [contradiction |].
  cbn [app indexOf List.length]. intros Hin.
  destruct (String.eqb_spec y x) as [|Hne]; [lia |].
  destruct Hin as [? | Hin]; [contradiction |]. specialize (IH Hin).
  destruct (Z.ltb_spec (indexOf x (p ++ rest)) 0); lia.
Qed.

(** The index of a date first met right after a prefix is the prefix's
    length. *)
Lemma indexOf_app_first (x : string) (prefix rest : list string) :
  ~ In x prefix -> indexOf x (prefix ++ x :: rest) = Z.of_nat (List.length prefix).
Proof.
  induction prefix as [|y p IH]; cbn [app indexOf List.length]; intros Hnotin.
  - rewrite String.eqb_refl. reflexivity.
  - destruct (String.eqb_spec y x) as [-> | Hne]; [exfalso; apply Hnotin; left; reflexivity |].
    rewrite IH by (intros H; apply Hnotin; right; exact H).
    destruct (Z.ltb_spec (Z.of_nat (List.length p)) 0); lia.
Qed.

Lemma count_occ_two_In (xs : list string) (d : string) :
  (2 <= count_occ string_dec xs d)%nat -> In d xs.
Proof. intros H. apply (count_occ_In string_dec). lia. Qed.

(** The dates the filter of the duplicate check keeps: those met before. *)
Lemma filter_indexed_duplicates (dates suffix : list string) :
  forall prefix d,
    dates = prefix ++ suffix ->
    In d (filter_indexed (fun date index => negb (indexOf date dates =? index))
                         (Z.of_nat (List.length prefix)) suffix)
    <-> (In d suffix /\ In d prefix) \/ (2 <= count_occ string_dec suffix d)%nat.
Proof.
  induction suffix as [|y rest IH]; intros prefix d Hdates.
  - simpl. split; [contradiction | intros [[[] _] | H]; lia].
  - cbn [filter_indexed].
    assert (Hdates' : dates = (prefix ++ [y]) ++ rest)
      by (rewrite <- app_assoc; exact Hdates).
    specialize (IH (prefix ++ [y]) d Hdates').
    rewrite length_app in IH. cbn [List.length] in IH.
    replace (Z.of_nat (List.length prefix + 1)) with (Z.of_nat (List.length prefix) + 1)
      in IH by lia.
    rewrite in_app_iff in IH. cbn [In] in IH.
    pose proof (count_occ_In string_dec rest d) as Hcount.
    destruct (in_dec string_dec y prefix) as [Hin | Hnotin].
    + assert (Hkeep : negb (indexOf y dates =? Z.of_nat (List.length prefix)) = true).
      { apply negb_true_iff, Z.eqb_neq. rewrite Hdates.
        pose proof (indexOf_app_in y prefix (y :: rest) Hin). lia. }
      rewrite Hkeep. cbn [In]. rewrite IH.
      destruct (string_dec y d) as [-> | Hne].
      * rewrite count_occ_cons_eq by reflexivity. split; [| tauto].
        intros _. left. split; [left; reflexivity | exact Hin].
      * rewrite count_occ_cons_neq by exact Hne. cbn [In]. intuition congruence.
    + assert (Hdrop : negb (indexOf y dates =? Z.of_nat (List.length prefix)) = false).
      { apply negb_false_iff, Z.eqb_eq. rewrite Hdates.
        apply indexOf_app_first. exact Hnotin. }
      rewrite Hdrop, IH.
      destruct (string_dec y d) as [-> | Hne].
      * rewrite count_occ_cons_eq by reflexivity. cbn [In].
        split.
        -- intros [[Hr _] | H2]; right; [apply Hcount in Hr |]; lia.
        -- intros [[_ Hp] | H2]; [contradiction |].
           left. split; [apply Hcount; lia | right; left; reflexivity].
      * rewrite count_occ_cons_neq by exact Hne. cbn [In]. intuition congruence.
Qed.

(** The payload of [DUPLICATE_DATE] lists, once each, the dates that occur
    at least twice in the request. *)
Lemma duplicate_dates_of_spec (dates : list string) :
  NoDup (duplicate_dates_of dates)
  /\ forall d, In d (duplicate_dates_of dates)
               <-> (2 <= count_occ string_dec dates d)%nat.
Proof.
  unfold duplicate_dates_of. split; [apply new_Set_NoDup |].
  intros d. rewrite new_Set_In.
  rewrite (filter_indexed_duplicates dates dates [] d eq_refl).
  cbn [In]. tauto.
Qed.

(** Two positions of the request holding the same date make the date list
    fail [NoDup]. *)
Lemma same_date_twice_not_NoDup (entries : list BatchEntry) i j a b :
  i <> j ->
  nth_error entries i = Some a ->
  nth_error entries j = Some b ->
  entry_work_date a = entry_work_date b ->
  ~ NoDup (map entry_work_date entries).
Proof.
  intros Hij Ha Hb Hdate Hnd.
  apply Hij. apply (proj1 (NoDup_nth_error _) Hnd).
  - rewrite length_map. apply nth_error_Some. rewrite Ha. discriminate.
  - rewrite !nth_error_map, Ha, Hb. cbn. rewrite Hdate. reflexivity.
Qed.

Lemma nth_error_twice_count_occ (xs : list string) (d : string) :
  forall i j,
    i <> j -> nth_error xs i = Some d -> nth_error xs j = Some d ->
    (2 <= count_occ string_dec xs d)%nat.
Proof.
  induction xs as [|x rest IH]; intros i j Hij Hi Hj.
  - destruct i; discriminate.
  - destruct i as [|i], j as [|j]; cbn [nth_error] in Hi, Hj.
    + contradiction.
    + injection Hi as ->. rewrite count_occ_cons_eq by reflexivity.
      apply nth_error_In in Hj. apply (count_occ_In string_dec) in Hj. lia.
    + injection Hj as ->. rewrite count_occ_cons_eq by reflexivity.
      apply nth_error_In in Hi. apply (count_occ_In string_dec) in Hi. lia.
    + assert (Hij' : i <> j) by congruence.
      specialize (IH i j Hij' Hi Hj).
      destruct (string_dec x d) as [-> | Hne].
      * rewrite count_occ_cons_eq by reflexivity. lia.
      * rewrite count_occ_cons_neq by exact Hne. exact IH.
Qed.

(** C3: a batch in which two entries carry the same work_date fails with
    [DUPLICATE_DATE]; the error carries, once each, exactly the dates that
    occur more than once; no transaction is opened; and the store is left
    as it was. *)
Theorem batch_duplicate_date_rejected
    (dateOnly : string -> Date) (user_id : uuid) (entries : list BatchEntry) (db : DB)
    (i j : nat) (a b : BatchEntry) :
  i <> j ->
  nth_error entries i = Some a ->
  nth_error entries j = Some b ->
  entry_work_date a = entry_work_date b ->
  let dates := map entry_work_date entries in
  batchUpsertWorkShifts dateOnly user_id entries db
  = mkRun db [] (inl (DUPLICATE_DATE (duplicate_dates_of dates)))
  /\ NoDup (duplicate_dates_of dates)
  /\ (forall d, In d (duplicate_dates_of dates)
                <-> (2 <= count_occ string_dec dates d)%nat)
  /\ In (entry_work_date a) (duplicate_dates_of dates).
Proof.
  intros Hij Ha Hb Hdate dates.
  pose proof (same_date_twice_not_NoDup _ _ _ _ _ Hij Ha Hb Hdate) as Hdup.
  fold dates in Hdup.
  destruct (duplicate_dates_of_spec dates) as [Hnd Hin].
  assert (Hrun : batchUpsertWorkShifts dateOnly user_id entries db
                 = mkRun db [] (inl (DUPLICATE_DATE (duplicate_dates_of dates)))).
  { unfold batchUpsertWorkShifts. fold dates.
    destruct (Nat.eqb_spec (List.length dates) (List.length (new_Set dates)))
      as [Hlen | Hlen]; [| reflexivity].
    exfalso. apply Hdup. apply new_Set_length. symmetry. exact Hlen. }
  split; [exact Hrun |]. split; [exact Hnd |]. split; [exact Hin |].
  apply Hin. apply (nth_error_twice_count_occ dates (entry_work_date a) i j Hij).
  - unfold dates. rewrite nth_error_map, Ha. reflexivity.
  - unfold dates. rewrite nth_error_map, Hb, Hdate. reflexivity.
Qed.

End DuplicateDates.

Lemma batch_duplicate_date_rejected_witness :
  nth_error [mkBatchEntry "2024-01-15" "D" Null; mkBatchEntry "2024-01-16" "N" Null;
             mkBatchEntry "2024-01-15" "N" Null] 0
  = Some (mkBatchEntry "2024-01-15" "D" Null)
  /\ nth_error [mkBatchEntry "2024-01-15" "D" Null; mkBatchEntry "2024-01-16" "N" Null;
                mkBatchEntry "2024-01-15" "N" Null] 2
     = Some (mkBatchEntry "2024-01-15" "N" Null)
  /\ batchUpsertWorkShifts iso_day alice
       [mkBatchEntry "2024-01-15" "D" Null; mkBatchEntry "2024-01-16" "N" Null;
        mkBatchEntry "2024-01-15" "N" Null] versioned_db
     = mkRun versioned_db [] (inl (DUPLICATE_DATE ["2024-01-15"])).
Proof.
  split; [reflexivity | split; [reflexivity |]].
  apply (batch_duplicate_date_rejected iso_day alice
           [mkBatchEntry "2024-01-15" "D" Null; mkBatchEntry "2024-01-16" "N" Null;
            mkBatchEntry "2024-01-15" "N" Null] versioned_db 0 2
           (mkBatchEntry "2024-01-15" "D" Null) (mkBatchEntry "2024-01-15" "N" Null));
    [discriminate | reflexivity ..].
Defined.

(* ================================================================== *)
(** ** All-or-nothing batches *)
(* ================================================================== *)

Section BatchAtomicity.

Variable dateOnly : string -> Date.
Variable user_id : uuid.
Variable template : ShiftTemplate.




Lemma find_shift_type_by_code_same_definitions code tid db db' :
  same_definitions db db' ->
  find_shift_type_by_code code tid db' = find_shift_type_by_code code tid db.
Proof.
  intros (_ & _ & S). unfold find_shift_type_by_code. rewrite S. reflexivity.
Qed.



(** A batch that passes the duplicate check and finds the template is the
    loop inside one transaction. *)
Lemma batchUpsertWorkShifts_loop entries db :
  NoDup (map entry_work_date entries) ->
  find_active_template user_id db = Some template ->
  batchUpsertWorkShifts dateOnly user_id entries db
  = match upsert_entries dateOnly user_id template entries [] db with
    | (working, inr saved_work_shifts) =>
        mkRun working [TxBegin; TxCommit]
          (inr (work_shifts_with_details
                  (map work_shift_id saved_work_shifts) working))
    | (_, inl error) => mkRun db [TxBegin; TxRollback] (inl error)
    end.
Proof.
  intros Hnd Ht. unfold batchUpsertWorkShifts.
  apply new_Set_length in Hnd. rewrite Hnd, Nat.eqb_refl. cbn [negb].
  rewrite Ht. reflexivity.
Qed.

(** Whatever makes a batch fail, the store it leaves is the store it
    found. *)
Lemma batchUpsertWorkShifts_failure_store entries db e :
  result (batchUpsertWorkShifts dateOnly user_id entries db) = inl e ->
  store (batchUpsertWorkShifts dateOnly user_id entries db) = db.
Proof.
  unfold batchUpsertWorkShifts.
  destruct (negb _); [reflexivity |].
  destruct (find_active_template user_id db) as [t|]; [| reflexivity].
  destruct (upsert_entries dateOnly user_id t entries [] db) as [working [err | saved]].
  - reflexivity.
  - discriminate.
Qed.


End BatchAtomicity.

(** Before the second entry throws, the transaction holds the first
    entry's work shift; the store the batch leaves holds none. *)
Example working_copy_before_the_throw :
  work_shifts (fst (upsert_entries iso_day alice base_template
                      [mkBatchEntry "2024-01-15" "N" Null] [] versioned_db))
  = [mkWorkShift 1 alice 20240115 3 None 0 alice None None]
  /\ shift_type_schedules
       (fst (upsert_entries iso_day alice base_template
               [mkBatchEntry "2024-01-15" "N" Null] [] versioned_db))
     = [day_schedule_v1; day_schedule_v2;
        mkShiftTypeSchedule 3 2 1 None None false (Num 0)]
  /\ store (batchUpsertWorkShifts iso_day alice
              [mkBatchEntry "2024-01-15" "N" Null; mkBatchEntry "2024-01-16" "X" Null]
              versioned_db)
     = versioned_db.
Proof. repeat split. Qed.


(* ================================================================== *)
(** ** One work shift per owner and day *)
(* ================================================================== *)

Section UpsertConvergence.

Lemma find_none_filter {A} (p : A -> bool) (xs : list A) :
  find p xs = None -> filter p xs = [].
Proof.
  induction xs as [|x rest IH]; simpl; [reflexivity |].
  destruct (p x); [discriminate | exact IH].
Qed.

Lemma find_some_filter {A} (p : A -> bool) (xs : list A) a :
  find p xs = Some a -> exists tl, filter p xs = a :: tl.
Proof.
  induction xs as [|x rest IH]; simpl; [discriminate |].
  destruct (p x); [intros [= ->]; eauto | exact IH].
Qed.

Lemma filter_app_one {A} (p : A -> bool) (xs : list A) a :
  p a = true -> filter p (xs ++ [a]) = filter p xs ++ [a].
Proof. intros H. rewrite filter_app. simpl. rewrite H. reflexivity. Qed.

Lemma same_day_of_owner_overwrite v w :
  same_day_of_owner (val_owner_user_id v) (val_work_date v) (overwrite v w) = true.
Proof.
  unfold same_day_of_owner. cbn. rewrite Nat.eqb_refl, Z.eqb_refl. reflexivity.
Qed.

(** The rows of the day after the [DO UPDATE] are the rows of the day
    before it, overwritten. *)
Lemma rows_of_day_overwritten v (rows : list WorkShift) :
  let conflicts := same_day_of_owner (val_owner_user_id v) (val_work_date v) in
  filter conflicts (map (fun w => if conflicts w then overwrite v w else w) rows)
  = map (overwrite v) (filter conflicts rows).
Proof.
  intros conflicts. induction rows as [|w rest IH]; [reflexivity |].
  cbn [map filter]. destruct (conflicts w) eqn:Hw.
  - unfold conflicts at 1. rewrite same_day_of_owner_overwrite.
    cbn [map]. f_equal. exact IH.
  - rewrite Hw. exact IH.
Qed.

(** An upsert on a day whose rows, at most one, are live leaves exactly
    one row for the day: the live row it returns, with the schedule and
    the note it was given. *)
Lemma upsert_work_shift_one_live_row v db db' w :
  (List.length (rows_of_day (val_owner_user_id v) (val_work_date v) db) <= 1)%nat ->
  (forall r, In r (rows_of_day (val_owner_user_id v) (val_work_date v) db) ->
             live_work_shift r = true) ->
  upsert_work_shift v db = (db', inr w) ->
  rows_of_day (val_owner_user_id v) (val_work_date v) db' = [w]
  /\ live_work_shift w = true
  /\ ws_schedule_id w = val_schedule_id v
  /\ note w = val_note v
  /\ same_definitions db db'
  /\ shift_type_schedules db' = shift_type_schedules db.
Proof.
  unfold rows_of_day, upsert_work_shift. intros Hone Hlive.
  destruct (find _ (work_shifts db)) as [old|] eqn:Hf.
  - destruct (find_some_filter _ _ _ Hf) as [tl Htl].
    rewrite Htl in Hone, Hlive. destruct tl; [| cbn in Hone; lia].
    intros [= <- <-]. cbn [work_shifts set_work_shifts].
    rewrite rows_of_day_overwritten, Htl.
    specialize (Hlive old (or_introl eq_refl)).
    unfold same_definitions. repeat split. exact Hlive.
  - apply find_none_filter in Hf.
    intros [= <- <-]. cbn [work_shifts set_work_shifts].
    rewrite filter_app_one, Hf.
    + unfold same_definitions. repeat split.
    + unfold same_day_of_owner. cbn. rewrite Nat.eqb_refl, Z.eqb_refl. reflexivity.
Qed.

End UpsertConvergence.

Section UpsertWorkShift.

Variable dateOnly : string -> Date.

(** What a successful [upsertWorkShift] did. *)
Lemma upsertWorkShift_inversion user_id wd code note_ db w :
  result (upsertWorkShift dateOnly user_id wd code note_ db) = inr w ->
  exists st v db1 s,
    find_shift_type_of_owner code user_id db = Some st
    /\ find_or_create_schedule (shift_type_id st) (template_version_id v) db
       = (db1, inr s)
    /\ upsert_work_shift
         (mkWorkShiftValues user_id (dateOnly wd) (schedule_id s)
            (note_or_null note_) 0 user_id)
         db1
       = (store (upsertWorkShift dateOnly user_id wd code note_ db), inr w).
Proof.
  unfold upsertWorkShift, autocommit, bind, find_or_throw.
  destruct (find_shift_type_of_owner code user_id db) as [st|]; [| discriminate].
  destruct (find_active_template user_id db) as [t|]; [| discriminate].
  destruct (find_latest_version (template_id t) db) as [v|]; [| discriminate].
  destruct (find_or_create_schedule_spec (shift_type_id st) (template_version_id v) db)
    as (db1 & s & E & _).
  rewrite E.
  destruct (upsert_work_shift_spec
              (mkWorkShiftValues user_id (dateOnly wd) (schedule_id s)
                 (note_or_null note_) 0 user_id) db1)
    as (db2 & w' & E2 & _).
  rewrite E2. cbn. intros [= <-]. exists st, v, db1, s. auto.
Qed.

(** An [upsertWorkShift] on a day whose rows, at most one, are live leaves
    exactly one row for the day, live, with the note it was given and a
    schedule of the shift type it named. *)
Lemma upsertWorkShift_one_live_row user_id wd code note_ db w :
  (List.length (rows_of_day user_id (dateOnly wd) db) <= 1)%nat ->
  (forall r, In r (rows_of_day user_id (dateOnly wd) db) ->
             live_work_shift r = true) ->
  result (upsertWorkShift dateOnly user_id wd code note_ db) = inr w ->
  let db' := store (upsertWorkShift dateOnly user_id wd code note_ db) in
  rows_of_day user_id (dateOnly wd) db' = [w]
  /\ live_rows_of_day user_id (dateOnly wd) db' = [w]
  /\ note w = note_or_null note_
  /\ exists st s, find_shift_type_of_owner code user_id db = Some st
                  /\ In s (shift_type_schedules db')
                  /\ schedule_id s = ws_schedule_id w
                  /\ sch_shift_type_id s = shift_type_id st.
Proof.
  intros Hone Hlive Hres db'.
  destruct (upsertWorkShift_inversion _ _ _ _ _ _ Hres)
    as (st & v & db1 & s & Hst & Hs & Hu).
  fold db' in Hu.
  destruct (find_or_create_schedule_spec (shift_type_id st) (template_version_id v) db)
    as (db1' & s' & E & Hin & Hstid & _ & _ & Hws).
  rewrite Hs in E. injection E as <- <-.
  assert (Hrows : rows_of_day user_id (dateOnly wd) db1
                  = rows_of_day user_id (dateOnly wd) db)
    by (unfold rows_of_day; rewrite Hws; reflexivity).
  pose proof (upsert_work_shift_one_live_row
                (mkWorkShiftValues user_id (dateOnly wd) (schedule_id s)
                   (note_or_null note_) 0 user_id) db1 db' w) as Hrow.
  cbn [val_owner_user_id val_work_date] in Hrow. rewrite Hrows in Hrow.
  specialize (Hrow Hone Hlive Hu).
  destruct Hrow as (R & L & Sid & N & _ & Sch).
  cbn in R, Sid, N. unfold live_rows_of_day. rewrite R. cbn [filter]. rewrite L.
  repeat split; try assumption.
  exists st, s. rewrite Sch. auto.
Qed.

(** Two [upsertWorkShift] calls for the same owner and day, starting from a
    day whose rows, at most one, are live, end with exactly one row for the
    day: live, and carrying what the second call was given. *)
Lemma upsertWorkShift_twice_one_live_row
    user_id wd code1 note1 code2 note2 db w1 w2 :
  (List.length (rows_of_day user_id (dateOnly wd) db) <= 1)%nat ->
  (forall r, In r (rows_of_day user_id (dateOnly wd) db) ->
             live_work_shift r = true) ->
  let run1 := upsertWorkShift dateOnly user_id wd code1 note1 db in
  let run2 := upsertWorkShift dateOnly user_id wd code2 note2 (store run1) in
  result run1 = inr w1 ->
  result run2 = inr w2 ->
  live_rows_of_day user_id (dateOnly wd) (store run2) = [w2]
  /\ note w2 = note_or_null note2
  /\ exists st s, find_shift_type_of_owner code2 user_id (store run1) = Some st
                  /\ In s (shift_type_schedules (store run2))
                  /\ schedule_id s = ws_schedule_id w2
                  /\ sch_shift_type_id s = shift_type_id st.
Proof.
  intros Hone Hlive run1 run2 H1 H2.
  destruct (upsertWorkShift_one_live_row _ _ _ _ _ _ Hone Hlive H1)
    as (R1 & L1 & _).
  fold run1 in R1, L1.
  assert (Hlive1 : forall r, In r (rows_of_day user_id (dateOnly wd) (store run1)) ->
                             live_work_shift r = true).
  { intros r Hr. rewrite R1 in Hr. destruct Hr as [<- | []].
    unfold live_rows_of_day in L1. rewrite R1 in L1. cbn [filter] in L1.
    destruct (live_work_shift w1); [reflexivity | discriminate]. }
  assert (Hone1 : (List.length (rows_of_day user_id (dateOnly wd) (store run1)) <= 1)%nat)
    by (rewrite R1; cbn; lia).
  destruct (upsertWorkShift_one_live_row _ _ _ _ _ _ Hone1 Hlive1 H2)
    as (_ & L2 & N2 & Hs).
  auto.
Qed.

End UpsertWorkShift.

(** C5, at the store that a soft delete leaves: the day's row is
    soft-deleted; two upserts for the day both succeed and overwrite that
    row; it stays soft-deleted, and the day has no live work shift. *)
Theorem upsert_after_soft_delete_leaves_no_live_row :
  let run1 := upsertWorkShift iso_day alice "2024-01-15" "D" (Value "first")
                deleted_day_db in
  let run2 := upsertWorkShift iso_day alice "2024-01-15" "N" (Value "second")
                (store run1) in
  work_shifts deleted_day_db
  = [mkWorkShift 1 alice 20240115 2 None 0 alice (Some 7) (Some alice)]
  /\ result run1
     = inr (mkWorkShift 1 alice 20240115 2 (Some "first") 0 alice (Some 7) (Some alice))
  /\ result run2
     = inr (mkWorkShift 1 alice 20240115 3 (Some "second") 0 alice (Some 7) (Some alice))
  /\ rows_of_day alice 20240115 (store run2)
     = [mkWorkShift 1 alice 20240115 3 (Some "second") 0 alice (Some 7) (Some alice)]
  /\ live_rows_of_day alice 20240115 (store run2) = [].
Proof. repeat split. Qed.

(** The same two calls on a day without any row end with one live row
    carrying the second call's schedule and note. *)
Example upsert_twice_on_a_free_day :
  let run1 := upsertWorkShift iso_day alice "2024-01-15" "D" (Value "first")
                versioned_db in
  let run2 := upsertWorkShift iso_day alice "2024-01-15" "N" (Value "second")
                (store run1) in
  live_rows_of_day alice 20240115 (store run2)
  = [mkWorkShift 1 alice 20240115 3 (Some "second") 0 alice None None].
Proof. reflexivity. Qed.

(* ================================================================== *)
(** ** The shift-type registry *)
(* ================================================================== *)

Section Registry.

Lemma same_value_refl (a : option Z) : same_value a a = true.
Proof. destruct a; cbn [same_value]; [apply Z.eqb_refl | reflexivity]. Qed.

(** An instance saved with the [color] and the [sort_order] it was loaded
    with is never refused. *)
Lemma save_shift_type_same_columns loaded st db :
  st_color st = st_color loaded -> st_sort_order st = st_sort_order loaded ->
  save_shift_type loaded st db
  = (set_shift_types
       (map (fun r => if Nat.eqb (shift_type_id r) (shift_type_id st) then st else r))
       db,
     inr tt).
Proof.
  intros Hc Hs. unfold save_shift_type. now rewrite Hc, Hs, !same_value_refl.
Qed.

(** *** Capacity *)

(** C6: creating a shift type for a caller whose template already holds
    10 live shift types fails with [MAX_SHIFT_TYPES_EXCEEDED] and changes
    nothing: the store is the one the call found, so the template still
    counts 10 live shift types and no shift type or schedule was added. *)
Theorem createShiftType_at_capacity
    (user_id : uuid) (data : CreateShiftTypeData) (db : DB) (template : ShiftTemplate) :
  find_active_template user_id db = Some template ->
  count_live_shift_types (template_id template) db = 10 ->
  let run := createShiftType user_id data db in
  result run = inl MAX_SHIFT_TYPES_EXCEEDED
  /\ store run = db
  /\ count_live_shift_types (template_id template) (store run) = 10
  /\ shift_types (store run) = shift_types db
  /\ shift_type_schedules (store run) = shift_type_schedules db.
Proof.
  intros Ht Hcount run.
  assert (Hrun : run = mkRun db [TxBegin; TxRollback] (inl MAX_SHIFT_TYPES_EXCEEDED)).
  { unfold run, createShiftType, transaction, bind, find_or_throw, query.
    rewrite Ht, Hcount. reflexivity. }
  rewrite Hrun. cbn [result store]. auto.
Qed.

Lemma createShiftType_at_capacity_witness :
  find_active_template alice full_db = Some base_template
  /\ count_live_shift_types (template_id base_template) full_db = 10
  /\ (let run := createShiftType alice
                   (mkCreateShiftTypeData "X" "extra" Null (Value "09:00:00")
                      (Value "17:00:00") Null) full_db in
      result run = inl MAX_SHIFT_TYPES_EXCEEDED
      /\ store run = full_db
      /\ count_live_shift_types (template_id base_template) (store run) = 10
      /\ shift_types (store run) = shift_types full_db
      /\ shift_type_schedules (store run) = shift_type_schedules full_db).
Proof.
  split; [reflexivity | split; [reflexivity |]].
  exact (createShiftType_at_capacity alice
           (mkCreateShiftTypeData "X" "extra" Null (Value "09:00:00")
              (Value "17:00:00") Null)
           full_db base_template eq_refl eq_refl).
Defined.

(** Below the limit the same call adds the shift type and its schedule. *)
Example createShiftType_below_capacity :
  let run := createShiftType alice
               (mkCreateShiftTypeData "E" "Evening" Null (Value "14:30:00")
                  (Value "23:00:00") Null)
               versioned_db in
  result run
  = inr (mkShiftTypeView 3 "E" "Evening" None (Some 3) (Some "14:30:00")
           (Some "23:00:00") false (Num 510))
  /\ count_live_shift_types 1 (store run) = 3
  /\ shift_type_schedules (store run)
     = [day_schedule_v1; day_schedule_v2;
        mkShiftTypeSchedule 3 3 2 (Some "14:30:00") (Some "23:00:00") false (Num 510)].
Proof. repeat split. Qed.

(** *** Soft delete *)

Lemma find_live_reference_in_some sids db w :
  find_live_reference_in sids db = Some w ->
  In w (work_shifts db) /\ In (ws_schedule_id w) sids /\ live_work_shift w = true.
Proof.
  unfold find_live_reference_in. intros H. apply find_some in H.
  destruct H as [Hin Hp]. apply andb_prop in Hp. destruct Hp as [He Hl].
  apply existsb_exists in He. destruct He as (sid & Hsid & Heq).
  apply Nat.eqb_eq in Heq. subst sid. auto.
Qed.

Lemma find_live_reference_in_none sids db :
  find_live_reference_in sids db = None ->
  forall w, In w (work_shifts db) -> In (ws_schedule_id w) sids ->
            live_work_shift w = true -> False.
Proof.
  unfold find_live_reference_in. intros H w Hin Hsid Hl.
  pose proof (find_none _ _ H w Hin) as Hp. cbn beta in Hp.
  rewrite Hl, andb_true_r in Hp.
  assert (He : existsb (Nat.eqb (ws_schedule_id w)) sids = true).
  { apply existsb_exists. exists (ws_schedule_id w). split; [exact Hsid |].
    apply Nat.eqb_refl. }
  congruence.
Qed.

Lemma schedule_ids_of_In id db sid :
  In sid (schedule_ids_of id db)
  <-> exists s, In s (shift_type_schedules db)
                /\ sch_shift_type_id s = id /\ schedule_id s = sid.
Proof.
  unfold schedule_ids_of. rewrite in_map_iff. split.
  - intros (s & Hsid & Hin). apply filter_In in Hin. destruct Hin as [Hin Hp].
    apply Nat.eqb_eq in Hp. eauto.
  - intros (s & Hin & Hid & Hsid). exists s. split; [exact Hsid |].
    apply filter_In. split; [exact Hin | apply Nat.eqb_eq; exact Hid].
Qed.

(** The check of [deleteShiftType] finds a work shift exactly when the
    shift type is in use. *)
Lemma in_use_check id db :
  (exists w, (0 <? Z.of_nat (List.length (schedule_ids_of id db))) = true
             /\ find_live_reference_in (schedule_ids_of id db) db = Some w)
  <-> shift_type_in_use id db.
Proof.
  unfold shift_type_in_use, referenced_by_live_work_shift. split.
  - intros (w & _ & Hf). apply find_live_reference_in_some in Hf.
    destruct Hf as (Hin & Hsid & Hl). apply schedule_ids_of_In in Hsid.
    destruct Hsid as (s & Hs & Hid & Heq). exists s. repeat split; try assumption.
    exists w. auto.
  - intros (s & Hs & Hid & w & Hw & Hsid & Hl).
    assert (Hin : In (ws_schedule_id w) (schedule_ids_of id db)).
    { apply schedule_ids_of_In. exists s. auto. }
    destruct (find_live_reference_in (schedule_ids_of id db) db) as [w'|] eqn:Hf.
    + exists w'. split; [| reflexivity].
      destruct (schedule_ids_of id db); [contradiction | reflexivity].
    + exfalso. exact (find_live_reference_in_none _ _ Hf w Hw Hin Hl).
Qed.

Lemma find_shift_type_with_template_some id db st tpl :
  find_shift_type_with_template id db = Some (st, tpl) ->
  In st (shift_types db) /\ shift_type_id st = id /\ st_deleted_at st = None.
Proof.
  unfold find_shift_type_with_template.
  destruct (find _ (shift_types db)) as [st'|] eqn:Hf; [| discriminate].
  destruct (find _ (shift_templates db)) as [t|]; [| discriminate].
  intros [= <- <-]. apply find_some in Hf. destruct Hf as [Hin Hp].
  apply andb_prop in Hp. destruct Hp as [Hp _].
  apply andb_prop in Hp. destruct Hp as [Hid Hdel].
  apply Nat.eqb_eq in Hid. destruct (st_deleted_at st'); [discriminate |]. auto.
Qed.

(** C7: for a live shift type of the caller, [deleteShiftType] fails with
    [IN_USE] exactly when a live work shift points to a schedule of the
    shift type, whatever the schedule's version, and then changes nothing;
    otherwise it returns the id and the deletion time, the row of the
    shift type has [deleted_at] set to that time and its other columns as
    before, every row of the id is so stamped, every other shift type is
    as before, and the templates, versions, schedules and work shifts are
    untouched. *)
Theorem deleteShiftType_in_use_or_soft_delete
    (now : Timestamp) (user_id id : uuid) (db : DB)
    (st : ShiftType) (tpl : ShiftTemplate) :
  find_shift_type_with_template id db = Some (st, tpl) ->
  tpl_owner_user_id tpl = user_id ->
  let run := deleteShiftType now user_id id db in
  (result run = inl IN_USE <-> shift_type_in_use id db)
  /\ (shift_type_in_use id db -> store run = db)
  /\ (~ shift_type_in_use id db ->
      result run = inr (id, now)
      /\ shift_types (store run)
         = map (fun r => if Nat.eqb (shift_type_id r) id
                         then mkShiftType id (st_template_id st) (st_code st)
                                (st_name st) (st_color st) (st_sort_order st)
                                (Some now)
                         else r)
               (shift_types db)
      /\ (exists stamped, In stamped (shift_types (store run))
                          /\ shift_type_id stamped = id
                          /\ st_deleted_at stamped = Some now)
      /\ (forall r, In r (shift_types (store run)) -> shift_type_id r = id ->
                    st_deleted_at r = Some now)
      /\ shift_templates (store run) = shift_templates db
      /\ shift_template_versions (store run) = shift_template_versions db
      /\ shift_type_schedules (store run) = shift_type_schedules db
      /\ work_shifts (store run) = work_shifts db).
Proof.
  intros Hf Howner run.
  destruct (find_shift_type_with_template_some _ _ _ _ Hf) as (Hin & Hid & _).
  pose proof (in_use_check id db) as Hcheck.
  assert (Hrun : run =
    if (0 <? Z.of_nat (List.length (schedule_ids_of id db)))
    then match find_live_reference_in (schedule_ids_of id db) db with
         | Some _ => mkRun db [TxBegin; TxRollback] (inl IN_USE)
         | None =>
             mkRun (set_shift_types
                      (map (fun r => if Nat.eqb (shift_type_id r) id
                                     then with_deleted_at st now else r)) db)
                   [TxBegin; TxCommit] (inr (id, now))
         end
    else mkRun (set_shift_types
                  (map (fun r => if Nat.eqb (shift_type_id r) id
                                 then with_deleted_at st now else r)) db)
               [TxBegin; TxCommit] (inr (id, now))).
  { unfold run, deleteShiftType, transaction, bind, find_or_throw, query.
    rewrite Hf, Howner, Nat.eqb_refl. cbn [negb].
    destruct (0 <? Z.of_nat (List.length (schedule_ids_of id db))).
    - destruct (find_live_reference_in (schedule_ids_of id db) db).
      + reflexivity.
      + unfold ret. rewrite save_shift_type_same_columns by reflexivity.
        cbn. rewrite Hid. reflexivity.
    - unfold ret. rewrite save_shift_type_same_columns by reflexivity.
      cbn. rewrite Hid. reflexivity. }
  assert (Hcases :
    (shift_type_in_use id db /\ run = mkRun db [TxBegin; TxRollback] (inl IN_USE))
    \/ (~ shift_type_in_use id db
        /\ run = mkRun (set_shift_types
                          (map (fun r => if Nat.eqb (shift_type_id r) id
                                         then with_deleted_at st now else r)) db)
                       [TxBegin; TxCommit] (inr (id, now)))).
  { rewrite Hrun.
    destruct (0 <? Z.of_nat (List.length (schedule_ids_of id db))) eqn:Hlen.
    - destruct (find_live_reference_in (schedule_ids_of id db) db) as [w|] eqn:Hw.
      + left. split; [| reflexivity]. apply Hcheck. exists w. auto.
      + right. split; [| reflexivity]. intros Huse. apply Hcheck in Huse.
        destruct Huse as (w & _ & ?). discriminate.
    - right. split; [| reflexivity]. intros Huse. apply Hcheck in Huse.
      destruct Huse as (w & ? & _). discriminate. }
  destruct Hcases as [[Huse ->] | [Hfree ->]]; cbn [result store].
  - split; [tauto |]. split; [reflexivity | contradiction].
  - split; [split; [discriminate | contradiction] |].
    split; [contradiction |]. intros _.
    cbn [set_shift_types shift_types shift_templates shift_template_versions
         shift_type_schedules work_shifts].
    unfold with_deleted_at. rewrite Hid.
    split; [reflexivity |]. split; [reflexivity |]. split; [| split].
    + exists (mkShiftType id (st_template_id st) (st_code st) (st_name st)
                (st_color st) (st_sort_order st) (Some now)).
      split; [| split; reflexivity].
      apply in_map_iff. exists st. rewrite Hid, Nat.eqb_refl. auto.
    + intros r Hr Hrid. apply in_map_iff in Hr. destruct Hr as (r0 & <- & _).
      destruct (Nat.eqb (shift_type_id r0) id) eqn:E; [reflexivity |].
      apply Nat.eqb_neq in E. contradiction.
    + auto.
Qed.

(** On the store in which Alice has the day shift on 2024-01-15, the day
    type is in use and the night type is not. *)
Lemma deleteShiftType_in_use_or_soft_delete_witness :
  (find_shift_type_with_template 1 assigned_db = Some (day_type, base_template)
   /\ tpl_owner_user_id base_template = alice
   /\ result (deleteShiftType 9 alice 1 assigned_db) = inl IN_USE
   /\ store (deleteShiftType 9 alice 1 assigned_db) = assigned_db)
  /\ (find_shift_type_with_template 2 assigned_db = Some (night_type, base_template)
      /\ result (deleteShiftType 9 alice 2 assigned_db) = inr (2%nat, 9)
      /\ shift_types (store (deleteShiftType 9 alice 2 assigned_db))
         = [day_type; mkShiftType 2 1 "N" "Night" None (Some 2) (Some 9)]
      /\ shift_type_schedules (store (deleteShiftType 9 alice 2 assigned_db))
         = shift_type_schedules assigned_db
      /\ work_shifts (store (deleteShiftType 9 alice 2 assigned_db))
         = work_shifts assigned_db).
Proof.
  split.
  - split; [reflexivity | split; [reflexivity |]].
    assert (Huse : shift_type_in_use 1 assigned_db).
    { exists day_schedule_v2. split; [right; left; reflexivity |].
      split; [reflexivity |].
      exists (mkWorkShift 1 alice 20240115 2 None 0 alice None None).
      split; [left; reflexivity | split; reflexivity]. }
    destruct (deleteShiftType_in_use_or_soft_delete 9 alice 1 assigned_db
                day_type base_template eq_refl eq_refl) as (Hiff & Hsame & _).
    split; [apply Hiff; exact Huse | apply Hsame; exact Huse].
  - split; [reflexivity |].
    assert (Hfree : ~ shift_type_in_use 2 assigned_db).
    { intros (s & Hs & Hst & w & Hw & Hsid & _).
      destruct Hs as [<- | [<- | []]]; discriminate. }
    destruct (deleteShiftType_in_use_or_soft_delete 9 alice 2 assigned_db
                night_type base_template eq_refl eq_refl) as (_ & _ & Hdel).
    destruct (Hdel Hfree) as (Hres & Htypes & _ & _ & _ & _ & Hsch & Hws).
    split; [exact Hres |]. split; [rewrite Htypes; reflexivity |].
    split; [exact Hsch | exact Hws].
Defined.

(** Someone else's shift type is out of reach. *)
Example deleteShiftType_forbidden :
  deleteShiftType 9 bob 1 versioned_db
  = mkRun versioned_db [TxBegin; TxRollback] (inl FORBIDDEN).
Proof. reflexivity. Qed.

(** A shift type no work shift uses is soft-deleted; its schedules stay. *)
Example deleteShiftType_unused :
  let run := deleteShiftType 9 alice 1 versioned_db in
  result run = inr (1%nat, 9)
  /\ shift_types (store run) = [with_deleted_at day_type 9; night_type]
  /\ shift_type_schedules (store run) = [day_schedule_v1; day_schedule_v2].
Proof. repeat split. Qed.

End Registry.

(* ================================================================== *)
(** ** Time definitions of a shift type *)
(* ================================================================== *)

Section TimeDefinitions.

Lemma find_live_reference_some sid db w :
  find_live_reference sid db = Some w -> referenced_by_live_work_shift sid db.
Proof.
  unfold find_live_reference. intros H. apply find_some in H.
  destruct H as [Hin Hp]. apply andb_prop in Hp. destruct Hp as [Hs Hl].
  apply Nat.eqb_eq in Hs. exists w. auto.
Qed.

Lemma find_live_reference_none sid db :
  find_live_reference sid db = None -> ~ referenced_by_live_work_shift sid db.
Proof.
  unfold find_live_reference. intros H (w & Hin & Hs & Hl).
  pose proof (find_none _ _ H w Hin) as Hp. cbn beta in Hp.
  rewrite Hs, Nat.eqb_refl, Hl in Hp. discriminate.
Qed.

Lemma find_schedule_some stid vid db s :
  find_schedule stid vid db = Some s ->
  In s (shift_type_schedules db)
  /\ sch_shift_type_id s = stid /\ sch_template_version_id s = vid.
Proof.
  unfold find_schedule. intros H. apply find_some in H.
  destruct H as [Hin Hp]. apply andb_prop in Hp. destruct Hp as [H1 H2].
  apply Nat.eqb_eq in H1. apply Nat.eqb_eq in H2. auto.
Qed.

Lemma referenced_by_work_shift_existsb sid db :
  existsb (fun w => Nat.eqb (ws_schedule_id w) sid) (work_shifts db) = true
  <-> referenced_by_work_shift sid db.
Proof.
  unfold referenced_by_work_shift. rewrite existsb_exists.
  split; intros (w & Hin & Hw); exists w; (split; [exact Hin |]).
  - apply Nat.eqb_eq. exact Hw.
  - apply Nat.eqb_eq. exact Hw.
Qed.

Lemma unreferenced_existsb sid db :
  ~ referenced_by_work_shift sid db ->
  existsb (fun w => Nat.eqb (ws_schedule_id w) sid) (work_shifts db) = false.
Proof.
  intros H. apply not_true_is_false. intros E.
  apply H, referenced_by_work_shift_existsb, E.
Qed.

(** Step 2 of [updateShiftType] goes through when the colour and the sort
    order of the request fit their columns. *)
Lemma save_shift_type_assigned data st db :
  update_storable data ->
  save_shift_type st (assign_shift_type data st) db = (after_step_2 data st db, inr tt).
Proof.
  intros [Hc Hs]. unfold save_shift_type, after_step_2, assign_shift_type.
  cbn [st_color st_sort_order shift_type_id].
  destruct (defined (upd_color data)), (defined (upd_sort_order data));
    rewrite ?same_value_refl, ?Hc, ?Hs, ?orb_true_r; reflexivity.
Qed.

(** Step 2 writes the assigned columns or is refused by the database. *)
Lemma save_shift_type_assigned_or_refused data st db :
  save_shift_type st (assign_shift_type data st) db = (after_step_2 data st db, inr tt)
  \/ save_shift_type st (assign_shift_type data st) db = (db, inl DATABASE_ERROR).
Proof.
  unfold save_shift_type.
  destruct ((same_value (st_color st) (st_color (assign_shift_type data st))
             || column_holds in_bigint (st_color (assign_shift_type data st)))
            && (same_value (st_sort_order st) (st_sort_order (assign_shift_type data st))
                || column_holds in_smallint (st_sort_order (assign_shift_type data st))));
    [left | right]; reflexivity.
Qed.

(** For a live shift type of the caller on a template with a version,
    [updateShiftType] is its step 3 run on the store step 2 leaves, once
    step 2 has gone through. *)
Lemma updateShiftType_run_from user_id id data db st tpl v :
  find_shift_type_with_template id db = Some (st, tpl) ->
  tpl_owner_user_id tpl = user_id ->
  find_latest_version (template_id tpl) db = Some v ->
  save_shift_type st (assign_shift_type data st) db = (after_step_2 data st db, inr tt) ->
  updateShiftType user_id id data db
  = match update_times id v data (find_schedule id (template_version_id v) db)
            (after_step_2 data st db) with
    | (working, inr (start_t, end_t, time_info)) =>
        mkRun working [TxBegin; TxCommit]
          (inr (mkShiftTypeView (shift_type_id st)
                  (st_code (assign_shift_type data st))
                  (st_name (assign_shift_type data st))
                  (st_color (assign_shift_type data st))
                  (st_sort_order (assign_shift_type data st))
                  start_t end_t (ti_crosses_midnight time_info)
                  (ti_duration_minutes time_info)))
    | (_, inl e) => mkRun db [TxBegin; TxRollback] (inl e)
    end.
Proof.
  intros Hf Howner Hv Hsave.
  unfold updateShiftType, transaction, bind, find_or_throw, query, getCurrentVersion.
  rewrite Hf, Howner, Nat.eqb_refl. cbn [negb].
  rewrite Hsave, Hv.
  change (find_schedule id (template_version_id v) (after_step_2 data st db))
    with (find_schedule id (template_version_id v) db).
  destruct (update_times id v data (find_schedule id (template_version_id v) db)
              (after_step_2 data st db)) as [working [e | [[start_t end_t] time_info]]];
    reflexivity.
Qed.

Lemma updateShiftType_run user_id id data db st tpl v :
  find_shift_type_with_template id db = Some (st, tpl) ->
  tpl_owner_user_id tpl = user_id ->
  find_latest_version (template_id tpl) db = Some v ->
  update_storable data ->
  updateShiftType user_id id data db
  = match update_times id v data (find_schedule id (template_version_id v) db)
            (after_step_2 data st db) with
    | (working, inr (start_t, end_t, time_info)) =>
        mkRun working [TxBegin; TxCommit]
          (inr (mkShiftTypeView (shift_type_id st)
                  (st_code (assign_shift_type data st))
                  (st_name (assign_shift_type data st))
                  (st_color (assign_shift_type data st))
                  (st_sort_order (assign_shift_type data st))
                  start_t end_t (ti_crosses_midnight time_info)
                  (ti_duration_minutes time_info)))
    | (_, inl e) => mkRun db [TxBegin; TxRollback] (inl e)
    end.
Proof.
  intros Hf Howner Hv Hfit.
  apply (updateShiftType_run_from _ _ _ _ _ _ _ Hf Howner Hv).
  apply save_shift_type_assigned. exact Hfit.
Qed.

(** When the database refuses step 2, the update is rolled back. *)
Lemma updateShiftType_refused user_id id data db st tpl :
  find_shift_type_with_template id db = Some (st, tpl) ->
  tpl_owner_user_id tpl = user_id ->
  save_shift_type st (assign_shift_type data st) db = (db, inl DATABASE_ERROR) ->
  updateShiftType user_id id data db
  = mkRun db [TxBegin; TxRollback] (inl DATABASE_ERROR).
Proof.
  intros Hf Howner Hsave.
  unfold updateShiftType, transaction, bind, find_or_throw, query.
  rewrite Hf, Howner, Nat.eqb_refl. cbn [negb].
  rewrite Hsave. reflexivity.
Qed.

(** Step 3 when both properties are defined and not both hold a time, on
    an existing schedule: cleared in place when a live work shift points
    to it; otherwise removed, which the database refuses when a row of
    the work-shift table still points to it. *)
Lemma update_times_clear id v data s db :
  defined (upd_start_time data) && defined (upd_end_time data) = true ->
  truthy (upd_start_time data) && truthy (upd_end_time data) = false ->
  update_times id v data (Some s) db
  = match find_live_reference (schedule_id s) db with
    | Some _ => (set_schedules (clear_times_of s) db,
                 inr (None, None, mkTimeInfo false (Num 0)))
    | None =>
        if existsb (fun w => Nat.eqb (ws_schedule_id w) (schedule_id s)) (work_shifts db)
        then (db, inl DATABASE_ERROR)
        else (set_schedules (without_schedule s) db,
              inr (None, None, mkTimeInfo false (Num 0)))
    end.
Proof.
  intros Hd Ht. unfold update_times, bind, query. rewrite Hd, Ht.
  destruct (find_live_reference (schedule_id s) db); [reflexivity |].
  unfold destroy_schedule.
  destruct (existsb (fun w => Nat.eqb (ws_schedule_id w) (schedule_id s))
              (work_shifts db)); reflexivity.
Qed.

(** Step 3 when a time property is undefined: nothing is written. *)
Lemma update_times_keep id v data s db :
  defined (upd_start_time data) && defined (upd_end_time data) = false ->
  update_times id v data (Some s) db
  = (db, inr (start_time s, end_time s,
              mkTimeInfo (crosses_midnight s) (duration_minutes s))).
Proof. intros Hd. unfold update_times. rewrite Hd. reflexivity. Qed.

Lemma clear_times_of_In s rows :
  In s rows -> In (with_times s None None false (Num 0)) (clear_times_of s rows).
Proof.
  intros H. unfold clear_times_of. apply in_map_iff. exists s.
  rewrite Nat.eqb_refl. auto.
Qed.

Lemma without_schedule_not_In s rows : ~ In s (without_schedule s rows).
Proof.
  unfold without_schedule. intros H. apply filter_In in H. destruct H as [_ H].
  rewrite Nat.eqb_refl in H. discriminate.
Qed.

(** What [updateShiftType] does when the two time properties are defined
    and not both hold a time, and the colour and sort order it is given
    fit their columns. *)
Lemma updateShiftType_clears user_id id data db st tpl v s :
  find_shift_type_with_template id db = Some (st, tpl) ->
  tpl_owner_user_id tpl = user_id ->
  find_latest_version (template_id tpl) db = Some v ->
  find_schedule id (template_version_id v) db = Some s ->
  update_storable data ->
  defined (upd_start_time data) && defined (upd_end_time data) = true ->
  truthy (upd_start_time data) && truthy (upd_end_time data) = false ->
  let run := updateShiftType user_id id data db in
  let cleared view :=
    result run = inr view
    /\ view_start_time view = None /\ view_end_time view = None
    /\ view_crosses_midnight view = false
    /\ view_duration_minutes view = Num 0 in
  (referenced_by_live_work_shift (schedule_id s) db ->
   (exists view, cleared view)
   /\ shift_type_schedules (store run) = clear_times_of s (shift_type_schedules db))
  /\ (~ referenced_by_work_shift (schedule_id s) db ->
      (exists view, cleared view)
      /\ shift_type_schedules (store run) = without_schedule s (shift_type_schedules db))
  /\ (~ referenced_by_live_work_shift (schedule_id s) db ->
      referenced_by_work_shift (schedule_id s) db ->
      result run = inl DATABASE_ERROR /\ store run = db).
Proof.
  intros Hf Howner Hv Hs Hfit Hd Ht run cleared. unfold cleared, run.
  rewrite (updateShiftType_run _ _ _ _ _ _ _ Hf Howner Hv Hfit), Hs.
  rewrite (update_times_clear _ _ _ _ _ Hd Ht).
  change (find_live_reference (schedule_id s) (after_step_2 data st db))
    with (find_live_reference (schedule_id s) db).
  change (work_shifts (after_step_2 data st db)) with (work_shifts db).
  destruct (find_live_reference (schedule_id s) db) as [w|] eqn:Hw.
  - pose proof (find_live_reference_some _ _ _ Hw) as Hlive.
    cbn [result store]. split; [| split].
    + intros _. split; [eexists; repeat split | reflexivity].
    + intros Hfree. exfalso. apply Hfree.
      destruct Hlive as (w' & Hin & Hsid & _). exists w'. auto.
    + intros Hfree. contradiction.
  - pose proof (find_live_reference_none _ _ Hw) as Hno.
    destruct (existsb (fun w => Nat.eqb (ws_schedule_id w) (schedule_id s))
                (work_shifts db)) eqn:Hrow; cbn [result store].
    + apply referenced_by_work_shift_existsb in Hrow.
      split; [intros Hlive; contradiction |]. split; [| auto].
      intros Hfree. contradiction.
    + split; [intros Hlive; contradiction |]. split.
      * intros _. split; [eexists; repeat split | reflexivity].
      * intros _ Hrow'. apply referenced_by_work_shift_existsb in Hrow'.
        rewrite Hrow' in Hrow. discriminate.
Qed.

(** What [updateShiftType] does to the schedule table when a time
    property is undefined: nothing, and it reports the existing times. *)
Lemma updateShiftType_keeps user_id id data db st tpl v s :
  find_shift_type_with_template id db = Some (st, tpl) ->
  tpl_owner_user_id tpl = user_id ->
  find_latest_version (template_id tpl) db = Some v ->
  find_schedule id (template_version_id v) db = Some s ->
  update_storable data ->
  defined (upd_start_time data) && defined (upd_end_time data) = false ->
  let run := updateShiftType user_id id data db in
  (exists view, result run = inr view
                /\ view_start_time view = start_time s
                /\ view_end_time view = end_time s
                /\ view_crosses_midnight view = crosses_midnight s
                /\ view_duration_minutes view = duration_minutes s)
  /\ shift_type_schedules (store run) = shift_type_schedules db.
Proof.
  intros Hf Howner Hv Hs Hfit Hd run.
  unfold run. rewrite (updateShiftType_run _ _ _ _ _ _ _ Hf Howner Hv Hfit), Hs.
  rewrite (update_times_keep _ _ _ _ _ Hd). cbn [result store].
  split; [eexists; repeat split | reflexivity].
Qed.

(** In [updateShiftType], for a live shift type of the caller whose
    template's current version has a schedule row for it, and a colour and
    sort order that fit their columns: with both times [null] and a live
    work shift pointing to the row, the row stays, with start and end
    [null], [crosses_midnight] false and [duration_minutes] 0, and the
    other rows are as before; with both times [null] and no row of the
    work-shift table pointing to it, the row is removed; with both times
    [null] and only soft-deleted work shifts pointing to it, the update
    fails and changes nothing; with the time properties left out, the
    schedule table is as before. *)
Lemma updateShiftType_null_and_omitted_times
    (user_id id : uuid) (data : UpdateShiftTypeData) (db : DB)
    (st : ShiftType) (tpl : ShiftTemplate) (v : ShiftTemplateVersion)
    (s : ShiftTypeSchedule) :
  find_shift_type_with_template id db = Some (st, tpl) ->
  tpl_owner_user_id tpl = user_id ->
  find_latest_version (template_id tpl) db = Some v ->
  find_schedule id (template_version_id v) db = Some s ->
  update_storable data ->
  let run := updateShiftType user_id id data db in
  (upd_start_time data = Null -> upd_end_time data = Null ->
   referenced_by_live_work_shift (schedule_id s) db ->
   shift_type_schedules (store run) = clear_times_of s (shift_type_schedules db)
   /\ In (with_times s None None false (Num 0)) (shift_type_schedules (store run))
   /\ List.length (shift_type_schedules (store run))
      = List.length (shift_type_schedules db))
  /\ (upd_start_time data = Null -> upd_end_time data = Null ->
      ~ referenced_by_work_shift (schedule_id s) db ->
      shift_type_schedules (store run) = without_schedule s (shift_type_schedules db)
      /\ ~ In s (shift_type_schedules (store run)))
  /\ (upd_start_time data = Null -> upd_end_time data = Null ->
      ~ referenced_by_live_work_shift (schedule_id s) db ->
      referenced_by_work_shift (schedule_id s) db ->
      result run = inl DATABASE_ERROR /\ store run = db)
  /\ (upd_start_time data = Undefined \/ upd_end_time data = Undefined ->
      shift_type_schedules (store run) = shift_type_schedules db).
Proof.
  intros Hf Howner Hv Hs Hfit run.
  destruct (find_schedule_some _ _ _ _ Hs) as (Hin & _).
  split; [| split; [| split]].
  - intros Hstart Hend Huse.
    destruct (updateShiftType_clears user_id id data db st tpl v s Hf Howner Hv Hs Hfit)
      as (Hclear & _ & _); [rewrite Hstart, Hend; reflexivity .. |].
    destruct (Hclear Huse) as (_ & Heq). fold run in Heq.
    rewrite Heq. split; [reflexivity |].
    split; [apply clear_times_of_In; exact Hin |].
    unfold clear_times_of. apply length_map.
  - intros Hstart Hend Hfree.
    destruct (updateShiftType_clears user_id id data db st tpl v s Hf Howner Hv Hs Hfit)
      as (_ & Hdrop & _); [rewrite Hstart, Hend; reflexivity .. |].
    destruct (Hdrop Hfree) as (_ & Heq). fold run in Heq.
    rewrite Heq. split; [reflexivity |].
    apply without_schedule_not_In.
  - intros Hstart Hend Hfree Hrow.
    destruct (updateShiftType_clears user_id id data db st tpl v s Hf Howner Hv Hs Hfit)
      as (_ & _ & Hfail); [rewrite Hstart, Hend; reflexivity .. |].
    exact (Hfail Hfree Hrow).
  - intros Homitted.
    destruct (updateShiftType_keeps user_id id data db st tpl v s Hf Howner Hv Hs Hfit)
      as (_ & Hkeep); [| exact Hkeep].
    destruct Homitted as [-> | ->]; [reflexivity |].
    apply andb_false_r.
Qed.

(** Both times set to [null] on a schedule that Alice's work shift of
    2024-01-15 points to: the row is cleared in place. *)
Example updateShiftType_null_times_referenced :
  shift_type_schedules
    (store (updateShiftType alice 1
              (mkUpdateShiftTypeData None None Undefined Null Null Undefined)
              assigned_db))
  = [day_schedule_v1; mkShiftTypeSchedule 2 1 2 None None false (Num 0)].
Proof. reflexivity. Qed.

(** The same update on a schedule no work shift points to removes it. *)
Example updateShiftType_null_times_unreferenced :
  shift_type_schedules
    (store (updateShiftType alice 1
              (mkUpdateShiftTypeData None None Undefined Null Null Undefined)
              versioned_db))
  = [day_schedule_v1].
Proof. reflexivity. Qed.

(** C8, at the store that a soft delete leaves: Alice's work shift of
    2024-01-15 is soft-deleted and still points to the day shift's
    schedule under the current version, which no live work shift points
    to.  [updateShiftType] with both times [null] finds the schedule not
    in use and deletes it; the database refuses, the update fails and is
    rolled back, and the schedule row is still there, with its times. *)
Theorem updateShiftType_null_times_after_soft_delete :
  let data := mkUpdateShiftTypeData None None Undefined Null Null Undefined in
  let run := updateShiftType alice 1 data deleted_day_db in
  work_shifts deleted_day_db
  = [mkWorkShift 1 alice 20240115 2 None 0 alice (Some 7) (Some alice)]
  /\ find_shift_type_with_template 1 deleted_day_db = Some (day_type, base_template)
  /\ find_schedule 1 (template_version_id version_2) deleted_day_db
     = Some day_schedule_v2
  /\ find_live_reference (schedule_id day_schedule_v2) deleted_day_db = None
  /\ result run = inl DATABASE_ERROR
  /\ events run = [TxBegin; TxRollback]
  /\ store run = deleted_day_db
  /\ shift_type_schedules (store run) = [day_schedule_v1; day_schedule_v2].
Proof. repeat split. Qed.

(** *** One time without the other *)

(** The row-level validator rejects a schedule with one time only. *)
Example create_schedule_one_time_rejected :
  create_schedule 1 2 (Some "09:00:00") None false (Num 0) versioned_db
  = (versioned_db, inl TIME_CONSISTENCY_VIOLATION).
Proof. reflexivity. Qed.






(** An update that gives a start time and a [null] end time clears the
    schedule a work shift points to. *)
Example updateShiftType_one_time_clears :
  let run := updateShiftType alice 1
               (mkUpdateShiftTypeData None None Undefined (Value "08:00:00") Null
                  Undefined) assigned_db in
  result run
  = inr (mkShiftTypeView 1 "D" "Day" None (Some 1) None None false (Num 0))
  /\ shift_type_schedules (store run)
     = [day_schedule_v1; mkShiftTypeSchedule 2 1 2 None None false (Num 0)].
Proof. split; reflexivity. Qed.

End TimeDefinitions.

(* ================================================================== *)
(** ** More on the time arithmetic *)
(* ================================================================== *)

Section TimeInfoSymmetry.

(** X1: swapping two well-formed times that differ in their minute of the day
    swaps which of the two shifts crosses midnight, and the two durations
    add up to a day: both are positive and below 1440 minutes. *)
Theorem calculateTimeInfo_swapped (s e : string) :
  is_time s = true -> is_time e = true ->
  minute_of_day s <> minute_of_day e ->
  exists d1 d2,
    calculateTimeInfo (Some s) (Some e)
    = mkTimeInfo (minute_of_day e <? minute_of_day s) (Num d1)
    /\ calculateTimeInfo (Some e) (Some s)
       = mkTimeInfo (negb (minute_of_day e <? minute_of_day s)) (Num d2)
    /\ d1 + d2 = 1440
    /\ 0 < d1 < 1440 /\ 0 < d2 < 1440.
Proof.
  intros Hs He Hne.
  rewrite (calculateTimeInfo_is_time _ _ Hs He), (calculateTimeInfo_is_time _ _ He Hs).
  pose proof (minute_of_day_range _ Hs). pose proof (minute_of_day_range _ He).
  destruct (Z.ltb_spec (minute_of_day e) (minute_of_day s));
    destruct (Z.ltb_spec (minute_of_day s) (minute_of_day e)); try lia;
    eexists; eexists; (split; [reflexivity |]); (split; [reflexivity |]); lia.
Qed.

Lemma calculateTimeInfo_swapped_witness :
  is_time "22:30:00" = true /\ is_time "07:00:00" = true
  /\ minute_of_day "22:30:00" <> minute_of_day "07:00:00"
  /\ exists d1 d2,
       calculateTimeInfo (Some "22:30:00") (Some "07:00:00")
       = mkTimeInfo (minute_of_day "07:00:00" <? minute_of_day "22:30:00") (Num d1)
       /\ calculateTimeInfo (Some "07:00:00") (Some "22:30:00")
          = mkTimeInfo (negb (minute_of_day "07:00:00" <? minute_of_day "22:30:00"))
              (Num d2)
       /\ d1 + d2 = 1440
       /\ 0 < d1 < 1440 /\ 0 < d2 < 1440.
Proof.
  split; [reflexivity | split; [reflexivity |]].
  assert (Hne : minute_of_day "22:30:00" <> minute_of_day "07:00:00")
    by (vm_compute; discriminate).
  split; [exact Hne |].
  exact (calculateTimeInfo_swapped "22:30:00" "07:00:00" eq_refl eq_refl Hne).
Defined.

Lemma is_time_substring (s : string) :
  is_time s = true ->
  is_time (substring 0 5 s) = true
  /\ minute_of_day (substring 0 5 s) = minute_of_day s.
Proof.
  intros H. apply is_time_inv in H.
  destruct H as (h1 & h2 & m1 & m2 & rest & -> & Hh & Hm & _).
  cbn [substring]. destruct rest; cbn [substring is_time minute_of_day];
    rewrite Hh, Hm; split; reflexivity.
Qed.

(** X2: the seconds of a well-formed [HH:MM:SS] time play no part: the result
    is that of the two times cut down to [HH:MM]. *)
Theorem calculateTimeInfo_ignores_seconds (s e : string) :
  is_time s = true -> is_time e = true ->
  calculateTimeInfo (Some s) (Some e)
  = calculateTimeInfo (Some (substring 0 5 s)) (Some (substring 0 5 e)).
Proof.
  intros Hs He.
  destruct (is_time_substring _ Hs) as [Hs' Ms].
  destruct (is_time_substring _ He) as [He' Me].
  rewrite (calculateTimeInfo_is_time _ _ Hs He),
    (calculateTimeInfo_is_time _ _ Hs' He'), Ms, Me.
  reflexivity.
Qed.

Lemma calculateTimeInfo_ignores_seconds_witness :
  is_time "22:30:59" = true /\ is_time "22:31:00" = true
  /\ calculateTimeInfo (Some "22:30:59") (Some "22:31:00")
     = calculateTimeInfo (Some "22:30") (Some "22:31").
Proof.
  split; [reflexivity | split; [reflexivity |]].
  exact (calculateTimeInfo_ignores_seconds "22:30:59" "22:31:00" eq_refl eq_refl).
Defined.

End TimeInfoSymmetry.

(* ================================================================== *)
(** ** Ordered listings *)
(* ================================================================== *)

Section OrderBy.

Context {A : Type} (leb : A -> A -> bool).

Lemma insert_by_Permutation (x : A) (xs : list A) :
  Permutation (insert_by leb x xs) (x :: xs).
Proof.
  induction xs as [|y rest IH]; cbn [insert_by]; [apply Permutation_refl |].
  destruct (leb x y); [apply Permutation_refl |].
  apply perm_trans with (y :: x :: rest); [| apply perm_swap].
  apply perm_skip. exact IH.
Qed.

Lemma order_by_Permutation (xs : list A) : Permutation (order_by leb xs) xs.
Proof.
  induction xs as [|x rest IH]; cbn [order_by fold_right]; [apply perm_nil |].
  apply perm_trans with (x :: order_by leb rest).
  - apply insert_by_Permutation.
  - apply perm_skip. exact IH.
Qed.

Lemma order_by_In (xs : list A) (x : A) : In x (order_by leb xs) <-> In x xs.
Proof.
  split; apply Permutation_in;
    [| apply Permutation_sym]; apply order_by_Permutation.
Qed.

Hypothesis leb_total : forall a b, leb a b = true \/ leb b a = true.
Hypothesis leb_trans : forall a b c, leb a b = true -> leb b c = true -> leb a c = true.

Lemma insert_by_sorted (x : A) (xs : list A) :
  StronglySorted (fun a b => leb a b = true) xs ->
  StronglySorted (fun a b => leb a b = true) (insert_by leb x xs).
Proof.
  induction xs as [|y rest IH]; cbn [insert_by]; intros Hs.
  - constructor; constructor.
  - apply StronglySorted_inv in Hs. destruct Hs as [Hrest Hy].
    destruct (leb x y) eqn:Hxy.
    + constructor; [constructor; assumption |].
      constructor; [exact Hxy |].
      rewrite Forall_forall in Hy |- *. intros z Hz.
      exact (leb_trans _ _ _ Hxy (Hy z Hz)).
    + constructor; [apply IH; exact Hrest |].
      rewrite Forall_forall in Hy |- *. intros z Hz.
      apply (Permutation_in _ (insert_by_Permutation x rest)) in Hz.
      destruct Hz as [<- | Hz]; [| exact (Hy z Hz)].
      destruct (leb_total x y) as [H | H]; [congruence | exact H].
Qed.

Lemma order_by_sorted (xs : list A) :
  StronglySorted (fun a b => leb a b = true) (order_by leb xs).
Proof.
  induction xs as [|x rest IH]; cbn [order_by fold_right]; [constructor |].
  apply insert_by_sorted. exact IH.
Qed.

End OrderBy.

Lemma StronglySorted_map {A B} (f : A -> B) (R : B -> B -> Prop) (xs : list A) :
  StronglySorted (fun a b => R (f a) (f b)) xs -> StronglySorted R (map f xs).
Proof.
  induction 1 as [|x rest Hs IH Hall]; cbn; constructor; [exact IH |].
  rewrite Forall_forall in Hall |- *. intros y Hy.
  apply in_map_iff in Hy. destruct Hy as (a & <- & Ha). exact (Hall a Ha).
Qed.

Lemma asc_nulls_last_total (a b : option Z) :
  asc_nulls_last a b = true \/ asc_nulls_last b a = true.
Proof.
  destruct a as [x|], b as [y|]; cbn; auto.
  destruct (Z.leb_spec x y); [auto |]. right. apply Z.leb_le. lia.
Qed.

Lemma asc_nulls_last_trans (a b c : option Z) :
  asc_nulls_last a b = true -> asc_nulls_last b c = true ->
  asc_nulls_last a c = true.
Proof.
  destruct a as [x|], b as [y|], c as [z|]; cbn; try congruence.
  intros H1 H2. apply Z.leb_le in H1. apply Z.leb_le in H2. apply Z.leb_le. lia.
Qed.

Lemma Z_leb_total_on {A} (key : A -> Z) (a b : A) :
  (key a <=? key b) = true \/ (key b <=? key a) = true.
Proof.
  destruct (Z.leb_spec (key a) (key b)); [auto |]. right. apply Z.leb_le. lia.
Qed.

Lemma Z_leb_trans_on {A} (key : A -> Z) (a b c : A) :
  (key a <=? key b) = true -> (key b <=? key c) = true -> (key a <=? key c) = true.
Proof.
  intros H1 H2. apply Z.leb_le in H1. apply Z.leb_le in H2. apply Z.leb_le. lia.
Qed.

(* ================================================================== *)
(** ** The listing of shift types *)
(* ================================================================== *)

Section ShiftTypeListings.

(** What [getShiftTypes] returns, and that it writes nothing. *)
Lemma getShiftTypes_run user_id db :
  getShiftTypes user_id db
  = match find_active_template user_id db with
    | None => mkRun db [] (inl TEMPLATE_NOT_FOUND)
    | Some template =>
        match find_latest_version (template_id template) db with
        | None => mkRun db [] (inl TEMPLATE_NOT_FOUND)
        | Some v =>
            mkRun db []
              (inr (mkShiftTypeListing (template_id template) (tpl_name template)
                      (map (shift_type_with_schedule (template_version_id v) db)
                           (live_shift_types_in_order (template_id template) db))))
        end
    end.
Proof.
  unfold getShiftTypes, autocommit, bind, find_or_throw, query.
  destruct (find_active_template user_id db) as [t|]; [| reflexivity].
  destruct (find_latest_version (template_id t) db) as [v|]; reflexivity.
Qed.

Lemma shift_type_with_schedule_id vid db st :
  view_shift_type_id (shift_type_with_schedule vid db st) = shift_type_id st.
Proof.
  unfold shift_type_with_schedule. destruct (find_schedule _ _ _); reflexivity.
Qed.

Lemma shift_type_with_schedule_sort_order vid db st :
  view_sort_order (shift_type_with_schedule vid db st) = st_sort_order st.
Proof.
  unfold shift_type_with_schedule. destruct (find_schedule _ _ _); reflexivity.
Qed.

Lemma live_shift_types_in_order_sorted tid db :
  StronglySorted
    (fun a b => asc_nulls_last (st_sort_order a) (st_sort_order b) = true)
    (live_shift_types_in_order tid db).
Proof.
  unfold live_shift_types_in_order.
  apply (order_by_sorted
           (fun a b => asc_nulls_last (st_sort_order a) (st_sort_order b))).
  - intros a b. apply asc_nulls_last_total.
  - intros a b c. apply asc_nulls_last_trans.
Qed.

(** X3: the listing of [getShiftTypes] holds each live shift type of the
    caller's active template exactly once and no other, in ascending
    [sort_order] with the shift types without one last; and the call
    writes nothing. *)
Theorem getShiftTypes_sorted_and_complete user_id db listing :
  result (getShiftTypes user_id db) = inr listing ->
  exists template,
    find_active_template user_id db = Some template
    /\ listing_template_id listing = template_id template
    /\ listing_template_name listing = tpl_name template
    /\ Permutation (map view_shift_type_id (listing_shift_types listing))
         (map shift_type_id
              (filter (live_shift_type_of (template_id template)) (shift_types db)))
    /\ StronglySorted
         (fun a b => asc_nulls_last (view_sort_order a) (view_sort_order b) = true)
         (listing_shift_types listing)
    /\ store (getShiftTypes user_id db) = db.
Proof.
  rewrite getShiftTypes_run.
  destruct (find_active_template user_id db) as [t|]; [| discriminate].
  destruct (find_latest_version (template_id t) db) as [v|]; [| discriminate].
  cbn [result store]. intros [= <-]. exists t. cbn [listing_template_id
    listing_template_name listing_shift_types].
  repeat split.
  - rewrite map_map.
    rewrite (map_ext _ shift_type_id) by (intros; apply shift_type_with_schedule_id).
    apply Permutation_map. unfold live_shift_types_in_order.
    apply order_by_Permutation.
  - apply StronglySorted_map.
    pose proof (live_shift_types_in_order_sorted (template_id t) db) as Hs.
    induction Hs as [|x rest Hs IH Hall]; constructor; [exact IH |].
    rewrite Forall_forall in Hall |- *. intros y Hy.
    rewrite !shift_type_with_schedule_sort_order. exact (Hall y Hy).
Qed.

Lemma getShiftTypes_sorted_and_complete_witness :
  result (getShiftTypes alice versioned_db)
  = inr (mkShiftTypeListing 1 "base"
           [mkShiftTypeView 1 "D" "Day" None (Some 1) (Some "07:00:00")
              (Some "15:00:00") false (Num 480);
            mkShiftTypeView 2 "N" "Night" None (Some 2) None None false (Num 0)])
  /\ exists template,
       find_active_template alice versioned_db = Some template
       /\ listing_template_id
            (mkShiftTypeListing 1 "base"
               [mkShiftTypeView 1 "D" "Day" None (Some 1) (Some "07:00:00")
                  (Some "15:00:00") false (Num 480);
                mkShiftTypeView 2 "N" "Night" None (Some 2) None None false (Num 0)])
          = template_id template.
Proof.
  split; [reflexivity |].
  destruct (getShiftTypes_sorted_and_complete alice versioned_db _ eq_refl)
    as (t & Ht & Hid & _).
  exists t. split; assumption.
Defined.

(** X4: [getShiftTypes] fails exactly when the caller has no live template or
    the template has no version, and then with [TEMPLATE_NOT_FOUND];
    [getCurrentTemplate] fails only in the first case and reports the
    second as a template without current version. *)
Theorem getShiftTypes_and_getCurrentTemplate_failures user_id db :
  (forall e, result (getShiftTypes user_id db) = inl e -> e = TEMPLATE_NOT_FOUND)
  /\ ((exists e, result (getShiftTypes user_id db) = inl e)
      <-> find_active_template user_id db = None
          \/ exists t, find_active_template user_id db = Some t
                       /\ forall v, ~ version_of (template_id t) db v)
  /\ ((exists e, result (getCurrentTemplate user_id db) = inl e)
      <-> find_active_template user_id db = None)
  /\ (forall t, find_active_template user_id db = Some t ->
                (forall v, ~ version_of (template_id t) db v) ->
                result (getCurrentTemplate user_id db)
                = inr (mkCurrentTemplate (template_id t) (tpl_name t)
                         (tpl_owner_user_id t) None)).
Proof.
  rewrite getShiftTypes_run.
  unfold getCurrentTemplate, autocommit, bind, find_or_throw, query, ret.
  destruct (find_active_template user_id db) as [t|] eqn:Ht.
  - destruct (find_latest_version (template_id t) db) as [v|] eqn:Hv; cbn [result].
    + apply find_latest_version_some in Hv. destruct Hv as [Hv _].
      split; [discriminate |]. split; [| split].
      * split; [intros [e He]; discriminate |].
        intros [H | (t' & [= <-] & Hnone)]; [discriminate |].
        exfalso. exact (Hnone v Hv).
      * split; [intros [e He]; discriminate | discriminate].
      * intros t' [= <-] Hnone. exfalso. exact (Hnone v Hv).
    + pose proof (find_latest_version_none _ _ Hv) as Hnone.
      split; [intros e [= <-]; reflexivity |]. split; [| split].
      * split; [| eauto]. intros _. right. exists t. auto.
      * split; [intros [e He]; discriminate | discriminate].
      * intros t' [= <-] _. reflexivity.
  - cbn [result]. split; [intros e [= <-]; reflexivity |]. split; [| split].
    + split; [auto | eauto].
    + split; [auto | eauto].
    + discriminate.
Qed.

End ShiftTypeListings.

(* ================================================================== *)
(** ** Renaming the template *)
(* ================================================================== *)

Section TemplateName.

(** Looking for the caller's live template after a rename by primary key
    finds the renamed row. *)
Lemma find_active_template_renamed user_id name db t :
  find_active_template user_id db = Some t ->
  find_active_template user_id (rename_template (template_id t) name db)
  = Some (mkShiftTemplate (template_id t) (tpl_owner_user_id t) name
            (tpl_deleted_at t)).
Proof.
  unfold find_active_template, rename_template. cbn [shift_templates].
  induction (shift_templates db) as [|r rest IH]; cbn [find map]; [discriminate |].
  destruct (Nat.eqb (tpl_owner_user_id r) user_id && is_null (tpl_deleted_at r))
    eqn:Hr.
  - intros [= ->]. rewrite Nat.eqb_refl. cbn [tpl_owner_user_id tpl_deleted_at].
    rewrite Hr. reflexivity.
  - intros Hrest. destruct (Nat.eqb (template_id r) (template_id t)) eqn:Hid.
    + cbn [tpl_owner_user_id tpl_deleted_at]. rewrite Hr. exact (IH Hrest).
    + rewrite Hr. exact (IH Hrest).
Qed.

Lemma find_other_template_named_some user_id name tid db other :
  find_other_template_named user_id name tid db = Some other ->
  In other (shift_templates db)
  /\ tpl_owner_user_id other = user_id
  /\ tpl_name other = name
  /\ tpl_deleted_at other = None
  /\ template_id other <> tid.
Proof.
  unfold find_other_template_named. intros H. apply find_some in H.
  destruct H as [Hin Hp].
  apply andb_prop in Hp. destruct Hp as [Hp Hid].
  apply andb_prop in Hp. destruct Hp as [Hp Hdel].
  apply andb_prop in Hp. destruct Hp as [Hown Hname].
  apply Nat.eqb_eq in Hown. apply String.eqb_eq in Hname.
  apply negb_true_iff, Nat.eqb_neq in Hid.
  destruct (tpl_deleted_at other); [discriminate |]. auto.
Qed.

Lemma find_other_template_named_none user_id name tid db :
  find_other_template_named user_id name tid db = None ->
  forall other, In other (shift_templates db) ->
                tpl_owner_user_id other = user_id ->
                tpl_name other = name ->
                tpl_deleted_at other = None ->
                template_id other = tid.
Proof.
  unfold find_other_template_named. intros H other Hin Hown Hname Hdel.
  pose proof (find_none _ _ H other Hin) as Hp. cbn beta in Hp.
  rewrite Hown, Hname, Hdel, Nat.eqb_refl, String.eqb_refl in Hp. cbn in Hp.
  apply negb_false_iff, Nat.eqb_eq in Hp. exact Hp.
Qed.

(** X5: after a successful [updateTemplateName], [getCurrentTemplate] reports
    the same template under the new name; versions, shift types, schedules
    and work shifts are as before. *)
Theorem updateTemplateName_then_getCurrentTemplate user_id name db t :
  snd (updateTemplateName user_id name db) = inr t ->
  let db' := fst (updateTemplateName user_id name db) in
  (exists t0, find_active_template user_id db = Some t0
              /\ template_id t = template_id t0)
  /\ tpl_name t = name
  /\ result (getCurrentTemplate user_id db')
     = inr (mkCurrentTemplate (template_id t) name (tpl_owner_user_id t)
              (find_latest_version (template_id t) db))
  /\ shift_template_versions db' = shift_template_versions db
  /\ shift_types db' = shift_types db
  /\ shift_type_schedules db' = shift_type_schedules db
  /\ work_shifts db' = work_shifts db.
Proof.
  unfold updateTemplateName.
  destruct (find_active_template user_id db) as [t0|] eqn:Ht; [| discriminate].
  destruct (find_other_template_named user_id name (template_id t0) db);
    [discriminate |].
  cbn [fst snd]. intros [= <-]. cbn [template_id tpl_name tpl_owner_user_id].
  split; [exists t0; auto |]. split; [reflexivity |].
  split; [| repeat split].
  unfold getCurrentTemplate, autocommit, bind, find_or_throw, query, ret.
  rewrite (find_active_template_renamed _ name _ _ Ht). reflexivity.
Qed.

Lemma updateTemplateName_then_getCurrentTemplate_witness :
  snd (updateTemplateName alice "rota" versioned_db)
  = inr (mkShiftTemplate 1 alice "rota" None)
  /\ result (getCurrentTemplate alice (fst (updateTemplateName alice "rota" versioned_db)))
     = inr (mkCurrentTemplate 1 "rota" alice (Some version_2)).
Proof.
  split; [reflexivity |].
  exact (proj1 (proj2 (proj2
           (updateTemplateName_then_getCurrentTemplate alice "rota" versioned_db
              (mkShiftTemplate 1 alice "rota" None) eq_refl)))).
Defined.

(** X6: for a caller with a live template, [updateTemplateName] fails with
    [DUPLICATE_NAME] exactly when another live template of the caller, with
    another id, bears the name; so renaming a template to the name it has
    is accepted.  A failed call writes nothing. *)
Theorem updateTemplateName_duplicate_name user_id name db t0 :
  find_active_template user_id db = Some t0 ->
  (snd (updateTemplateName user_id name db) = inl "DUPLICATE_NAME"
   <-> exists other, In other (shift_templates db)
                     /\ tpl_owner_user_id other = user_id
                     /\ tpl_name other = name
                     /\ tpl_deleted_at other = None
                     /\ template_id other <> template_id t0)
  /\ (forall e, snd (updateTemplateName user_id name db) = inl e ->
                e = "DUPLICATE_NAME" /\ fst (updateTemplateName user_id name db) = db).
Proof.
  intros Ht. unfold updateTemplateName. rewrite Ht.
  destruct (find_other_template_named user_id name (template_id t0) db)
    as [other|] eqn:Ho; cbn [fst snd].
  - split; [| intros e [= <-]; auto].
    split; [| reflexivity]. intros _. exists other.
    apply (find_other_template_named_some _ _ _ _ _ Ho).
  - split; [| discriminate].
    split; [discriminate |].
    intros (other & Hin & Hown & Hname & Hdel & Hid). exfalso. apply Hid.
    exact (find_other_template_named_none _ _ _ _ Ho other Hin Hown Hname Hdel).
Qed.

Lemma updateTemplateName_duplicate_name_witness :
  find_active_template alice versioned_db = Some base_template
  /\ snd (updateTemplateName alice "base" versioned_db)
     = inr (mkShiftTemplate 1 alice "base" None)
  /\ forall e, snd (updateTemplateName alice "base" versioned_db) = inl e ->
               e = "DUPLICATE_NAME"
               /\ fst (updateTemplateName alice "base" versioned_db) = versioned_db.
Proof.
  split; [reflexivity | split; [reflexivity |]].
  exact (proj2 (updateTemplateName_duplicate_name alice "base" versioned_db
                  base_template eq_refl)).
Defined.

End TemplateName.

Section TemplateNameInvariant.

Lemma NoDup_map_eq {A B} (f : A -> B) (xs : list A) a b :
  NoDup (map f xs) -> In a xs -> In b xs -> f a = f b -> a = b.
Proof.
  induction xs as [|x rest IH]; cbn [map]; intros Hnd Ha Hb Hf; [contradiction |].
  inversion Hnd as [|? ? Hnotin Hnd']; subst.
  destruct Ha as [-> | Ha], Hb as [-> | Hb].
  - reflexivity.
  - exfalso. apply Hnotin. rewrite Hf. apply in_map. exact Hb.
  - exfalso. apply Hnotin. rewrite <- Hf. apply in_map. exact Ha.
  - exact (IH Hnd' Ha Hb Hf).
Qed.

Lemma find_active_template_some user_id db t :
  find_active_template user_id db = Some t ->
  In t (shift_templates db) /\ tpl_owner_user_id t = user_id
  /\ tpl_deleted_at t = None.
Proof.
  unfold find_active_template. intros H. apply find_some in H.
  destruct H as [Hin Hp]. apply andb_prop in Hp. destruct Hp as [Hown Hdel].
  apply Nat.eqb_eq in Hown. destruct (tpl_deleted_at t); [discriminate |]. auto.
Qed.

(** X7: [updateTemplateName], failed or not, keeps the ids of the templates as
    they are and, when they are unique, keeps an owner's live templates
    from sharing a name. *)
Theorem updateTemplateName_keeps_names_distinct user_id name db :
  NoDup (map template_id (shift_templates db)) ->
  live_names_distinct db ->
  let db' := fst (updateTemplateName user_id name db) in
  map template_id (shift_templates db') = map template_id (shift_templates db)
  /\ live_names_distinct db'.
Proof.
  intros Hpk Hinv. unfold updateTemplateName.
  destruct (find_active_template user_id db) as [t0|] eqn:Ht;
    [| cbn [fst]; auto].
  destruct (find_other_template_named user_id name (template_id t0) db) eqn:Ho;
    [cbn [fst]; auto |].
  cbn [fst]. unfold rename_template. split.
  - cbn [shift_templates]. rewrite map_map. apply map_ext.
    intros r. destruct (Nat.eqb (template_id r) (template_id t0)); reflexivity.
  - destruct (find_active_template_some _ _ _ Ht) as (Hin0 & Hown0 & Hdel0).
    unfold live_names_distinct. cbn [shift_templates].
    intros t1 t2 H1 H2 Hown Hname Hd1 Hd2.
    apply in_map_iff in H1. destruct H1 as (r1 & <- & Hr1).
    apply in_map_iff in H2. destruct H2 as (r2 & <- & Hr2).
    destruct (Nat.eqb_spec (template_id r1) (template_id t0)) as [E1 | N1];
      destruct (Nat.eqb_spec (template_id r2) (template_id t0)) as [E2 | N2];
      cbn [template_id tpl_owner_user_id tpl_name tpl_deleted_at] in *.
    + congruence.
    + exfalso. apply N2.
      assert (r1 = t0) by exact (NoDup_map_eq _ _ _ _ Hpk Hr1 Hin0 E1). subst r1.
      apply (find_other_template_named_none _ _ _ _ Ho r2 Hr2); congruence.
    + exfalso. apply N1.
      assert (r2 = t0) by exact (NoDup_map_eq _ _ _ _ Hpk Hr2 Hin0 E2). subst r2.
      apply (find_other_template_named_none _ _ _ _ Ho r1 Hr1); congruence.
    + exact (Hinv r1 r2 Hr1 Hr2 Hown Hname Hd1 Hd2).
Qed.

Lemma updateTemplateName_keeps_names_distinct_witness :
  NoDup (map template_id (shift_templates versioned_db))
  /\ live_names_distinct versioned_db
  /\ live_names_distinct (fst (updateTemplateName alice "rota" versioned_db)).
Proof.
  assert (Hpk : NoDup (map template_id (shift_templates versioned_db)))
    by (repeat constructor; simpl; tauto).
  assert (Hinv : live_names_distinct versioned_db).
  { intros t1 t2 [<- | []] [<- | []] _ _ _ _. reflexivity. }
  split; [exact Hpk | split; [exact Hinv |]].
  exact (proj2 (updateTemplateName_keeps_names_distinct alice "rota" versioned_db
                  Hpk Hinv)).
Defined.

End TemplateNameInvariant.

(* ================================================================== *)
(** ** The default template *)
(* ================================================================== *)

Section DefaultTemplates.

Lemma fresh_uuid_app_one (ids : list nat) (x : nat) :
  fresh_uuid (ids ++ [x]) = Nat.max (fresh_uuid ids) (S x).
Proof.
  unfold fresh_uuid. induction ids as [|y rest IH]; cbn [app fold_right]; lia.
Qed.

Lemma fresh_uuid_above (ids : list nat) (x : nat) :
  In x ids -> (x < fresh_uuid ids)%nat.
Proof.
  unfold fresh_uuid. induction ids as [|y rest IH]; cbn [In fold_right].
  - intros [].
  - intros [-> | Hin]; [lia | specialize (IH Hin); lia].
Qed.

Lemma fresh_uuid_not_In (ids : list nat) : ~ In (fresh_uuid ids) ids.
Proof. intros Hin. apply fresh_uuid_above in Hin. lia. Qed.

Lemma find_app_none {A} (p : A -> bool) (xs ys : list A) :
  (forall x, In x xs -> p x = false) -> find p (xs ++ ys) = find p ys.
Proof.
  induction xs as [|x rest IH]; cbn [app find]; intros Hall.
  - reflexivity.
  - rewrite (Hall x (or_introl eq_refl)). apply IH. intros y Hy. apply Hall. now right.
Qed.

Lemma filter_nothing {A} (p : A -> bool) (xs : list A) :
  (forall x, In x xs -> p x = false) -> filter p xs = [].
Proof.
  induction xs as [|x rest IH]; cbn [filter]; intros Hall.
  - reflexivity.
  - rewrite (Hall x (or_introl eq_refl)). apply IH. intros y Hy. apply Hall. now right.
Qed.

Lemma find_none_all {A} (p : A -> bool) (xs : list A) :
  find p xs = None -> forall x, In x xs -> p x = false.
Proof. intros Hnone x Hin. exact (find_none p xs Hnone x Hin). Qed.

(** The rows the body writes, one table after the other. *)
Lemma executeInTransaction_run today user_id db :
  let tid := fresh_uuid (map template_id (shift_templates db)) in
  let vid := fresh_uuid (map template_version_id (shift_template_versions db)) in
  let n := fresh_uuid (map shift_type_id (shift_types db)) in
  let k := fresh_uuid (map schedule_id (shift_type_schedules db)) in
  let template := mkShiftTemplate tid user_id DEFAULT_TEMPLATE_NAME None in
  let version := mkShiftTemplateVersion vid tid 1 today user_id in
  let sts := [mkShiftType n tid "D" "데이" (Some 4294288931) (Some 1) None;
              mkShiftType (S n) tid "E" "이브닝" (Some 4293467747) (Some 2) None;
              mkShiftType (S (S n)) tid "N" "나이트" (Some 4283979478) (Some 3) None;
              mkShiftType (S (S (S n))) tid "OFF" "오프" (Some 4281648985) (Some 4)
                None] in
  let schs := [mkShiftTypeSchedule k n vid (Some "06:30:00") (Some "15:00:00")
                 false (Num 510);
               mkShiftTypeSchedule (S k) (S n) vid (Some "14:30:00") (Some "23:00:00")
                 false (Num 510);
               mkShiftTypeSchedule (S (S k)) (S (S n)) vid (Some "22:30:00")
                 (Some "07:00:00") true (Num 510);
               mkShiftTypeSchedule (S (S (S k))) (S (S (S n))) vid None None
                 false (Num 0)] in
  executeInTransaction today user_id db
  = (mkDB (shift_templates db ++ [template]) (shift_template_versions db ++ [version])
          (shift_types db ++ sts) (shift_type_schedules db ++ schs) (work_shifts db),
     inr (mkDefaultTemplate template version sts schs)).
Proof.
  intros.
  unfold executeInTransaction, bind, create_template, create_version, ret.
  cbn -[fresh_uuid].
  unfold create_shift_type, bind, ret. cbn -[fresh_uuid].
  unfold create_schedule.
  repeat match goal with
         | |- context [schedule_columns ?a ?b ?c] =>
             let held := eval vm_compute in (schedule_columns a b c) in
             change (schedule_columns a b c) with held
         end.
  cbn -[fresh_uuid].
  rewrite !map_app. cbn [map shift_type_id schedule_id].
  rewrite !fresh_uuid_app_one.
  fold tid vid n k.
  replace (Nat.max n (S n)) with (S n) by lia.
  replace (Nat.max (S n) (S (S n))) with (S (S n)) by lia.
  replace (Nat.max (S (S n)) (S (S (S n)))) with (S (S (S n))) by lia.
  replace (Nat.max k (S k)) with (S k) by lia.
  replace (Nat.max (S k) (S (S k))) with (S (S k)) by lia.
  replace (Nat.max (S (S k)) (S (S (S k)))) with (S (S (S k))) by lia.
  unfold set_schedules, set_shift_types. cbn -[fresh_uuid].
  rewrite <- !app_assoc. reflexivity.
Qed.

Lemma find_active_template_created user_id name db :
  find_active_template user_id db = None ->
  find_active_template user_id
    (mkDB (shift_templates db
           ++ [mkShiftTemplate (fresh_uuid (map template_id (shift_templates db)))
                 user_id name None])
          (shift_template_versions db) (shift_types db) (shift_type_schedules db)
          (work_shifts db))
  = Some (mkShiftTemplate (fresh_uuid (map template_id (shift_templates db)))
            user_id name None).
Proof.
  unfold find_active_template. cbn [shift_templates]. intros Hnone.
  rewrite find_app_none by (apply find_none_all; exact Hnone).
  cbn [find tpl_owner_user_id tpl_deleted_at is_null].
  now rewrite Nat.eqb_refl.
Qed.

(** X8: [ensureDefaultTemplate] always leaves the caller with a live
    template and never fails; when the caller already has one it changes
    nothing and opens no transaction, so a second call is a no-op. *)
Theorem ensureDefaultTemplate_idempotent today today' user_id db :
  result (ensureDefaultTemplate today user_id db) = inr tt
  /\ hasDefaultTemplate user_id (store (ensureDefaultTemplate today user_id db)) = true
  /\ (hasDefaultTemplate user_id db = true ->
      ensureDefaultTemplate today user_id db = mkRun db [] (inr tt))
  /\ ensureDefaultTemplate today' user_id (store (ensureDefaultTemplate today user_id db))
     = mkRun (store (ensureDefaultTemplate today user_id db)) [] (inr tt).
Proof.
  assert (Hhas : forall d db0, hasDefaultTemplate user_id db0 = true ->
                 ensureDefaultTemplate d user_id db0 = mkRun db0 [] (inr tt)).
  { intros d db0 H. unfold ensureDefaultTemplate. now rewrite H. }
  assert (Hrun : result (ensureDefaultTemplate today user_id db) = inr tt
                 /\ hasDefaultTemplate user_id
                      (store (ensureDefaultTemplate today user_id db)) = true).
  { destruct (hasDefaultTemplate user_id db) eqn:Hbefore.
    - rewrite (Hhas today db Hbefore). cbn [result store]. now split.
    - unfold ensureDefaultTemplate. rewrite Hbefore. cbn [negb store result].
      unfold createDefaultShiftTemplate, transaction.
      rewrite executeInTransaction_run. cbn [store result]. split; [reflexivity|].
      unfold hasDefaultTemplate in *.
      destruct (find_active_template user_id db) eqn:Hfind; [discriminate|].
      pose proof (find_active_template_created user_id DEFAULT_TEMPLATE_NAME db Hfind)
        as Hnew.
      unfold find_active_template in *. cbn [shift_templates] in *.
      now rewrite Hnew. }
  destruct Hrun as [Hres Hafter].
  repeat split; [exact Hres | exact Hafter | apply Hhas | now apply Hhas].
Qed.

(** X9: a caller without a live template who gets the default one is
    listed its four shift types in this order: D 06:30-15:00, E 14:30-23:00,
    N 22:30-07:00 across midnight, each of 510 minutes, and OFF without
    times. *)
Theorem createDefaultShiftTemplate_then_getShiftTypes today user_id db :
  find_active_template user_id db = None ->
  templates_referenced db ->
  shift_types_referenced db ->
  exists listing,
    result (getShiftTypes user_id (store (createDefaultShiftTemplate today user_id db)))
    = inr listing
    /\ listing_template_name listing = DEFAULT_TEMPLATE_NAME
    /\ map (fun v => (view_code v, view_start_time v, view_end_time v,
                      view_crosses_midnight v, view_duration_minutes v))
           (listing_shift_types listing)
       = [ ("D", Some "06:30:00", Some "15:00:00", false, Num 510);
           ("E", Some "14:30:00", Some "23:00:00", false, Num 510);
           ("N", Some "22:30:00", Some "07:00:00", true, Num 510);
           ("OFF", None, None, false, Num 0) ].
Proof.
  intros Hnone [Hversions Htypes] Hschedules.
  unfold createDefaultShiftTemplate, transaction.
  rewrite executeInTransaction_run. cbn [store].
  pose proof (find_active_template_created user_id DEFAULT_TEMPLATE_NAME db Hnone)
    as Hnew.
  pose proof (fresh_uuid_not_In (map template_id (shift_templates db))) as Htid.
  pose proof (fun s Hs => fresh_uuid_above _ _ (Hschedules s Hs)) as Hn.
  cbv beta in Hn.
  set (tid := fresh_uuid (map template_id (shift_templates db))) in *.
  set (vid := fresh_uuid (map template_version_id (shift_template_versions db))) in *.
  set (n := fresh_uuid (map shift_type_id (shift_types db))) in *.
  set (k := fresh_uuid (map schedule_id (shift_type_schedules db))) in *.
  clearbody tid vid n k.
  assert (Hold_versions :
    forall v, In v (shift_template_versions db) ->
              (ver_template_id v =? tid)%nat = false).
  { intros v Hv. apply Nat.eqb_neq. intros Heq.
    apply Htid. rewrite <- Heq. now apply Hversions. }
  assert (Hold_types :
    forall st, In st (shift_types db) -> live_shift_type_of tid st = false).
  { intros st Hst. unfold live_shift_type_of.
    replace (st_template_id st =? tid)%nat with false; [reflexivity|].
    symmetry. apply Nat.eqb_neq. intros Heq.
    apply Htid. rewrite <- Heq. now apply Htypes. }
  assert (Hold_schedules :
    forall i s, In s (shift_type_schedules db) ->
      ((sch_shift_type_id s =? (i + n)%nat)%nat
       && (sch_template_version_id s =? vid)%nat) = false).
  { intros i s Hs.
    replace (sch_shift_type_id s =? (i + n)%nat)%nat with false; [reflexivity|].
    symmetry. apply Nat.eqb_neq. specialize (Hn s Hs). lia. }
  rewrite getShiftTypes_run.
  unfold find_active_template in Hnew |- *. cbn [shift_templates] in Hnew |- *.
  rewrite Hnew. cbn [template_id tpl_name].
  (* the version *)
  unfold find_latest_version. cbn [shift_template_versions].
  rewrite filter_app, (filter_nothing _ _ Hold_versions).
  cbn [app filter ver_template_id]. rewrite Nat.eqb_refl.
  cbn [latest_by_effective_from template_version_id].
  eexists. split; [reflexivity|]. cbn [listing_template_name listing_shift_types].
  split; [reflexivity|].
  (* the shift types *)
  unfold live_shift_types_in_order. cbn [shift_types].
  rewrite filter_app, (filter_nothing _ _ Hold_types).
  cbn [app]. unfold filter, live_shift_type_of.
  cbn [st_template_id st_deleted_at is_null]. rewrite Nat.eqb_refl. cbn [andb].
  cbn [order_by fold_right insert_by st_sort_order asc_nulls_last Z.leb Z.compare
       Pos.compare Pos.compare_cont].
  (* their schedules *)
  assert (H01 : (n =? S n)%nat = false) by (apply Nat.eqb_neq; lia).
  assert (H02 : (n =? S (S n))%nat = false) by (apply Nat.eqb_neq; lia).
  assert (H03 : (n =? S (S (S n)))%nat = false) by (apply Nat.eqb_neq; lia).
  unfold shift_type_with_schedule, find_schedule.
  cbn [map shift_type_schedules shift_type_id].
  rewrite (find_app_none _ _ _ (Hold_schedules 0%nat)).
  rewrite (find_app_none _ _ _ (Hold_schedules 1%nat)).
  rewrite (find_app_none _ _ _ (Hold_schedules 2%nat)).
  rewrite (find_app_none _ _ _ (Hold_schedules 3%nat)).
  cbn [find sch_shift_type_id sch_template_version_id Nat.add Nat.eqb].
  rewrite ?Nat.eqb_refl, ?H01, ?H02, ?H03.
  reflexivity.
Qed.

Lemma createDefaultShiftTemplate_then_getShiftTypes_witness :
  exists listing,
    result (getShiftTypes alice (store (createDefaultShiftTemplate 20240101 alice empty_db)))
    = inr listing
    /\ listing_template_name listing = DEFAULT_TEMPLATE_NAME
    /\ map (fun v => (view_code v, view_start_time v, view_end_time v,
                      view_crosses_midnight v, view_duration_minutes v))
           (listing_shift_types listing)
       = [ ("D", Some "06:30:00", Some "15:00:00", false, Num 510);
           ("E", Some "14:30:00", Some "23:00:00", false, Num 510);
           ("N", Some "22:30:00", Some "07:00:00", true, Num 510);
           ("OFF", None, None, false, Num 0) ].
Proof.
  apply (createDefaultShiftTemplate_then_getShiftTypes 20240101 alice empty_db).
  - reflexivity.
  - split; intros ? [].
  - intros ? [].
Defined.

End DefaultTemplates.

(* ================================================================== *)
(** ** A created shift type *)
(* ================================================================== *)

Section CreatedShiftType.

(** What a call below the limit, on a template with a version, writes and
    returns: the shift type and its schedule, unless the database refuses
    the colour or the sort order, or the schedule's values. *)
Lemma createShiftType_run user_id data db tpl v :
  find_active_template user_id db = Some tpl ->
  count_live_shift_types (template_id tpl) db < 10 ->
  find_latest_version (template_id tpl) db = Some v ->
  let sort_order := sort_order_of_new data (template_id tpl) db in
  let both := truthy (new_start_time data) && truthy (new_end_time data) in
  let start_t := if both then nullish (new_start_time data) else None in
  let end_t := if both then nullish (new_end_time data) else None in
  let time_info :=
    if both
    then calculateTimeInfo (nullish (new_start_time data)) (nullish (new_end_time data))
    else mkTimeInfo false (Num 0) in
  let id := fresh_uuid (map shift_type_id (shift_types db)) in
  createShiftType user_id data db
  = if column_holds in_bigint (nullish (new_color data)) && in_smallint sort_order
    then
      match schedule_columns start_t end_t (ti_duration_minutes time_info) with
      | inr (held_start, held_end) =>
          mkRun
            (mkDB (shift_templates db) (shift_template_versions db)
               (shift_types db
                ++ [mkShiftType id (template_id tpl) (new_code data) (new_name data)
                      (nullish (new_color data)) (Some sort_order) None])
               (shift_type_schedules db
                ++ [mkShiftTypeSchedule
                      (fresh_uuid (map schedule_id (shift_type_schedules db)))
                      id (template_version_id v) held_start held_end
                      (ti_crosses_midnight time_info) (ti_duration_minutes time_info)])
               (work_shifts db))
            [TxBegin; TxCommit]
            (inr (mkShiftTypeView id (new_code data) (new_name data)
                    (nullish (new_color data)) (Some sort_order) start_t end_t
                    (ti_crosses_midnight time_info) (ti_duration_minutes time_info)))
      | inl e => mkRun db [TxBegin; TxRollback] (inl e)
      end
    else mkRun db [TxBegin; TxRollback] (inl DATABASE_ERROR).
Proof.
  intros Ht Hcount Hv sort_order both start_t end_t time_info id.
  unfold createShiftType, transaction, bind, find_or_throw, query, getCurrentVersion.
  rewrite Ht.
  replace (MAX_SHIFT_TYPES_PER_TEMPLATE <=? count_live_shift_types (template_id tpl) db)
    with false by (symmetry; apply Z.leb_gt; exact Hcount).
  rewrite Hv.
  assert (Hstep3 :
    (match nullish (new_sort_order data) with
     | Some n => ret n
     | None =>
         fun db0 =>
           let (db', r) :=
             (db0, inr (max_sort_order (filter (live_shift_type_of (template_id tpl))
                                               (shift_types db0)))
                   : ServiceError + option Z) in
           match r with
           | inl e => (db', inl e)
           | inr a => ret (match a with Some m => m | None => 0 end + 1) db'
           end
     end) db = (db, inr sort_order)).
  { unfold sort_order, sort_order_of_new, ret.
    destruct (nullish (new_sort_order data)); reflexivity. }
  rewrite Hstep3. unfold create_shift_type. cbn [column_holds].
  destruct (column_holds in_bigint (nullish (new_color data)) && in_smallint sort_order);
    [| reflexivity].
  fold both. unfold create_schedule.
  cbn [shift_type_id st_code st_name st_color st_sort_order set_shift_types
       shift_type_schedules].
  fold id.
  assert (Hstep5 :
    (if both
     then (nullish (new_start_time data), nullish (new_end_time data),
           calculateTimeInfo (nullish (new_start_time data))
                             (nullish (new_end_time data)))
     else (None, None, mkTimeInfo false (Num 0)))
    = (start_t, end_t, time_info)).
  { unfold start_t, end_t, time_info. destruct both; reflexivity. }
  rewrite Hstep5.
  destruct (schedule_columns start_t end_t (ti_duration_minutes time_info))
    as [e | [held_start held_end]]; reflexivity.
Qed.

(** A call that returns went through every check, and wrote the shift
    type and its schedule. *)
Lemma createShiftType_success user_id data db view :
  result (createShiftType user_id data db) = inr view ->
  exists tpl v held_start held_end,
    find_active_template user_id db = Some tpl
    /\ count_live_shift_types (template_id tpl) db < 10
    /\ find_latest_version (template_id tpl) db = Some v
    /\ create_storable data (template_id tpl) db
    /\ let sort_order := sort_order_of_new data (template_id tpl) db in
       let both := truthy (new_start_time data) && truthy (new_end_time data) in
       let start_t := if both then nullish (new_start_time data) else None in
       let end_t := if both then nullish (new_end_time data) else None in
       let time_info :=
         if both
         then calculateTimeInfo (nullish (new_start_time data))
                                (nullish (new_end_time data))
         else mkTimeInfo false (Num 0) in
       let id := fresh_uuid (map shift_type_id (shift_types db)) in
       schedule_columns start_t end_t (ti_duration_minutes time_info)
       = inr (held_start, held_end)
       /\ createShiftType user_id data db
          = mkRun
              (mkDB (shift_templates db) (shift_template_versions db)
                 (shift_types db
                  ++ [mkShiftType id (template_id tpl) (new_code data) (new_name data)
                        (nullish (new_color data)) (Some sort_order) None])
                 (shift_type_schedules db
                  ++ [mkShiftTypeSchedule
                        (fresh_uuid (map schedule_id (shift_type_schedules db)))
                        id (template_version_id v) held_start held_end
                        (ti_crosses_midnight time_info)
                        (ti_duration_minutes time_info)])
                 (work_shifts db))
              [TxBegin; TxCommit]
              (inr (mkShiftTypeView id (new_code data) (new_name data)
                      (nullish (new_color data)) (Some sort_order) start_t end_t
                      (ti_crosses_midnight time_info)
                      (ti_duration_minutes time_info))).
Proof.
  intros H.
  destruct (find_active_template user_id db) as [tpl|] eqn:Ht.
  2: { unfold createShiftType, transaction, bind, find_or_throw in H.
       rewrite Ht in H. discriminate. }
  destruct (MAX_SHIFT_TYPES_PER_TEMPLATE <=? count_live_shift_types (template_id tpl) db)
    eqn:Hc.
  { unfold createShiftType, transaction, bind, find_or_throw, query in H.
    rewrite Ht, Hc in H. discriminate. }
  apply Z.leb_gt in Hc. change MAX_SHIFT_TYPES_PER_TEMPLATE with 10 in Hc.
  destruct (find_latest_version (template_id tpl) db) as [v|] eqn:Hv.
  - pose proof (createShiftType_run user_id data db tpl v Ht Hc Hv) as Hrun.
    cbv zeta in Hrun. rewrite Hrun in H.
    destruct (column_holds in_bigint (nullish (new_color data))) eqn:Hcolor;
      [| discriminate].
    destruct (in_smallint (sort_order_of_new data (template_id tpl) db)) eqn:Hsort;
      [| discriminate].
    cbn [andb] in H, Hrun.
    destruct (schedule_columns _ _ _) as [e | [held_start held_end]] eqn:Hcols;
      [discriminate |].
    exists tpl, v, held_start, held_end.
    split; [reflexivity |]. split; [exact Hc |]. split; [exact Hv |].
    split; [split; assumption |]. cbv zeta. split; [exact Hcols | exact Hrun].
  - exfalso. revert H.
    unfold createShiftType, transaction, bind, find_or_throw, query, getCurrentVersion.
    rewrite Ht.
    replace (MAX_SHIFT_TYPES_PER_TEMPLATE <=? count_live_shift_types (template_id tpl) db)
      with false by (symmetry; apply Z.leb_gt; exact Hc).
    rewrite Hv.
    destruct (match nullish (new_sort_order data) with
              | Some n => ret n
              | None => _
              end db) as [db1 [e | sort_order]]; [discriminate |].
    destruct (create_shift_type _ _ _ _ _ db1) as [db2 [e | row]]; [discriminate |].
    destruct (if truthy (new_start_time data) && truthy (new_end_time data)
              then _ else _) as [[start_t end_t] time_info].
    discriminate.
Qed.

Lemma createShiftType_inversion user_id data db view :
  result (createShiftType user_id data db) = inr view ->
  exists tpl v,
    find_active_template user_id db = Some tpl
    /\ count_live_shift_types (template_id tpl) db < 10
    /\ find_latest_version (template_id tpl) db = Some v.
Proof.
  intros H.
  destruct (createShiftType_success _ _ _ _ H)
    as (tpl & v & _ & _ & Ht & Hc & Hv & _).
  exists tpl, v. auto.
Qed.

Lemma max_sort_order_bound (sts : list ShiftType) :
  match max_sort_order sts with
  | Some M => (forall st m, In st sts -> st_sort_order st = Some m -> m <= M)
              /\ exists st, In st sts /\ st_sort_order st = Some M
  | None => forall st, In st sts -> st_sort_order st = None
  end.
Proof.
  induction sts as [|a rest IH]; cbn [max_sort_order].
  - intros st [].
  - destruct (st_sort_order a) as [x|] eqn:Ha, (max_sort_order rest) as [M|].
    + destruct IH as [IH (w & Hw & Hm)]. split.
      * intros st m [<- | Hin] Hst.
        -- rewrite Ha in Hst. injection Hst as <-. lia.
        -- specialize (IH st m Hin Hst). lia.
      * destruct (Z.max_spec x M) as [[_ ->] | [_ ->]].
        -- exists w. split; [now right | exact Hm].
        -- exists a. split; [now left | exact Ha].
    + split.
      * intros st m [<- | Hin] Hst.
        -- rewrite Ha in Hst. injection Hst as <-. lia.
        -- rewrite (IH st Hin) in Hst. discriminate.
      * exists a. split; [now left | exact Ha].
    + destruct IH as [IH (w & Hw & Hm)]. split.
      * intros st m [<- | Hin] Hst.
        -- rewrite Ha in Hst. discriminate.
        -- exact (IH st m Hin Hst).
      * exists w. split; [now right | exact Hm].
    + intros st [<- | Hin]; [exact Ha | exact (IH st Hin)].
Qed.

(** X10: a shift type created without a [sort_order] gets one above every
    [sort_order] among the live shift types of the template, and 1 when
    none of them has one. *)
Theorem createShiftType_default_sort_order user_id data db view :
  result (createShiftType user_id data db) = inr view ->
  nullish (new_sort_order data) = None ->
  exists tpl n,
    find_active_template user_id db = Some tpl
    /\ view_sort_order view = Some n
    /\ (forall st m, In st (shift_types db) ->
                     live_shift_type_of (template_id tpl) st = true ->
                     st_sort_order st = Some m -> m < n)
    /\ ((forall st, In st (shift_types db) ->
                    live_shift_type_of (template_id tpl) st = true ->
                    st_sort_order st = None) -> n = 1).
Proof.
  intros Hres Hnone.
  destruct (createShiftType_success _ _ _ _ Hres)
    as (tpl & v & held_start & held_end & Ht & Hc & Hv & _ & _ & Hrun).
  rewrite Hrun in Hres.
  cbn [result] in Hres. injection Hres as <-.
  unfold sort_order_of_new. rewrite Hnone.
  eexists tpl, _. split; [exact Ht |]. split; [reflexivity |].
  pose proof (max_sort_order_bound
                (filter (live_shift_type_of (template_id tpl)) (shift_types db)))
    as Hmax.
  destruct (max_sort_order _) as [M|].
  - destruct Hmax as [Hmax (w & Hw & Hm)]. split.
    + intros st m Hin Hlive Hst.
      assert (m <= M) by (apply (Hmax st m); [apply filter_In; auto | exact Hst]).
      lia.
    + intros Hall. apply filter_In in Hw. destruct Hw as [Hin Hlive].
      rewrite (Hall w Hin Hlive) in Hm. discriminate.
  - split; [| reflexivity].
    intros st m Hin Hlive Hst.
    rewrite (Hmax st) in Hst by (apply filter_In; auto). discriminate.
Qed.

Lemma createShiftType_default_sort_order_witness :
  exists tpl n,
    find_active_template alice versioned_db = Some tpl
    /\ view_sort_order
         (mkShiftTypeView 3 "E" "Evening" None (Some 3) None None false (Num 0))
       = Some n
    /\ (forall st m, In st (shift_types versioned_db) ->
                     live_shift_type_of (template_id tpl) st = true ->
                     st_sort_order st = Some m -> m < n)
    /\ ((forall st, In st (shift_types versioned_db) ->
                    live_shift_type_of (template_id tpl) st = true ->
                    st_sort_order st = None) -> n = 1).
Proof.
  exact (createShiftType_default_sort_order alice
           (mkCreateShiftTypeData "E" "Evening" Undefined Undefined Undefined Undefined)
           versioned_db
           (mkShiftTypeView 3 "E" "Evening" None (Some 3) None None false (Num 0))
           eq_refl eq_refl).
Defined.

Lemma find_schedule_created stid vid db s :
  shift_types_referenced db ->
  stid = fresh_uuid (map shift_type_id (shift_types db)) ->
  sch_shift_type_id s = stid -> sch_template_version_id s = vid ->
  find (fun r => Nat.eqb (sch_shift_type_id r) stid
                 && Nat.eqb (sch_template_version_id r) vid)
       (shift_type_schedules db ++ [s])
  = Some s.
Proof.
  intros Href -> Hst Hv.
  rewrite find_app_none.
  - cbn [find]. rewrite Hst, Hv, !Nat.eqb_refl. reflexivity.
  - intros r Hr.
    replace (sch_shift_type_id r =? fresh_uuid (map shift_type_id (shift_types db)))%nat
      with false; [reflexivity |].
    symmetry. apply Nat.eqb_neq. intros Heq.
    apply (fresh_uuid_not_In (map shift_type_id (shift_types db))).
    rewrite <- Heq. now apply Href.
Qed.

(** What the table holds of a schedule whose values went through: the
    times are well-formed and held with their seconds, and the duration
    is a number that is not negative. *)
Lemma schedule_columns_held start_t end_t d held_start held_end :
  schedule_columns start_t end_t d = inr (held_start, held_end) ->
  held_start = option_map with_seconds start_t
  /\ held_end = option_map with_seconds end_t
  /\ (forall s, start_t = Some s -> is_time s = true)
  /\ (forall e, end_t = Some e -> is_time e = true)
  /\ exists z, d = Num z /\ 0 <= z.
Proof.
  unfold schedule_columns, time_column, duration_validator, integer_column.
  destruct (timeConsistency start_t end_t); [| discriminate].
  destruct d as [|z]; [destruct start_t as [s|], end_t as [e|];
                       repeat match goal with
                              | |- context [is_time ?x] => destruct (is_time x)
                              end; discriminate |].
  destruct (0 <=? z) eqn:Hz; [| discriminate]. apply Z.leb_le in Hz.
  destruct start_t as [s|], end_t as [e|];
    repeat match goal with
           | |- context [is_time ?x] => destruct (is_time x) eqn:?
           end;
    try discriminate;
    destruct (in_integer z); try discriminate;
    intros H; injection H as <- <-;
    (split; [reflexivity |]); (split; [reflexivity |]);
    (split; [intros ? [=]; subst; assumption |]);
    (split; [intros ? [=]; subst; assumption |]);
    exists z; auto.
Qed.

(** Well-formed times and a duration of less than a day go through. *)
Lemma schedule_columns_well_formed start_t end_t z :
  timeConsistency start_t end_t = true ->
  (forall s, start_t = Some s -> is_time s = true) ->
  (forall e, end_t = Some e -> is_time e = true) ->
  0 <= z < 1440 ->
  schedule_columns start_t end_t (Num z)
  = inr (option_map with_seconds start_t, option_map with_seconds end_t).
Proof.
  intros Hc Hs He Hz.
  unfold schedule_columns, time_column, duration_validator, integer_column, in_integer.
  rewrite Hc.
  replace (0 <=? z) with true by (symmetry; apply Z.leb_le; lia).
  replace ((-2147483648 <=? z) && (z <=? 2147483647)) with true
    by (symmetry; apply andb_true_intro; split; apply Z.leb_le; lia).
  destruct start_t as [s|], end_t as [e|];
    rewrite ?(Hs _ eq_refl), ?(He _ eq_refl); reflexivity.
Qed.

Lemma with_seconds_not_empty s :
  is_time s = true -> String.eqb (with_seconds s) "" = false.
Proof.
  destruct s as [|a [|b [|c [|d [|e r]]]]]; try discriminate.
  intros _. destruct r; reflexivity.
Qed.

Lemma string_or_null_with_seconds t :
  (forall s, t = Some s -> is_time s = true) ->
  string_or_null (option_map with_seconds t) = option_map with_seconds t.
Proof.
  intros H. destruct t as [s|]; [| reflexivity].
  cbn [option_map string_or_null].
  now rewrite (with_seconds_not_empty s (H s eq_refl)).
Qed.

(** X11: a created shift type is there for [getShiftTypes]: the listing
    grows by one element, and holds the shift type as [createShiftType]
    returned it, with its times, when they were given as [HH:MM] or
    [HH:MM:SS], written with their seconds. *)
Theorem createShiftType_then_getShiftTypes user_id data db view :
  shift_types_referenced db ->
  result (createShiftType user_id data db) = inr view ->
  (forall s, view_start_time view = Some s -> is_time s = true) ->
  (forall e, view_end_time view = Some e -> is_time e = true) ->
  exists listing,
    result (getShiftTypes user_id (store (createShiftType user_id data db)))
    = inr listing
    /\ In (mkShiftTypeView (view_shift_type_id view) (view_code view) (view_name view)
             (view_color view) (view_sort_order view)
             (option_map with_seconds (view_start_time view))
             (option_map with_seconds (view_end_time view))
             (view_crosses_midnight view) (view_duration_minutes view))
          (listing_shift_types listing)
    /\ forall before, result (getShiftTypes user_id db) = inr before ->
         List.length (listing_shift_types listing)
         = S (List.length (listing_shift_types before)).
Proof.
  intros Href Hres Hstart Hend.
  destruct (createShiftType_success _ _ _ _ Hres)
    as (tpl & v & held_start & held_end & Ht & Hc & Hv & _ & Hcols & Hrun).
  cbv zeta in Hcols, Hrun.
  rewrite Hrun in Hres |- *.
  cbn [result store] in Hres |- *. injection Hres as <-.
  cbn [view_shift_type_id view_code view_name view_color view_sort_order
       view_start_time view_end_time view_crosses_midnight view_duration_minutes]
    in Hstart, Hend |- *.
  destruct (schedule_columns_held _ _ _ _ _ Hcols)
    as (-> & -> & _ & _ & z & Hz & _).
  clear Hcols Hrun.
  set (sort_order := sort_order_of_new data (template_id tpl) db).
  set (id := fresh_uuid (map shift_type_id (shift_types db))).
  set (st := mkShiftType id (template_id tpl) (new_code data) (new_name data)
               (nullish (new_color data)) (Some sort_order) None).
  set (sch := mkShiftTypeSchedule _ id (template_version_id v) _ _ _ _).
  rewrite !getShiftTypes_run.
  unfold find_active_template, find_latest_version in Ht, Hv |- *.
  cbn [shift_templates shift_template_versions] in *.
  rewrite Ht, Hv.
  eexists. split; [reflexivity |]. cbn [listing_shift_types].
  assert (Hlive : live_shift_type_of (template_id tpl) st = true).
  { unfold live_shift_type_of, st. cbn [st_template_id st_deleted_at is_null].
    now rewrite Nat.eqb_refl. }
  split.
  - assert (Hin : In st (live_shift_types_in_order (template_id tpl)
                           (mkDB (shift_templates db) (shift_template_versions db)
                              (shift_types db ++ [st])
                              (shift_type_schedules db ++ [sch]) (work_shifts db)))).
    { unfold live_shift_types_in_order. apply order_by_In. apply filter_In.
      cbn [shift_types]. split; [| exact Hlive].
      apply in_or_app. right. now left. }
    match goal with
    | |- In _ (map ?f _) => apply (in_map f) in Hin
    end.
    match goal with
    | H : In ?x _ |- In ?y _ => replace y with x; [exact H |]
    end.
    unfold shift_type_with_schedule, find_schedule. cbn [shift_type_schedules].
    change (shift_type_id st) with id.
    rewrite (find_schedule_created id (template_version_id v) db sch Href eq_refl
               eq_refl eq_refl).
    unfold sch, st.
    cbn [shift_type_id st_code st_name st_color st_sort_order start_time end_time
         crosses_midnight duration_minutes].
    rewrite (string_or_null_with_seconds _ Hstart),
      (string_or_null_with_seconds _ Hend), Hz.
    reflexivity.
  - intros before Hbefore. injection Hbefore as <-. cbn [listing_shift_types].
    rewrite !length_map. unfold live_shift_types_in_order.
    rewrite !(Permutation_length (order_by_Permutation _ _)).
    cbn [shift_types]. rewrite (filter_app_one _ _ _ Hlive), length_app.
    cbn [List.length]. lia.
Qed.

Lemma createShiftType_then_getShiftTypes_witness :
  exists listing,
    result (getShiftTypes alice
              (store (createShiftType alice
                        (mkCreateShiftTypeData "E" "Evening" Null (Value "14:30")
                           (Value "23:00") Undefined)
                        versioned_db)))
    = inr listing
    /\ In (mkShiftTypeView 3 "E" "Evening" None (Some 3) (Some "14:30:00")
             (Some "23:00:00") false (Num 510))
          (listing_shift_types listing)
    /\ forall before, result (getShiftTypes alice versioned_db) = inr before ->
         List.length (listing_shift_types listing)
         = S (List.length (listing_shift_types before)).
Proof.
  refine (createShiftType_then_getShiftTypes alice
            (mkCreateShiftTypeData "E" "Evening" Null (Value "14:30")
               (Value "23:00") Undefined)
            versioned_db
            (mkShiftTypeView 3 "E" "Evening" None (Some 3) (Some "14:30")
               (Some "23:00") false (Num 510))
            _ eq_refl _ _).
  - intros s Hs. cbn in Hs |- *.
    destruct Hs as [<- | [<- | []]]; cbn; auto.
  - intros s [= <-]. reflexivity.
  - intros e [= <-]. reflexivity.
Defined.

End CreatedShiftType.

(* ================================================================== *)
(** ** What the registry keeps *)
(* ================================================================== *)

Section RegistryInvariants.

Lemma transaction_failure_store {A} (body : DB -> Stmt A) db e :
  result (transaction body db) = inl e -> store (transaction body db) = db.
Proof.
  unfold transaction. destruct (body db db) as [working [e' | a]]; cbn [result store].
  - reflexivity.
  - discriminate.
Qed.

(** Step 3 of [updateShiftType] writes to the schedules only. *)
Lemma update_times_frame id v data existing db0 :
  exists db1 r,
    update_times id v data existing db0 = (db1, r)
    /\ shift_templates db1 = shift_templates db0
    /\ shift_template_versions db1 = shift_template_versions db0
    /\ shift_types db1 = shift_types db0
    /\ work_shifts db1 = work_shifts db0.
Proof.
  unfold update_times, bind, query, save_schedule, create_schedule, destroy_schedule,
    ret.
  repeat match goal with
         | |- context [match schedule_columns ?a ?b ?c with _ => _ end] =>
             destruct (schedule_columns a b c) as [? | [? ?]]
         | |- context [if ?c then _ else _] => destruct c
         | |- context [match ?x with Some _ => _ | None => _ end] => destruct x
         end;
    eexists _, _; repeat split.
Qed.

Lemma schedule_columns_error start_t end_t d e :
  schedule_columns start_t end_t d = inl e ->
  e = TIME_CONSISTENCY_VIOLATION \/ e = VALIDATION_ERROR \/ e = DATABASE_ERROR.
Proof.
  unfold schedule_columns.
  destruct (timeConsistency start_t end_t); [| intros [= <-]; auto].
  destruct (duration_validator d); [| intros [= <-]; auto].
  destruct (time_column start_t), (time_column end_t);
    try destruct (integer_column d); intros [= <-]; auto.
Qed.

(** The errors of step 3 are those of the schedule table. *)
Lemma update_times_error id v data existing db0 db1 e :
  update_times id v data existing db0 = (db1, inl e) ->
  e = TIME_CONSISTENCY_VIOLATION \/ e = VALIDATION_ERROR \/ e = DATABASE_ERROR.
Proof.
  unfold update_times, bind, query, save_schedule, create_schedule, destroy_schedule,
    ret.
  repeat match goal with
         | |- context [match schedule_columns ?a ?b ?c with _ => _ end] =>
             let E := fresh "E" in
             destruct (schedule_columns a b c) as [? | [? ?]] eqn:E;
             [apply schedule_columns_error in E |]
         | |- context [if ?c then _ else _] => destruct c
         | |- context [match ?x with Some _ => _ | None => _ end] => destruct x
         end;
    intros H; inversion H; subst; auto.
Qed.

Lemma find_shift_type_with_template_template id db st tpl :
  find_shift_type_with_template id db = Some (st, tpl) ->
  In tpl (shift_templates db) /\ template_id tpl = st_template_id st.
Proof.
  unfold find_shift_type_with_template. intros H.
  destruct (find _ (shift_types db)) as [st0|]; [| discriminate].
  destruct (find _ (shift_templates db)) as [t|] eqn:Ht; [| discriminate].
  injection H as -> ->. apply find_some in Ht. destruct Ht as [Hin Hp].
  apply Nat.eqb_eq in Hp. auto.
Qed.

(** Whatever its outcome, [updateShiftType] leaves templates, versions and
    work shifts alone, and in the shift types it rewrites at most the rows
    of the given id. *)
Lemma updateShiftType_store user_id id data db :
  shift_templates (store (updateShiftType user_id id data db)) = shift_templates db
  /\ shift_template_versions (store (updateShiftType user_id id data db))
     = shift_template_versions db
  /\ work_shifts (store (updateShiftType user_id id data db)) = work_shifts db
  /\ (shift_types (store (updateShiftType user_id id data db)) = shift_types db
      \/ exists st tpl,
           find_shift_type_with_template id db = Some (st, tpl)
           /\ shift_types (store (updateShiftType user_id id data db))
              = map (fun r => if Nat.eqb (shift_type_id r) (shift_type_id st)
                              then assign_shift_type data st else r)
                    (shift_types db)).
Proof.
  destruct (find_shift_type_with_template id db) as [[st tpl]|] eqn:Hf.
  2: { unfold updateShiftType, transaction, bind, find_or_throw. rewrite Hf.
       cbn [store]. auto. }
  destruct (Nat.eqb (tpl_owner_user_id tpl) user_id) eqn:Howner.
  2: { unfold updateShiftType, transaction, bind, find_or_throw. rewrite Hf, Howner.
       cbn [store negb]. auto. }
  apply Nat.eqb_eq in Howner.
  destruct (save_shift_type_assigned_or_refused data st db) as [Hsave | Hsave].
  2: { rewrite (updateShiftType_refused _ _ _ _ _ _ Hf Howner Hsave).
       cbn [store]. auto. }
  destruct (find_latest_version (template_id tpl) db) as [v|] eqn:Hv.
  2: { unfold updateShiftType, transaction, bind, find_or_throw, getCurrentVersion.
       rewrite Hf, Howner, Nat.eqb_refl. cbn [negb]. rewrite Hsave, Hv.
       cbn [store]. auto. }
  rewrite (updateShiftType_run_from _ _ data _ _ _ _ Hf Howner Hv Hsave).
  destruct (update_times_frame id v data (find_schedule id (template_version_id v) db)
              (after_step_2 data st db))
    as (db1 & [e | [[start_t end_t] time_info]] & -> & H1 & H2 & H3 & H4);
    cbn [store]; [auto |].
  rewrite H1, H2, H3, H4. unfold after_step_2.
  cbn [set_shift_types shift_templates shift_template_versions shift_types work_shifts].
  repeat split. right. exists st, tpl. auto.
Qed.

Lemma deleteShiftType_inversion now user_id id db r :
  result (deleteShiftType now user_id id db) = inr r ->
  exists st tpl,
    find_shift_type_with_template id db = Some (st, tpl)
    /\ tpl_owner_user_id tpl = user_id
    /\ r = (id, now)
    /\ store (deleteShiftType now user_id id db)
       = set_shift_types
           (map (fun r => if Nat.eqb (shift_type_id r) id
                          then with_deleted_at st now else r)) db.
Proof.
  intros H.
  destruct (find_shift_type_with_template id db) as [[st tpl]|] eqn:Hf.
  2: { unfold deleteShiftType, transaction, bind, find_or_throw in H.
       rewrite Hf in H. discriminate. }
  destruct (Nat.eqb (tpl_owner_user_id tpl) user_id) eqn:Howner.
  2: { unfold deleteShiftType, transaction, bind, find_or_throw in H.
       rewrite Hf, Howner in H. discriminate. }
  apply Nat.eqb_eq in Howner.
  destruct (find_shift_type_with_template_some _ _ _ _ Hf) as (_ & Hid & _).
  exists st, tpl. split; [reflexivity |]. split; [exact Howner |].
  revert H. unfold deleteShiftType, transaction, bind, find_or_throw, query.
  rewrite Hf, Howner, Nat.eqb_refl. cbn [negb].
  destruct (0 <? Z.of_nat (List.length (schedule_ids_of id db))).
  - destruct (find_live_reference_in (schedule_ids_of id db) db).
    + discriminate.
    + unfold ret. rewrite save_shift_type_same_columns by reflexivity.
      cbn. rewrite Hid. intros H. injection H as <-. auto.
  - unfold ret. rewrite save_shift_type_same_columns by reflexivity.
    cbn. rewrite Hid. intros H. injection H as <-. auto.
Qed.

Lemma filter_length_map_same {A} (p : A -> bool) (f : A -> A) (xs : list A) :
  (forall x, In x xs -> p (f x) = p x) ->
  List.length (filter p (map f xs)) = List.length (filter p xs).
Proof.
  induction xs as [|x rest IH]; cbn [map filter]; intros Hall.
  - reflexivity.
  - rewrite (Hall x (or_introl eq_refl)).
    destruct (p x); cbn [List.length]; rewrite IH; auto;
      intros y Hy; apply Hall; now right.
Qed.

Lemma filter_length_map_le {A} (p : A -> bool) (f : A -> A) (xs : list A) :
  (forall x, In x xs -> p (f x) = true -> p x = true) ->
  (List.length (filter p (map f xs)) <= List.length (filter p xs))%nat.
Proof.
  induction xs as [|x rest IH]; cbn [map filter]; intros Hall.
  - lia.
  - assert (IH' := IH (fun y Hy => Hall y (or_intror Hy))).
    destruct (p (f x)) eqn:Hfx.
    + rewrite (Hall x (or_introl eq_refl) Hfx). cbn [List.length]. lia.
    + destruct (p x); cbn [List.length]; lia.
Qed.

Lemma map_id_replace (id : nat) (st' : ShiftType) (rows : list ShiftType) :
  shift_type_id st' = id ->
  map shift_type_id
      (map (fun r => if Nat.eqb (shift_type_id r) id then st' else r) rows)
  = map shift_type_id rows.
Proof.
  intros Hid. rewrite map_map. apply map_ext. intros r.
  destruct (Nat.eqb (shift_type_id r) id) eqn:E; [| reflexivity].
  apply Nat.eqb_eq in E. congruence.
Qed.

(** X12: the limit of ten live shift types per template is never passed: when
    no template is above it and the ids of the shift types are unique, the
    same holds after [createShiftType], [updateShiftType] and
    [deleteShiftType], whatever their arguments and their outcome. *)
Theorem registry_keeps_capacity now user_id id data upd db :
  NoDup (map shift_type_id (shift_types db)) ->
  within_capacity db ->
  (NoDup (map shift_type_id (shift_types (store (createShiftType user_id data db))))
   /\ within_capacity (store (createShiftType user_id data db)))
  /\ (NoDup (map shift_type_id
               (shift_types (store (updateShiftType user_id id upd db))))
      /\ within_capacity (store (updateShiftType user_id id upd db)))
  /\ (NoDup (map shift_type_id
               (shift_types (store (deleteShiftType now user_id id db))))
      /\ within_capacity (store (deleteShiftType now user_id id db))).
Proof.
  intros Hpk Hcap. split; [| split].
  - (* createShiftType *)
    destruct (result (createShiftType user_id data db)) as [e | view] eqn:Hres.
    { unfold createShiftType in Hres |- *.
      rewrite (transaction_failure_store _ _ _ Hres). auto. }
    destruct (createShiftType_success _ _ _ _ Hres)
      as (tpl & v & held_start & held_end & Ht & Hc & Hv & _ & _ & Hrun).
    rewrite Hrun. cbn [store shift_types].
    split.
    + rewrite map_app. cbn [map shift_type_id].
      apply NoDup_app; [exact Hpk | repeat constructor; intros [] |].
      intros x Hx [<- | []]. exact (fresh_uuid_not_In _ Hx).
    + intros tid. unfold count_live_shift_types. cbn [shift_types].
      rewrite filter_app, length_app. cbn [filter].
      unfold live_shift_type_of at 2. cbn [st_template_id st_deleted_at is_null].
      specialize (Hcap tid). unfold count_live_shift_types in Hcap, Hc.
      unfold MAX_SHIFT_TYPES_PER_TEMPLATE in *.
      destruct (Nat.eqb (template_id tpl) tid) eqn:E; cbn [andb List.length].
      * apply Nat.eqb_eq in E. subst tid. lia.
      * lia.
  - (* updateShiftType *)
    unfold within_capacity, count_live_shift_types in Hcap |- *.
    destruct (updateShiftType_store user_id id upd db)
      as (_ & _ & _ & [-> | (st & tpl & Hf & ->)]); [auto |].
    destruct (find_shift_type_with_template_some _ _ _ _ Hf) as (Hin & Hid & _).
    split.
    + rewrite map_id_replace by reflexivity. exact Hpk.
    + intros tid.
      rewrite filter_length_map_same; [apply Hcap |].
      intros r Hr. destruct (Nat.eqb (shift_type_id r) (shift_type_id st)) eqn:E;
        [| reflexivity].
      apply Nat.eqb_eq in E.
      rewrite (NoDup_map_eq shift_type_id _ r st Hpk Hr Hin E). reflexivity.
  - (* deleteShiftType *)
    destruct (result (deleteShiftType now user_id id db)) as [e | r] eqn:Hres.
    { unfold deleteShiftType in Hres |- *.
      rewrite (transaction_failure_store _ _ _ Hres). auto. }
    destruct (deleteShiftType_inversion _ _ _ _ _ Hres)
      as (st & tpl & Hf & _ & _ & ->).
    destruct (find_shift_type_with_template_some _ _ _ _ Hf) as (Hin & Hid & _).
    cbn [set_shift_types shift_types]. split.
    + rewrite map_id_replace by exact Hid. exact Hpk.
    + intros tid. specialize (Hcap tid). unfold count_live_shift_types in *.
      cbn [set_shift_types shift_types].
      pose proof (filter_length_map_le (live_shift_type_of tid)
                    (fun r => if Nat.eqb (shift_type_id r) id
                              then with_deleted_at st now else r)
                    (shift_types db)) as Hle.
      cbv beta in Hle.
      assert (Hmono : forall x, In x (shift_types db) ->
                live_shift_type_of tid
                  (if Nat.eqb (shift_type_id x) id then with_deleted_at st now else x)
                = true -> live_shift_type_of tid x = true).
      { intros x _. destruct (Nat.eqb (shift_type_id x) id); [| auto].
        unfold live_shift_type_of, with_deleted_at.
        cbn [st_deleted_at is_null]. rewrite andb_false_r. discriminate. }
      specialize (Hle Hmono). unfold MAX_SHIFT_TYPES_PER_TEMPLATE in *. lia.
Qed.

Lemma registry_keeps_capacity_witness :
  (NoDup (map shift_type_id
            (shift_types (store (createShiftType alice
               (mkCreateShiftTypeData "X" "extra" Null Null Null Null) full_db))))
   /\ within_capacity (store (createShiftType alice
        (mkCreateShiftTypeData "X" "extra" Null Null Null Null) full_db)))
  /\ (NoDup (map shift_type_id
               (shift_types (store (updateShiftType alice 3
                  (mkUpdateShiftTypeData None (Some "late") Undefined Undefined
                     Undefined Undefined) full_db))))
      /\ within_capacity (store (updateShiftType alice 3
           (mkUpdateShiftTypeData None (Some "late") Undefined Undefined
              Undefined Undefined) full_db)))
  /\ (NoDup (map shift_type_id
               (shift_types (store (deleteShiftType 9 alice 3 full_db))))
      /\ within_capacity (store (deleteShiftType 9 alice 3 full_db))).
Proof.
  apply (registry_keeps_capacity 9 alice 3
           (mkCreateShiftTypeData "X" "extra" Null Null Null Null)
           (mkUpdateShiftTypeData None (Some "late") Undefined Undefined
              Undefined Undefined) full_db).
  - cbn. repeat constructor; cbn; intuition discriminate.
  - intros tid. unfold count_live_shift_types, MAX_SHIFT_TYPES_PER_TEMPLATE, full_db.
    cbn [shift_types].
    pose proof (filter_length_le (live_shift_type_of tid)
                  (map (fun n => mkShiftType n 1 "T" "type" None (Some (Z.of_nat n)) None)
                       (seq 1 10))) as Hle.
    rewrite length_map, length_seq in Hle. lia.
Defined.

End RegistryInvariants.

(* ================================================================== *)
(** ** After a soft delete, after an update *)
(* ================================================================== *)

Section RegistryCompositions.

Lemma find_nothing {A} (p : A -> bool) (xs : list A) :
  (forall x, In x xs -> p x = false) -> find p xs = None.
Proof.
  intros Hall. rewrite <- (app_nil_r xs). now rewrite find_app_none.
Qed.

Lemma find_shift_type_with_template_deleted now id (st : ShiftType) db :
  find_shift_type_with_template id
    (set_shift_types
       (map (fun r => if Nat.eqb (shift_type_id r) id
                      then with_deleted_at st now else r)) db)
  = None.
Proof.
  unfold find_shift_type_with_template. cbn [set_shift_types shift_types shift_templates].
  match goal with
  | |- match find ?p ?rows with _ => _ end = _ =>
      assert (Hnone : find p rows = None); [| now rewrite Hnone]
  end.
  apply find_nothing. intros r Hr. apply in_map_iff in Hr.
  destruct Hr as (r0 & <- & _).
  destruct (Nat.eqb (shift_type_id r0) id) eqn:E.
  - unfold with_deleted_at. cbn [st_deleted_at is_null].
    now rewrite andb_false_r.
  - now rewrite E.
Qed.

(** X13: a soft-deleted shift type is gone for the registry and the listing: a
    second [deleteShiftType] and an [updateShiftType] of the id fail with
    [SHIFT_TYPE_NOT_FOUND], whoever calls, and no listing of
    [getShiftTypes] holds the id; its schedule rows stay in the store. *)
Theorem deleteShiftType_then_not_found now now' user_id caller id upd db r :
  result (deleteShiftType now user_id id db) = inr r ->
  r = (id, now)
  /\ result (deleteShiftType now' caller id (store (deleteShiftType now user_id id db)))
     = inl SHIFT_TYPE_NOT_FOUND
  /\ result (updateShiftType caller id upd (store (deleteShiftType now user_id id db)))
     = inl SHIFT_TYPE_NOT_FOUND
  /\ (forall listing,
        result (getShiftTypes caller (store (deleteShiftType now user_id id db)))
        = inr listing ->
        ~ In id (map view_shift_type_id (listing_shift_types listing)))
  /\ shift_type_schedules (store (deleteShiftType now user_id id db))
     = shift_type_schedules db.
Proof.
  intros Hres.
  destruct (deleteShiftType_inversion _ _ _ _ _ Hres)
    as (st & tpl & Hf & _ & -> & ->).
  split; [reflexivity |].
  pose proof (find_shift_type_with_template_deleted now id st db) as Hgone.
  split; [| split; [| split]].
  - unfold deleteShiftType, transaction, bind, find_or_throw. now rewrite Hgone.
  - unfold updateShiftType, transaction, bind, find_or_throw. now rewrite Hgone.
  - intros listing. rewrite getShiftTypes_run.
    destruct (find_active_template caller _) as [t|]; [| discriminate].
    destruct (find_latest_version (template_id t) _) as [v|]; [| discriminate].
    cbn [result]. intros H. injection H as <-. cbn [listing_shift_types].
    rewrite map_map. intros Hin. apply in_map_iff in Hin.
    destruct Hin as (x & Hid & Hx). rewrite shift_type_with_schedule_id in Hid.
    unfold live_shift_types_in_order in Hx. apply order_by_In in Hx.
    apply filter_In in Hx. destruct Hx as [Hx Hlive].
    cbn [set_shift_types shift_types] in Hx. apply in_map_iff in Hx.
    destruct Hx as (x0 & Hx0 & _).
    destruct (Nat.eqb (shift_type_id x0) id) eqn:E.
    + subst x. unfold live_shift_type_of, with_deleted_at in Hlive.
      cbn [st_deleted_at is_null] in Hlive. rewrite andb_false_r in Hlive.
      discriminate.
    + subst x0. apply Nat.eqb_neq in E. contradiction.
  - reflexivity.
Qed.

Lemma deleteShiftType_then_not_found_witness :
  (2%nat, 9) = (2%nat, 9)
  /\ result (deleteShiftType 10 bob 2 (store (deleteShiftType 9 alice 2 versioned_db)))
     = inl SHIFT_TYPE_NOT_FOUND
  /\ result (updateShiftType bob 2
               (mkUpdateShiftTypeData None (Some "late") Undefined Undefined
                  Undefined Undefined)
               (store (deleteShiftType 9 alice 2 versioned_db)))
     = inl SHIFT_TYPE_NOT_FOUND
  /\ (forall listing,
        result (getShiftTypes bob (store (deleteShiftType 9 alice 2 versioned_db)))
        = inr listing ->
        ~ In 2%nat (map view_shift_type_id (listing_shift_types listing)))
  /\ shift_type_schedules (store (deleteShiftType 9 alice 2 versioned_db))
     = shift_type_schedules versioned_db.
Proof.
  exact (deleteShiftType_then_not_found 9 10 alice bob 2
           (mkUpdateShiftTypeData None (Some "late") Undefined Undefined
              Undefined Undefined)
           versioned_db (2%nat, 9) eq_refl).
Defined.

Lemma find_map_replace {A} (p : A -> bool) (same : A -> bool) (s s' : A)
    (rows : list A) :
  find p rows = Some s -> same s = true -> p s' = true ->
  find p (map (fun r => if same r then s' else r) rows) = Some s'.
Proof.
  intros Hfind Hsame Hp. induction rows as [|r rest IH]; cbn [find map] in *.
  - discriminate.
  - destruct (p r) eqn:Hr.
    + injection Hfind as ->. now rewrite Hsame, Hp.
    + destruct (same r); [now rewrite Hp |]. rewrite Hr. now apply IH.
Qed.

Lemma string_or_null_truthy (f : Field string) :
  truthy f = true -> string_or_null (nullish f) = nullish f.
Proof.
  destruct f as [| |s]; cbn [truthy nullish string_or_null]; try discriminate.
  destruct (String.eqb s ""); [discriminate | reflexivity].
Qed.

Lemma truthy_nullish (f : Field string) :
  truthy f = true -> exists s, nullish f = Some s /\ f = Value s.
Proof. destruct f as [| |s]; cbn; try discriminate. eauto. Qed.

(** The values [calculateTimeInfo] gives two well-formed times go through
    to the schedule table. *)
Lemma schedule_columns_is_time s e :
  is_time s = true -> is_time e = true ->
  schedule_columns (Some s) (Some e)
    (ti_duration_minutes (calculateTimeInfo (Some s) (Some e)))
  = inr (Some (with_seconds s), Some (with_seconds e)).
Proof.
  intros Hs He. rewrite (calculateTimeInfo_is_time _ _ Hs He).
  cbn [ti_duration_minutes].
  pose proof (minute_of_day_range _ Hs). pose proof (minute_of_day_range _ He).
  apply (schedule_columns_well_formed (Some s) (Some e)).
  - reflexivity.
  - intros ? [= <-]. exact Hs.
  - intros ? [= <-]. exact He.
  - destruct (Z.ltb_spec (minute_of_day e) (minute_of_day s)); lia.
Qed.

(** X14: giving both times, written [HH:MM] or [HH:MM:SS], to
    [updateShiftType] shows in the next listing: for a live shift type on
    the caller's active template, and a colour and a sort order that fit
    their columns, the call returns the two times as given, with the
    crossing flag and the duration [calculateTimeInfo] gives them, and
    [getShiftTypes] lists the shift type with the code, name and sort
    order returned, the two times written with their seconds, and that
    crossing flag and duration. *)
Theorem updateShiftType_times_then_getShiftTypes user_id id data db st tpl v s e :
  find_shift_type_with_template id db = Some (st, tpl) ->
  find_active_template user_id db = Some tpl ->
  find_latest_version (template_id tpl) db = Some v ->
  update_storable data ->
  upd_start_time data = Value s -> upd_end_time data = Value e ->
  is_time s = true -> is_time e = true ->
  exists view listing,
    result (updateShiftType user_id id data db) = inr view
    /\ view_shift_type_id view = id
    /\ view_start_time view = Some s
    /\ view_end_time view = Some e
    /\ mkTimeInfo (view_crosses_midnight view) (view_duration_minutes view)
       = calculateTimeInfo (Some s) (Some e)
    /\ result (getShiftTypes user_id (store (updateShiftType user_id id data db)))
       = inr listing
    /\ exists listed,
         In listed (listing_shift_types listing)
         /\ view_shift_type_id listed = id
         /\ view_code listed = view_code view
         /\ view_name listed = view_name view
         /\ view_sort_order listed = view_sort_order view
         /\ view_start_time listed = Some (with_seconds s)
         /\ view_end_time listed = Some (with_seconds e)
         /\ view_crosses_midnight listed = view_crosses_midnight view
         /\ view_duration_minutes listed = view_duration_minutes view.
Proof.
  intros Hf Ht Hv Hfit Hfs Hfe Hs He.
  destruct (find_active_template_some _ _ _ Ht) as (_ & Howner & Hlive_tpl).
  destruct (find_shift_type_with_template_some _ _ _ _ Hf) as (Hin & Hid & Hdel).
  destruct (find_shift_type_with_template_template _ _ _ _ Hf) as (_ & Htid).
  pose proof (schedule_columns_is_time s e Hs He) as Hcols.
  rewrite (updateShiftType_run _ _ data _ _ _ _ Hf Howner Hv Hfit).
  set (st' := assign_shift_type data st).
  set (ti := calculateTimeInfo (Some s) (Some e)) in *.
  assert (Hduration : exists z, ti_duration_minutes ti = Num z).
  { unfold ti. rewrite (calculateTimeInfo_is_time _ _ Hs He). cbn. eauto. }
  destruct Hduration as (z & Hz).
  (* the store and the times that step 3 leaves *)
  assert (Hstep : exists db1 sch,
    update_times id v data (find_schedule id (template_version_id v) db)
      (after_step_2 data st db)
    = (db1, inr (Some s, Some e, ti))
    /\ shift_templates db1 = shift_templates db
    /\ shift_template_versions db1 = shift_template_versions db
    /\ shift_types db1 = shift_types (after_step_2 data st db)
    /\ find_schedule id (template_version_id v) db1 = Some sch
    /\ start_time sch = Some (with_seconds s)
    /\ end_time sch = Some (with_seconds e)
    /\ crosses_midnight sch = ti_crosses_midnight ti
    /\ duration_minutes sch = ti_duration_minutes ti).
  { unfold update_times. rewrite Hfs, Hfe. cbn [defined andb truthy nullish].
    rewrite (is_time_not_empty _ Hs), (is_time_not_empty _ He). cbn [negb andb].
    fold ti.
    destruct (find_schedule id (template_version_id v) db) as [old|] eqn:Hold.
    - destruct (find_schedule_some _ _ _ _ Hold) as (_ & Hold_st & Hold_v).
      unfold bind, save_schedule, with_times, ret.
      cbn [start_time end_time duration_minutes schedule_id sch_shift_type_id
           sch_template_version_id crosses_midnight].
      rewrite Hcols.
      eexists _, _. split; [reflexivity |].
      cbn [set_schedules shift_templates shift_template_versions shift_types
           after_step_2 set_shift_types shift_type_schedules].
      repeat (split; [reflexivity |]).
      split.
      + unfold find_schedule, after_step_2.
        cbn [shift_type_schedules set_schedules set_shift_types].
        apply (find_map_replace _ (fun r => Nat.eqb (schedule_id r) (schedule_id old))
                 old).
        * exact Hold.
        * apply Nat.eqb_refl.
        * cbn [sch_shift_type_id sch_template_version_id].
          now rewrite Hold_st, Hold_v, !Nat.eqb_refl.
      + cbn [start_time end_time crosses_midnight duration_minutes]. auto.
    - unfold bind, create_schedule, ret.
      rewrite Hcols.
      eexists _, _. split; [reflexivity |].
      cbn [set_schedules shift_templates shift_template_versions shift_types
           after_step_2 set_shift_types shift_type_schedules].
      repeat (split; [reflexivity |]).
      split.
      + unfold find_schedule, after_step_2.
        cbn [shift_type_schedules set_schedules set_shift_types].
        rewrite find_app_none
          by (intros r Hr; exact (find_none _ _ Hold r Hr)).
        cbn [find sch_shift_type_id sch_template_version_id].
        now rewrite !Nat.eqb_refl.
      + cbn [start_time end_time crosses_midnight duration_minutes]. auto. }
  destruct Hstep as (db1 & sch & -> & H1 & H2 & H3 & Hsch & Hst & Hen & Hcr & Hdu).
  cbn [store result].
  eexists _, _. split; [reflexivity |].
  cbn [view_shift_type_id view_code view_name view_color view_sort_order
       view_start_time view_end_time view_crosses_midnight view_duration_minutes].
  split; [exact Hid |]. split; [reflexivity |]. split; [reflexivity |].
  split; [unfold ti; now destruct (calculateTimeInfo (Some s) (Some e)) |].
  rewrite getShiftTypes_run.
  unfold find_active_template, find_latest_version in Ht, Hv |- *.
  rewrite H1, H2, Ht, Hv. split; [reflexivity |]. cbn [listing_shift_types].
  assert (Hin' : In st' (live_shift_types_in_order (template_id tpl) db1)).
  { unfold live_shift_types_in_order. apply order_by_In. apply filter_In.
    rewrite H3. unfold after_step_2. cbn [set_shift_types shift_types]. split.
    - apply in_map_iff. exists st. now rewrite Nat.eqb_refl.
    - unfold live_shift_type_of, st', assign_shift_type.
      cbn [st_template_id st_deleted_at]. rewrite Hdel, Htid, Nat.eqb_refl.
      reflexivity. }
  exists (shift_type_with_schedule (template_version_id v) db1 st').
  split; [apply in_map; exact Hin' |].
  unfold shift_type_with_schedule.
  replace (shift_type_id st') with id by (symmetry; exact Hid).
  rewrite Hsch, Hst, Hen, Hcr, Hdu, Hz.
  cbn [view_shift_type_id view_code view_name view_sort_order view_start_time
       view_end_time view_crosses_midnight view_duration_minutes string_or_null
       number_or_zero].
  rewrite (with_seconds_not_empty _ Hs), (with_seconds_not_empty _ He).
  repeat split.
Qed.

Lemma updateShiftType_times_then_getShiftTypes_witness :
  exists view listing,
    result (updateShiftType alice 2
              (mkUpdateShiftTypeData None None Undefined (Value "22:30")
                 (Value "07:00") Undefined) versioned_db)
    = inr view
    /\ view_shift_type_id view = 2%nat
    /\ view_start_time view = Some "22:30"
    /\ view_end_time view = Some "07:00"
    /\ mkTimeInfo (view_crosses_midnight view) (view_duration_minutes view)
       = calculateTimeInfo (Some "22:30") (Some "07:00")
    /\ result (getShiftTypes alice
                 (store (updateShiftType alice 2
                           (mkUpdateShiftTypeData None None Undefined (Value "22:30")
                              (Value "07:00") Undefined) versioned_db)))
       = inr listing
    /\ exists listed,
         In listed (listing_shift_types listing)
         /\ view_shift_type_id listed = 2%nat
         /\ view_code listed = view_code view
         /\ view_name listed = view_name view
         /\ view_sort_order listed = view_sort_order view
         /\ view_start_time listed = Some (with_seconds "22:30")
         /\ view_end_time listed = Some (with_seconds "07:00")
         /\ view_crosses_midnight listed = view_crosses_midnight view
         /\ view_duration_minutes listed = view_duration_minutes view.
Proof.
  exact (updateShiftType_times_then_getShiftTypes alice 2
           (mkUpdateShiftTypeData None None Undefined (Value "22:30")
              (Value "07:00") Undefined)
           versioned_db night_type base_template version_2 "22:30" "07:00"
           eq_refl eq_refl eq_refl (conj eq_refl eq_refl) eq_refl eq_refl
           eq_refl eq_refl).
Defined.

(** The listing after that update: the night shift from 22:30 to 07:00,
    held with seconds, crossing midnight, of 510 minutes. *)
Example updateShiftType_times_listed :
  option_map listing_shift_types
    (match result (getShiftTypes alice
                     (store (updateShiftType alice 2
                               (mkUpdateShiftTypeData None None Undefined
                                  (Value "22:30") (Value "07:00") Undefined)
                               versioned_db))) with
     | inr listing => Some listing
     | inl _ => None
     end)
  = Some [mkShiftTypeView 1 "D" "Day" None (Some 1) (Some "07:00:00")
            (Some "15:00:00") false (Num 480);
          mkShiftTypeView 2 "N" "Night" None (Some 2) (Some "22:30:00")
            (Some "07:00:00") true (Num 510)].
Proof. reflexivity. Qed.

End RegistryCompositions.

(* ================================================================== *)
(** ** What the reconciler keeps *)
(* ================================================================== *)

Section Preservation.

Context {A B : Type} (P : DB -> Prop).

Lemma preserves_ret (a : A) : stmt_preserves P (ret a).
Proof. intros db db' r H. injection H as <- _. auto. Qed.

Lemma preserves_throw (e : ServiceError) : stmt_preserves P (@throw A e).
Proof. intros db db' r H. injection H as <- _. auto. Qed.

Lemma preserves_query (q : DB -> A) : stmt_preserves P (query q).
Proof. intros db db' r H. injection H as <- _. auto. Qed.

Lemma preserves_find_or_throw (q : DB -> option A) (e : ServiceError) :
  stmt_preserves P (find_or_throw q e).
Proof.
  intros db db' r H. unfold find_or_throw in H.
  destruct (q db); injection H as <- _; auto.
Qed.

Lemma preserves_bind (m : Stmt A) (k : A -> Stmt B) :
  stmt_preserves P m -> (forall a, stmt_preserves P (k a)) ->
  stmt_preserves P (bind m k).
Proof.
  intros Hm Hk db db' r H HP. unfold bind in H.
  destruct (m db) as [db1 [e | a]] eqn:E.
  - injection H as <- _. exact (Hm _ _ _ E HP).
  - exact (Hk a _ _ _ H (Hm _ _ _ E HP)).
Qed.

Lemma preserves_autocommit (body : Stmt A) (db : DB) :
  stmt_preserves P body -> P db -> P (store (autocommit body db)).
Proof.
  intros Hbody HP. unfold autocommit.
  destruct (body db) as [db' r] eqn:E. cbn [store]. exact (Hbody _ _ _ E HP).
Qed.

Lemma preserves_transaction (body : DB -> Stmt A) (db : DB) :
  (forall committed, stmt_preserves P (body committed)) -> P db ->
  P (store (transaction body db)).
Proof.
  intros Hbody HP. unfold transaction.
  destruct (body db db) as [working [e | a]] eqn:E; cbn [store].
  - exact HP.
  - exact (Hbody _ _ _ _ E HP).
Qed.

End Preservation.

Section WorkShiftKeys.

Variable dateOnly : string -> Date.

Lemma well_keyed_same db db' :
  work_shifts db' = work_shifts db ->
  work_shifts_well_keyed db -> work_shifts_well_keyed db'.
Proof.
  unfold work_shifts_well_keyed, one_row_per_day, rows_of_day.
  intros ->. auto.
Qed.

Lemma well_keyed_map (g : WorkShift -> WorkShift) db db' :
  work_shifts db' = map g (work_shifts db) ->
  (forall w, In w (work_shifts db) ->
     work_shift_id (g w) = work_shift_id w
     /\ owner_user_id (g w) = owner_user_id w
     /\ work_date (g w) = work_date w) ->
  work_shifts_well_keyed db -> work_shifts_well_keyed db'.
Proof.
  unfold work_shifts_well_keyed, one_row_per_day, rows_of_day.
  intros -> Hkeys [Hpk Hday]. split.
  - rewrite map_map.
    rewrite (map_ext_in _ work_shift_id); [exact Hpk |].
    intros w Hw. apply (Hkeys w Hw).
  - intros u d. rewrite filter_length_map_same; [apply Hday |].
    intros w Hw. destruct (Hkeys w Hw) as (_ & Ho & Hd).
    unfold same_day_of_owner. now rewrite Ho, Hd.
Qed.

Lemma well_keyed_append (row : WorkShift) db db' :
  work_shifts db' = work_shifts db ++ [row] ->
  work_shift_id row = fresh_uuid (map work_shift_id (work_shifts db)) ->
  find (same_day_of_owner (owner_user_id row) (work_date row)) (work_shifts db) = None ->
  work_shifts_well_keyed db -> work_shifts_well_keyed db'.
Proof.
  unfold work_shifts_well_keyed, one_row_per_day, rows_of_day.
  intros -> Hid Hnone [Hpk Hday]. split.
  - rewrite map_app. cbn [map].
    apply NoDup_app; [exact Hpk | repeat constructor; intros [] |].
    intros x Hx [<- | []]. rewrite Hid in Hx. exact (fresh_uuid_not_In _ Hx).
  - intros u d. rewrite filter_app, length_app. cbn [filter].
    destruct (same_day_of_owner u d row) eqn:E; cbn [List.length].
    + unfold same_day_of_owner in E. apply andb_prop in E. destruct E as [Eo Ed].
      apply Nat.eqb_eq in Eo. apply Z.eqb_eq in Ed. subst u d.
      rewrite (find_none_filter _ _ Hnone). cbn [List.length]. lia.
    + specialize (Hday u d). lia.
Qed.

Lemma upsert_work_shift_keyed v :
  stmt_preserves work_shifts_well_keyed (upsert_work_shift v).
Proof.
  intros db db' r H. unfold upsert_work_shift in H.
  destruct (find _ (work_shifts db)) as [old|] eqn:Hfind; injection H as <- _.
  - apply well_keyed_map
      with (g := fun w => if same_day_of_owner (val_owner_user_id v) (val_work_date v) w
                          then overwrite v w else w).
    + reflexivity.
    + intros w _.
      destruct (same_day_of_owner (val_owner_user_id v) (val_work_date v) w) eqn:E;
        [| auto].
      unfold same_day_of_owner in E. apply andb_prop in E. destruct E as [Eo Ed].
      apply Nat.eqb_eq in Eo. apply Z.eqb_eq in Ed.
      cbn [overwrite work_shift_id owner_user_id work_date]. auto.
  - eapply well_keyed_append; [reflexivity | reflexivity | exact Hfind].
Qed.

Lemma find_or_create_schedule_work_shifts stid vid db db' r :
  find_or_create_schedule stid vid db = (db', r) ->
  work_shifts db' = work_shifts db.
Proof.
  unfold find_or_create_schedule, create_schedule. cbn.
  destruct (find_schedule stid vid db); intros H; injection H as <- _; reflexivity.
Qed.

Lemma find_or_create_schedule_keyed stid vid :
  stmt_preserves work_shifts_well_keyed (find_or_create_schedule stid vid).
Proof.
  intros db db' r H. apply well_keyed_same.
  exact (find_or_create_schedule_work_shifts _ _ _ _ _ H).
Qed.

Lemma valid_version_preserves (P : DB -> Prop) tid wd :
  stmt_preserves P (valid_version dateOnly tid wd).
Proof.
  intros db db' r H. unfold valid_version in H.
  destruct (find_version_in_force tid (dateOnly wd) db);
    [| destruct (find_latest_version tid db)]; injection H as <- _; auto.
Qed.

Lemma upsert_entry_keyed user_id template ws :
  stmt_preserves work_shifts_well_keyed (upsert_entry dateOnly user_id template ws).
Proof.
  unfold upsert_entry.
  apply preserves_bind; [apply preserves_find_or_throw | intros st].
  apply preserves_bind; [apply valid_version_preserves | intros v].
  apply preserves_bind; [apply find_or_create_schedule_keyed | intros s].
  apply upsert_work_shift_keyed.
Qed.

Lemma upsert_entries_preserves (P : DB -> Prop) user_id template :
  (forall ws, stmt_preserves P (upsert_entry dateOnly user_id template ws)) ->
  forall entries saved,
    stmt_preserves P (upsert_entries dateOnly user_id template entries saved).
Proof.
  intros Hentry entries. induction entries as [|ws rest IH]; intros saved;
    cbn [upsert_entries].
  - apply preserves_ret.
  - apply preserves_bind; [apply Hentry | intros w; apply IH].
Qed.

Lemma batchUpsertWorkShifts_preserves (P : DB -> Prop) user_id entries db :
  (forall template ws, stmt_preserves P (upsert_entry dateOnly user_id template ws)) ->
  P db -> P (store (batchUpsertWorkShifts dateOnly user_id entries db)).
Proof.
  intros Hentry HP. unfold batchUpsertWorkShifts.
  destruct (negb _); [exact HP |].
  destruct (find_active_template user_id db) as [template|]; [| exact HP].
  destruct (upsert_entries dateOnly user_id template entries [] db)
    as [working [e | saved]] eqn:E; cbn [store].
  - exact HP.
  - exact (upsert_entries_preserves P user_id template (Hentry template)
             entries [] _ _ _ E HP).
Qed.

Lemma upsertWorkShift_preserves (P : DB -> Prop) user_id wd code note_ db :
  (forall stid vid, stmt_preserves P (find_or_create_schedule stid vid)) ->
  (forall v, stmt_preserves P (upsert_work_shift v)) ->
  P db -> P (store (upsertWorkShift dateOnly user_id wd code note_ db)).
Proof.
  intros Hs Hw. unfold upsertWorkShift. apply preserves_autocommit.
  apply preserves_bind; [apply preserves_find_or_throw | intros st].
  apply preserves_bind; [apply preserves_find_or_throw | intros t].
  apply preserves_bind; [apply preserves_find_or_throw | intros v].
  apply preserves_bind; [apply Hs | intros s]. apply Hw.
Qed.

Lemma updateWorkShift_preserves (P : DB -> Prop) user_id id code note_ db :
  (forall stid vid, stmt_preserves P (find_or_create_schedule stid vid)) ->
  (forall wid sid n, stmt_preserves P (update_work_shift wid sid n)) ->
  P db -> P (store (updateWorkShift user_id id code note_ db)).
Proof.
  intros Hs Hw. unfold updateWorkShift. apply preserves_autocommit.
  apply preserves_bind; [apply preserves_find_or_throw | intros w].
  apply preserves_bind.
  - destruct (truthy code); [| apply preserves_ret].
    destruct (nullish code) as [c|]; [| apply preserves_ret].
    apply preserves_bind; [apply preserves_find_or_throw | intros st].
    apply preserves_bind; [apply preserves_find_or_throw | intros t].
    apply preserves_bind; [apply preserves_find_or_throw | intros v].
    apply preserves_bind; [apply Hs | intros s]. apply preserves_ret.
  - intros sid. apply preserves_bind; [apply Hw | intros _; apply preserves_ret].
Qed.

Lemma update_work_shift_keyed wid sid n :
  stmt_preserves work_shifts_well_keyed (update_work_shift wid sid n).
Proof.
  intros db db' r H. unfold update_work_shift, write in H. injection H as <- _.
  eapply well_keyed_map; [reflexivity |].
  intros w _. cbv beta. destruct (Nat.eqb (work_shift_id w) wid); repeat split.
Qed.

Lemma deleteWorkShift_keyed now user_id id db :
  work_shifts_well_keyed db ->
  work_shifts_well_keyed (store (deleteWorkShift now user_id id db)).
Proof.
  intros Hkeyed. unfold deleteWorkShift, autocommit, bind, find_or_throw, write.
  destruct (find _ (work_shifts db)) as [ws|] eqn:Hfind; cbn [store];
    [| exact Hkeyed].
  apply find_some in Hfind. destruct Hfind as [Hin _].
  eapply well_keyed_map; [reflexivity | | exact Hkeyed].
  intros w Hw. cbv beta.
  destruct (Nat.eqb (work_shift_id w) (work_shift_id ws)) eqn:E; [| auto].
  apply Nat.eqb_eq in E. destruct Hkeyed as [Hpk _].
  rewrite (NoDup_map_eq work_shift_id _ w ws Hpk Hw Hin E). auto.
Qed.

(** X15: the unique index of [work_shifts] is never violated: when the ids of
    the work shifts are unique and every owner has at most one row per
    day, the same holds after [upsertWorkShift], [updateWorkShift],
    [deleteWorkShift] and [batchUpsertWorkShifts], whatever their
    arguments and their outcome. *)
Theorem calendar_keeps_one_row_per_day
    now user_id id wd code (maybe_code note_ : Field string) entries db :
  work_shifts_well_keyed db ->
  work_shifts_well_keyed (store (upsertWorkShift dateOnly user_id wd code note_ db))
  /\ work_shifts_well_keyed (store (updateWorkShift user_id id maybe_code note_ db))
  /\ work_shifts_well_keyed (store (deleteWorkShift now user_id id db))
  /\ work_shifts_well_keyed (store (batchUpsertWorkShifts dateOnly user_id entries db)).
Proof.
  intros Hkeyed. split; [| split; [| split]].
  - apply upsertWorkShift_preserves;
      [apply find_or_create_schedule_keyed | apply upsert_work_shift_keyed
       | exact Hkeyed].
  - apply updateWorkShift_preserves;
      [apply find_or_create_schedule_keyed | apply update_work_shift_keyed
       | exact Hkeyed].
  - apply deleteWorkShift_keyed. exact Hkeyed.
  - apply batchUpsertWorkShifts_preserves; [apply upsert_entry_keyed | exact Hkeyed].
Qed.

End WorkShiftKeys.

Lemma calendar_keeps_one_row_per_day_witness :
  work_shifts_well_keyed
    (store (upsertWorkShift iso_day alice "2024-01-15" "N" Null assigned_db))
  /\ work_shifts_well_keyed
       (store (updateWorkShift alice 1 (Value "N") Undefined assigned_db))
  /\ work_shifts_well_keyed (store (deleteWorkShift 7 alice 1 assigned_db))
  /\ work_shifts_well_keyed
       (store (batchUpsertWorkShifts iso_day alice
                 [mkBatchEntry "2024-01-15" "N" Null;
                  mkBatchEntry "2024-02-15" "D" Null] assigned_db)).
Proof.
  apply (calendar_keeps_one_row_per_day iso_day 7 alice 1 "2024-01-15" "N"
           (Value "N") Null
           [mkBatchEntry "2024-01-15" "N" Null; mkBatchEntry "2024-02-15" "D" Null]
           assigned_db).
  split.
  - vm_compute. repeat constructor. intros [].
  - intros u d. unfold rows_of_day.
    let rows := eval vm_compute in (work_shifts assigned_db) in
    change (work_shifts assigned_db) with rows.
    cbn [filter]. destruct (same_day_of_owner u d _); cbn [List.length]; lia.
Defined.

(* ================================================================== *)
(** ** The reconciler and the definitions *)
(* ================================================================== *)

Section ReconcilerFootprint.

Variable dateOnly : string -> Date.

Lemma definitions_extended_refl db : definitions_extended db db.
Proof.
  split; [unfold same_definitions; auto |].
  exists []. rewrite app_nil_r. split; [reflexivity | constructor].
Qed.

Lemma definitions_extended_work_shifts db0 db db' :
  shift_templates db' = shift_templates db ->
  shift_template_versions db' = shift_template_versions db ->
  shift_types db' = shift_types db ->
  shift_type_schedules db' = shift_type_schedules db ->
  definitions_extended db0 db -> definitions_extended db0 db'.
Proof.
  unfold definitions_extended, same_definitions.
  intros -> -> -> ->. auto.
Qed.

Lemma find_or_create_schedule_extends db0 stid vid :
  stmt_preserves (definitions_extended db0) (find_or_create_schedule stid vid).
Proof.
  intros db db' r H [(H1 & H2 & H3) (added & Hadd & Huntimed)].
  unfold find_or_create_schedule, create_schedule in H.
  cbn [timeConsistency is_null negb Bool.eqb] in H.
  destruct (find_schedule stid vid db); injection H as <- _.
  - split; [unfold same_definitions; auto | eauto].
  - split; [unfold same_definitions; auto |].
    eexists (added ++ [_]). cbn [set_schedules shift_type_schedules].
    rewrite Hadd, <- app_assoc. split; [reflexivity |].
    apply Forall_app. split; [exact Huntimed |].
    constructor; [unfold untimed; cbn; auto | constructor].
Qed.

Lemma upsert_work_shift_extends db0 v :
  stmt_preserves (definitions_extended db0) (upsert_work_shift v).
Proof.
  intros db db' r H. unfold upsert_work_shift in H.
  destruct (find _ (work_shifts db)); injection H as <- _;
    now apply definitions_extended_work_shifts.
Qed.

Lemma update_work_shift_extends db0 wid sid n :
  stmt_preserves (definitions_extended db0) (update_work_shift wid sid n).
Proof.
  intros db db' r H. unfold update_work_shift, write in H. injection H as <- _.
  now apply definitions_extended_work_shifts.
Qed.

Lemma upsert_entry_extends db0 user_id template ws :
  stmt_preserves (definitions_extended db0) (upsert_entry dateOnly user_id template ws).
Proof.
  unfold upsert_entry.
  apply preserves_bind; [apply preserves_find_or_throw | intros st].
  apply preserves_bind; [apply valid_version_preserves | intros v].
  apply preserves_bind; [apply find_or_create_schedule_extends | intros s].
  apply upsert_work_shift_extends.
Qed.

(** X16: the calendar service never edits or removes a definition: after
    [upsertWorkShift], [updateWorkShift] and [batchUpsertWorkShifts],
    whatever their outcome, templates, versions and shift types are as
    before and the schedules are the ones before followed by rows without
    times; [deleteWorkShift] leaves the schedules as they are, too. *)
Theorem calendar_never_edits_definitions
    now user_id id wd code (maybe_code note_ : Field string) entries db :
  definitions_extended db (store (upsertWorkShift dateOnly user_id wd code note_ db))
  /\ definitions_extended db (store (updateWorkShift user_id id maybe_code note_ db))
  /\ definitions_extended db
       (store (batchUpsertWorkShifts dateOnly user_id entries db))
  /\ same_definitions db (store (deleteWorkShift now user_id id db))
  /\ shift_type_schedules (store (deleteWorkShift now user_id id db))
     = shift_type_schedules db.
Proof.
  split; [| split; [| split]].
  - apply upsertWorkShift_preserves;
      [apply find_or_create_schedule_extends | apply upsert_work_shift_extends
       | apply definitions_extended_refl].
  - apply updateWorkShift_preserves;
      [apply find_or_create_schedule_extends | apply update_work_shift_extends
       | apply definitions_extended_refl].
  - apply batchUpsertWorkShifts_preserves;
      [intros; apply upsert_entry_extends | apply definitions_extended_refl].
  - unfold deleteWorkShift, autocommit, bind, find_or_throw, write, same_definitions.
    destruct (find _ (work_shifts db)); cbn; auto.
Qed.

(** *** Failures *)

Lemma upsertWorkShift_run user_id wd code note_ db st tpl v :
  find_shift_type_of_owner code user_id db = Some st ->
  find_active_template user_id db = Some tpl ->
  find_latest_version (template_id tpl) db = Some v ->
  exists db1 s w,
    find_or_create_schedule (shift_type_id st) (template_version_id v) db
    = (db1, inr s)
    /\ upsert_work_shift
         (mkWorkShiftValues user_id (dateOnly wd) (schedule_id s)
            (note_or_null note_) 0 user_id) db1
       = (store (upsertWorkShift dateOnly user_id wd code note_ db), inr w)
    /\ result (upsertWorkShift dateOnly user_id wd code note_ db) = inr w.
Proof.
  intros Hst Ht Hv.
  unfold upsertWorkShift, autocommit, bind, find_or_throw.
  rewrite Hst, Ht, Hv.
  destruct (find_or_create_schedule_spec (shift_type_id st) (template_version_id v) db)
    as (db1 & s & E & _).
  rewrite E.
  destruct (upsert_work_shift_spec
              (mkWorkShiftValues user_id (dateOnly wd) (schedule_id s)
                 (note_or_null note_) 0 user_id) db1)
    as (db2 & w & E2 & _).
  rewrite E2. cbn [store result]. exists db1, s, w. auto.
Qed.

(** X17: the errors of their own that [upsertWorkShift], [updateWorkShift]
    and [deleteWorkShift] throw come before the first write: a call that
    fails with one of them leaves the store as it found it.
    [upsertWorkShift] throws [SHIFT_TYPE_NOT_FOUND] exactly when the
    caller has no live shift type of that code, and [TEMPLATE_NOT_FOUND]
    exactly when the caller has one but no active template, or an active
    template without a version; [updateWorkShift] and [deleteWorkShift]
    throw [WORK_SHIFT_NOT_FOUND] exactly when the caller has no live work
    shift of that id. *)
Theorem calendar_failures_write_nothing
    now user_id id wd code (maybe_code note_ : Field string) db :
  let upsert := upsertWorkShift dateOnly user_id wd code note_ db in
  let update := updateWorkShift user_id id maybe_code note_ db in
  let delete := deleteWorkShift now user_id id db in
  (result upsert = inl SHIFT_TYPE_NOT_FOUND
   <-> find_shift_type_of_owner code user_id db = None)
  /\ (result upsert = inl TEMPLATE_NOT_FOUND
      <-> (exists st, find_shift_type_of_owner code user_id db = Some st)
          /\ (find_active_template user_id db = None
              \/ exists tpl, find_active_template user_id db = Some tpl
                             /\ find_latest_version (template_id tpl) db = None))
  /\ (result upsert = inl SHIFT_TYPE_NOT_FOUND \/ result upsert = inl TEMPLATE_NOT_FOUND ->
      store upsert = db)
  /\ (result update = inl WORK_SHIFT_NOT_FOUND
      <-> find_live_work_shift id user_id db = None)
  /\ (result update = inl WORK_SHIFT_NOT_FOUND
      \/ result update = inl SHIFT_TYPE_NOT_FOUND
      \/ result update = inl TEMPLATE_NOT_FOUND ->
      store update = db)
  /\ (result delete = inl WORK_SHIFT_NOT_FOUND
      <-> find_live_work_shift id user_id db = None)
  /\ (result delete = inl WORK_SHIFT_NOT_FOUND -> store delete = db).
Proof.
  intros upsert update delete.
  assert (Hupsert :
    (find_shift_type_of_owner code user_id db = None
     /\ upsert = mkRun db [] (inl SHIFT_TYPE_NOT_FOUND))
    \/ (exists st, find_shift_type_of_owner code user_id db = Some st
                   /\ (find_active_template user_id db = None
                       \/ exists tpl, find_active_template user_id db = Some tpl
                                      /\ find_latest_version (template_id tpl) db = None)
                   /\ upsert = mkRun db [] (inl TEMPLATE_NOT_FOUND))
    \/ (exists st tpl v w,
          find_shift_type_of_owner code user_id db = Some st
          /\ find_active_template user_id db = Some tpl
          /\ find_latest_version (template_id tpl) db = Some v
          /\ result upsert = inr w)).
  { unfold upsert.
    destruct (find_shift_type_of_owner code user_id db) as [st|] eqn:Hst.
    2: { left. split; [reflexivity |].
         unfold upsertWorkShift, autocommit, bind, find_or_throw. now rewrite Hst. }
    right.
    destruct (find_active_template user_id db) as [tpl|] eqn:Ht.
    2: { left. exists st. split; [reflexivity |]. split; [now left |].
         unfold upsertWorkShift, autocommit, bind, find_or_throw.
         now rewrite Hst, Ht. }
    destruct (find_latest_version (template_id tpl) db) as [v|] eqn:Hv.
    2: { left. exists st. split; [reflexivity |]. split; [right; eauto |].
         unfold upsertWorkShift, autocommit, bind, find_or_throw.
         now rewrite Hst, Ht, Hv. }
    right.
    destruct (upsertWorkShift_run user_id wd code note_ db st tpl v Hst Ht Hv)
      as (_ & _ & w & _ & _ & Hw).
    exists st, tpl, v, w. auto. }
  assert (Hupdate :
    (find_live_work_shift id user_id db = None
     /\ update = mkRun db [] (inl WORK_SHIFT_NOT_FOUND))
    \/ (find_live_work_shift id user_id db <> None
        /\ ((exists e, update = mkRun db [] (inl e) /\ e <> WORK_SHIFT_NOT_FOUND)
            \/ exists w, result update = inr w))).
  { unfold update, updateWorkShift, autocommit, bind, find_or_throw.
    destruct (find_live_work_shift id user_id db) as [w|];
      [right; split; [discriminate |] | left; auto].
    destruct (truthy maybe_code);
      [| right; unfold ret, update_work_shift, write; cbn [result]; eauto].
    destruct (nullish maybe_code) as [c|];
      [| right; unfold ret, update_work_shift, write; cbn [result]; eauto].
    destruct (find_shift_type_of_owner c user_id db) as [st|];
      [| left; eexists; split; [reflexivity | discriminate]].
    destruct (find_active_template user_id db) as [tpl|];
      [| left; eexists; split; [reflexivity | discriminate]].
    destruct (find_latest_version (template_id tpl) db) as [v|];
      [| left; eexists; split; [reflexivity | discriminate]].
    destruct (find_or_create_schedule_spec (shift_type_id st) (template_version_id v) db)
      as (db1 & s & E & _).
    rewrite E. right. unfold ret, update_work_shift, write. cbn [result]. eauto. }
  assert (Hdelete :
    (find_live_work_shift id user_id db = None
     /\ delete = mkRun db [] (inl WORK_SHIFT_NOT_FOUND))
    \/ (find_live_work_shift id user_id db <> None /\ result delete = inr tt)).
  { unfold delete, deleteWorkShift, autocommit, bind, find_or_throw, write.
    fold (find_live_work_shift id user_id db).
    destruct (find_live_work_shift id user_id db);
      [right; split; [discriminate | reflexivity] | left; auto]. }
  split; [| split; [| split; [| split; [| split; [| split]]]]].
  - destruct Hupsert as [[Hst ->] | [(st & Hst & _ & ->) | (st & tpl & v & w & Hst & _ & _ & Hw)]];
      cbn [result]; rewrite ?Hw, Hst; split; try discriminate; reflexivity.
  - destruct Hupsert as [[Hst ->] | [(st & Hst & Hno & ->) | (st & tpl & v & w & Hst & Ht & Hv & Hw)]];
      cbn [result]; rewrite ?Hw.
    + split; [discriminate |]. intros ((st & Hst') & _). congruence.
    + split; [intros _; eauto | reflexivity].
    + split; [discriminate |].
      intros (_ & [Hnone | (tpl' & Ht' & Hv')]); [congruence |].
      rewrite Ht in Ht'. injection Ht' as <-. congruence.
  - destruct Hupsert as [[_ ->] | [(st & _ & _ & ->) | (st & tpl & v & w & _ & _ & _ & Hw)]];
      cbn [result store]; [reflexivity .. |].
    rewrite Hw. intros [? | ?]; discriminate.
  - destruct Hupdate as [[Hw ->] | [Hw [(e & -> & He) | (w & Hres)]]];
      cbn [result]; rewrite ?Hres.
    + split; [intros _; exact Hw | reflexivity].
    + split; [intros [= ->]; contradiction | intros H; contradiction].
    + split; [discriminate | intros H; contradiction].
  - destruct Hupdate as [[_ ->] | [_ [(e & -> & _) | (w & Hres)]]];
      cbn [result store]; [reflexivity .. |].
    rewrite Hres. intros [? | [? | ?]]; discriminate.
  - destruct Hdelete as [[Hw ->] | [Hw Hres]]; cbn [result]; rewrite ?Hres.
    + split; [intros _; exact Hw | reflexivity].
    + split; [discriminate | intros H; contradiction].
  - destruct Hdelete as [[_ ->] | [_ Hres]]; cbn [result store]; [reflexivity |].
    rewrite Hres. discriminate.
Qed.

(** Bob has no shift type and no work shift: his calls fail with the
    services' own errors, and the store stays as it was. *)
Example calendar_failures_of_a_stranger :
  upsertWorkShift iso_day bob "2024-01-15" "D" Null assigned_db
  = mkRun assigned_db [] (inl SHIFT_TYPE_NOT_FOUND)
  /\ updateWorkShift bob 1 (Value "N") Null assigned_db
     = mkRun assigned_db [] (inl WORK_SHIFT_NOT_FOUND)
  /\ deleteWorkShift 9 bob 1 assigned_db
     = mkRun assigned_db [] (inl WORK_SHIFT_NOT_FOUND)
  /\ upsertWorkShift iso_day alice "2024-01-15" "D" Null unversioned_db
     = mkRun unversioned_db [] (inl TEMPLATE_NOT_FOUND).
Proof. repeat split. Qed.

(** *** The version a single upsert binds *)

(** X18: [upsertWorkShift] binds the work shift to a schedule of the latest
    version of the caller's template, whatever the work date: the version
    in force on that date plays no part. *)
Theorem upsertWorkShift_binds_latest_version user_id wd code note_ db w :
  result (upsertWorkShift dateOnly user_id wd code note_ db) = inr w ->
  exists tpl v s,
    find_active_template user_id db = Some tpl
    /\ version_of (template_id tpl) db v
    /\ (forall u, version_of (template_id tpl) db u ->
                  effective_from u <= effective_from v)
    /\ In s (shift_type_schedules
               (store (upsertWorkShift dateOnly user_id wd code note_ db)))
    /\ schedule_id s = ws_schedule_id w
    /\ sch_template_version_id s = template_version_id v
    /\ work_date w = dateOnly wd.
Proof.
  intros Hres.
  destruct (find_shift_type_of_owner code user_id db) as [st|] eqn:Hst.
  2: { revert Hres. unfold upsertWorkShift, autocommit, bind, find_or_throw.
       rewrite Hst. discriminate. }
  destruct (find_active_template user_id db) as [tpl|] eqn:Ht.
  2: { revert Hres. unfold upsertWorkShift, autocommit, bind, find_or_throw.
       rewrite Hst, Ht. discriminate. }
  destruct (find_latest_version (template_id tpl) db) as [v|] eqn:Hv.
  2: { revert Hres. unfold upsertWorkShift, autocommit, bind, find_or_throw.
       rewrite Hst, Ht, Hv. discriminate. }
  destruct (upsertWorkShift_run user_id wd code note_ db st tpl v Hst Ht Hv)
    as (db1 & s & w' & E1 & E2 & Hw).
  rewrite Hw in Hres. injection Hres as ->.
  destruct (find_latest_version_some _ _ _ Hv) as [Hof Hmax].
  destruct (find_or_create_schedule_spec (shift_type_id st) (template_version_id v) db)
    as (db1' & s' & E1' & Hin & _ & Hsv & _).
  rewrite E1 in E1'. injection E1' as <- <-.
  destruct (upsert_work_shift_spec
              (mkWorkShiftValues user_id (dateOnly wd) (schedule_id s)
                 (note_or_null note_) 0 user_id) db1)
    as (db2 & w2 & E2' & Hdate & Hsid & _ & Hsch).
  rewrite E2 in E2'. injection E2' as <- <-.
  exists tpl, v, s. rewrite Hsch. auto 10.
Qed.

End ReconcilerFootprint.

Lemma upsertWorkShift_binds_latest_version_witness :
  exists tpl v s,
    find_active_template alice versioned_db = Some tpl
    /\ version_of (template_id tpl) versioned_db v
    /\ (forall u, version_of (template_id tpl) versioned_db u ->
                  effective_from u <= effective_from v)
    /\ In s (shift_type_schedules
               (store (upsertWorkShift iso_day alice "2024-01-15" "D" Null
                         versioned_db)))
    /\ schedule_id s = ws_schedule_id (mkWorkShift 1 alice 20240115 2 None 0 alice None None)
    /\ sch_template_version_id s = template_version_id v
    /\ work_date (mkWorkShift 1 alice 20240115 2 None 0 alice None None)
       = iso_day "2024-01-15".
Proof.
  exact (upsertWorkShift_binds_latest_version iso_day alice "2024-01-15" "D" Null
           versioned_db (mkWorkShift 1 alice 20240115 2 None 0 alice None None)
           eq_refl).
Defined.

(* ================================================================== *)
(** ** Reading the calendar *)
(* ================================================================== *)

Section CalendarReading.

Variable dateLiteral : string -> Date.
Variable startOfDay : string -> Timestamp.
Variable endOfDay : string -> Timestamp.

Lemma StronglySorted_weaken {X} (R R' : X -> X -> Prop) (xs : list X) :
  (forall a b, R a b -> R' a b) -> StronglySorted R xs -> StronglySorted R' xs.
Proof.
  intros Himp H. induction H as [|a rest Hrest IH Hall]; constructor.
  - exact IH.
  - apply Forall_forall. intros b Hb. apply Himp.
    exact (proj1 (Forall_forall _ _) Hall b Hb).
Qed.

Lemma work_shift_detail_some db w d :
  work_shift_detail db w = Some d ->
  detail_work_shift_id d = work_shift_id w
  /\ detail_work_date d = work_date w
  /\ detail_note d = string_or_null (note w).
Proof.
  unfold work_shift_detail.
  destruct (find _ (shift_type_schedules db)) as [s|]; [| discriminate].
  destruct (find _ (shift_types db)) as [st|]; [| discriminate].
  intros [= <-]. auto.
Qed.

Lemma In_flat_map_option {X Y} (f : X -> option Y) (xs : list X) (y : Y) :
  In y (flat_map (fun x => option_to_list (f x)) xs)
  <-> exists x, In x xs /\ f x = Some y.
Proof.
  rewrite in_flat_map. split; intros (x & Hx & H); exists x; (split; [exact Hx |]).
  - destruct (f x) as [y'|]; cbn in H; [destruct H as [<- | []]; reflexivity | contradiction].
  - rewrite H. now left.
Qed.

Lemma StronglySorted_flat_map_option {X Y} (f : X -> option Y)
    (key : X -> Z) (key' : Y -> Z) (xs : list X) :
  (forall x y, f x = Some y -> key' y = key x) ->
  StronglySorted (fun a b => (key a <=? key b) = true) xs ->
  StronglySorted (fun a b => key' a <= key' b)
    (flat_map (fun x => option_to_list (f x)) xs).
Proof.
  intros Hkey Hsorted. induction Hsorted as [|a rest Hrest IH Hall];
    cbn [flat_map].
  - constructor.
  - destruct (f a) as [y|] eqn:Hfa; cbn [option_to_list app]; [| exact IH].
    constructor; [exact IH |].
    apply Forall_forall. intros z Hz. apply In_flat_map_option in Hz.
    destruct Hz as (b & Hb & Hfb).
    rewrite (Hkey _ _ Hfa), (Hkey _ _ Hfb).
    apply Z.leb_le. exact (proj1 (Forall_forall _ _) Hall b Hb).
Qed.

Lemma getWorkShifts_In user_id start_date end_date db d :
  In d (getWorkShifts dateLiteral user_id start_date end_date db)
  <-> exists w, In w (work_shifts db)
                /\ owner_user_id w = user_id
                /\ dateLiteral start_date <= work_date w <= dateLiteral end_date
                /\ deleted_at w = None
                /\ work_shift_detail db w = Some d.
Proof.
  unfold getWorkShifts. rewrite In_flat_map_option.
  split; intros (w & Hw & Hd); exists w.
  - apply order_by_In in Hw. unfold live_work_shifts_between in Hw.
    apply filter_In in Hw. destruct Hw as [Hin Hp].
    apply andb_prop in Hp. destruct Hp as [Hp Hlive].
    apply andb_prop in Hp. destruct Hp as [Ho Hbetween].
    apply andb_prop in Hbetween. destruct Hbetween as [H1 H2].
    apply Nat.eqb_eq in Ho. apply Z.leb_le in H1. apply Z.leb_le in H2.
    unfold live_work_shift in Hlive.
    destruct (deleted_at w); [discriminate |]. auto.
  - destruct Hd as (Ho & [H1 H2] & Hdel & Hd). split; [| exact Hd].
    apply order_by_In. unfold live_work_shifts_between. apply filter_In.
    split; [exact Hw |].
    unfold live_work_shift. rewrite Ho, Hdel, Nat.eqb_refl.
    apply Z.leb_le in H1. apply Z.leb_le in H2. now rewrite H1, H2.
Qed.

(** X19: [getWorkShifts] returns, in ascending order of the date, the live work
    shifts of the caller dated within the two bounds, both included, that
    have a schedule and a shift type to be joined with, and nothing
    else. *)
Theorem getWorkShifts_sorted_and_complete user_id start_date end_date db :
  StronglySorted (fun a b => detail_work_date a <= detail_work_date b)
    (getWorkShifts dateLiteral user_id start_date end_date db)
  /\ forall d,
       In d (getWorkShifts dateLiteral user_id start_date end_date db)
       <-> exists w, In w (work_shifts db)
                     /\ owner_user_id w = user_id
                     /\ dateLiteral start_date <= work_date w <= dateLiteral end_date
                     /\ deleted_at w = None
                     /\ work_shift_detail db w = Some d.
Proof.
  split; [| intros d; apply getWorkShifts_In].
  unfold getWorkShifts.
  apply StronglySorted_flat_map_option with (key := work_date).
  - intros w d H. apply (work_shift_detail_some _ _ _ H).
  - apply order_by_sorted.
    + intros a b. apply (Z_leb_total_on work_date).
    + intros a b c. apply (Z_leb_trans_on work_date).
Qed.

Lemma getEvents_In user_id start_date end_date events_table v :
  In v (getEvents startOfDay endOfDay user_id start_date end_date events_table)
  <-> exists e, In e events_table
                /\ ev_owner_user_id e = user_id
                /\ ev_deleted_at e = None
                /\ start_at e <= endOfDay end_date
                /\ startOfDay start_date <= end_at e
                /\ v = event_view e.
Proof.
  unfold getEvents. rewrite in_map_iff. split.
  - intros (e & <- & He). exists e. apply order_by_In in He.
    apply filter_In in He. destruct He as [Hin Hp].
    apply andb_prop in Hp. destruct Hp as [Hlive Hb].
    apply andb_prop in Hb. destruct Hb as [H1 H2].
    unfold live_event_of in Hlive. apply andb_prop in Hlive.
    destruct Hlive as [Ho Hdel]. apply Nat.eqb_eq in Ho.
    apply Z.leb_le in H1. apply Z.leb_le in H2.
    destruct (ev_deleted_at e); [discriminate |]. auto 10.
  - intros (e & Hin & Ho & Hdel & H1 & H2 & ->). exists e.
    split; [reflexivity |]. apply order_by_In. apply filter_In.
    split; [exact Hin |]. unfold live_event_of.
    rewrite Ho, Hdel, Nat.eqb_refl.
    apply Z.leb_le in H1. apply Z.leb_le in H2. now rewrite H1, H2.
Qed.

(** X20: [getEvents] returns, in ascending order of their start, the live
    events of the caller that overlap the period from the first instant of
    the start date to the last instant of the end date, and nothing
    else. *)
Theorem getEvents_sorted_and_complete user_id start_date end_date events_table :
  StronglySorted (fun a b => view_start_at a <= view_start_at b)
    (getEvents startOfDay endOfDay user_id start_date end_date events_table)
  /\ forall v,
       In v (getEvents startOfDay endOfDay user_id start_date end_date events_table)
       <-> exists e, In e events_table
                     /\ ev_owner_user_id e = user_id
                     /\ ev_deleted_at e = None
                     /\ start_at e <= endOfDay end_date
                     /\ startOfDay start_date <= end_at e
                     /\ v = event_view e.
Proof.
  split; [| intros v; apply getEvents_In].
  unfold getEvents. apply StronglySorted_map.
  match goal with
  | |- StronglySorted _ (order_by ?leb ?xs) =>
      pose proof (order_by_sorted leb (Z_leb_total_on start_at)
                    (Z_leb_trans_on start_at) xs) as Hsorted
  end.
  eapply StronglySorted_weaken; [| exact Hsorted].
  intros a b Hab. cbn [event_view view_start_at]. now apply Z.leb_le.
Qed.

(** X21: what [getDaySchedule] shows of a day, [getCalendarRange] shows for the
    period made of that day alone: the work shift of the day, at most one,
    is among the range's work shifts, and so is every event of the day
    when the events of the table start before they end, as the model's
    validator has it. *)
Theorem getDaySchedule_within_getCalendarRange user_id date db events_table :
  (forall e, In e events_table -> event_time_consistency e = true) ->
  (forall d,
     In d (day_work_shifts
             (getDaySchedule dateLiteral startOfDay endOfDay user_id date db
                events_table)) ->
     exists d', In d' (range_work_shifts
                         (getCalendarRange dateLiteral startOfDay endOfDay user_id
                            date date db events_table))
                /\ d = without_date d'
                /\ detail_work_date d' = dateLiteral date)
  /\ (forall v,
        In v (day_events
                (getDaySchedule dateLiteral startOfDay endOfDay user_id date db
                   events_table)) ->
        In v (range_events
                (getCalendarRange dateLiteral startOfDay endOfDay user_id
                   date date db events_table)))
  /\ (List.length
        (day_work_shifts
           (getDaySchedule dateLiteral startOfDay endOfDay user_id date db
              events_table)) <= 1)%nat.
Proof.
  intros Hvalid. unfold getDaySchedule, getCalendarRange.
  cbn [day_work_shifts day_events range_work_shifts range_events].
  split; [| split].
  - intros d Hd.
    destruct (find _ (work_shifts db)) as [w|] eqn:Hfind; [| destruct Hd].
    apply find_some in Hfind. destruct Hfind as [Hin Hp].
    apply andb_prop in Hp. destruct Hp as [Hp _].
    apply andb_prop in Hp. destruct Hp as [Hp Hlive].
    apply andb_prop in Hp. destruct Hp as [Ho Hdate].
    apply Nat.eqb_eq in Ho. apply Z.eqb_eq in Hdate.
    destruct (work_shift_detail db w) as [d'|] eqn:Hdetail; [| destruct Hd].
    cbn [option_to_list map] in Hd. destruct Hd as [<- | []].
    exists d'. split; [| split; [reflexivity |]].
    + apply getWorkShifts_In.
      exists w. unfold live_work_shift in Hlive.
      destruct (deleted_at w); [discriminate |].
      repeat split; auto; lia.
    + destruct (work_shift_detail_some _ _ _ Hdetail) as (_ & -> & _). exact Hdate.
  - intros v Hv. apply in_map_iff in Hv. destruct Hv as (e & <- & He).
    apply order_by_In in He. apply filter_In in He. destruct He as [Hin Hp].
    apply andb_prop in Hp. destruct Hp as [Hlive Hb].
    apply andb_prop in Hb. destruct Hb as [H1 H2].
    unfold getEvents. apply in_map. apply order_by_In. apply filter_In.
    split; [exact Hin |]. rewrite Hlive, H2. cbn [andb].
    specialize (Hvalid e Hin). unfold event_time_consistency in Hvalid.
    apply Z.ltb_lt in Hvalid. apply Z.leb_le in H1. apply Z.leb_le. lia.
  - destruct (find _ (work_shifts db)) as [w|]; [| cbn; lia].
    destruct (work_shift_detail db w); cbn; lia.
Qed.

End CalendarReading.

Lemma getDaySchedule_within_getCalendarRange_witness :
  (forall d,
     In d (day_work_shifts
             (getDaySchedule iso_day day_start day_end alice "2024-01-15" assigned_db
                example_events)) ->
     exists d', In d' (range_work_shifts
                         (getCalendarRange iso_day day_start day_end alice
                            "2024-01-15" "2024-01-15" assigned_db example_events))
                /\ d = without_date d'
                /\ detail_work_date d' = iso_day "2024-01-15")
  /\ (forall v,
        In v (day_events
                (getDaySchedule iso_day day_start day_end alice "2024-01-15"
                   assigned_db example_events)) ->
        In v (range_events
                (getCalendarRange iso_day day_start day_end alice
                   "2024-01-15" "2024-01-15" assigned_db example_events)))
  /\ (List.length
        (day_work_shifts
           (getDaySchedule iso_day day_start day_end alice "2024-01-15" assigned_db
              example_events)) <= 1)%nat.
Proof.
  apply (getDaySchedule_within_getCalendarRange iso_day day_start day_end alice
           "2024-01-15" assigned_db example_events).
  intros e [<- | [<- | []]]; reflexivity.
Defined.

(* ================================================================== *)
(** ** Soft-deleted work shifts and events *)
(* ================================================================== *)

Section SoftDeletes.

Variable dateLiteral : string -> Date.
Variable startOfDay : string -> Timestamp.
Variable endOfDay : string -> Timestamp.

Lemma deleteWorkShift_inversion now user_id id db :
  result (deleteWorkShift now user_id id db) = inr tt ->
  exists ws,
    In ws (work_shifts db) /\ work_shift_id ws = id
    /\ store (deleteWorkShift now user_id id db)
       = set_work_shifts
           (map (fun w => if Nat.eqb (work_shift_id w) id
                          then mark_deleted now user_id ws else w)) db.
Proof.
  unfold deleteWorkShift, autocommit, bind, find_or_throw, write.
  destruct (find _ (work_shifts db)) as [ws|] eqn:Hfind; cbn [result store];
    [| discriminate].
  intros _. apply find_some in Hfind. destruct Hfind as [Hin Hp].
  apply andb_prop in Hp. destruct Hp as [Hp _].
  apply andb_prop in Hp. destruct Hp as [Hid _]. apply Nat.eqb_eq in Hid.
  exists ws. rewrite Hid. auto.
Qed.

Lemma deleted_rows_not_live now user_id id ws (rows : list WorkShift) w :
  In w (map (fun w => if Nat.eqb (work_shift_id w) id
                      then mark_deleted now user_id ws else w) rows) ->
  deleted_at w = None -> work_shift_id w <> id.
Proof.
  intros Hin Hlive. apply in_map_iff in Hin. destruct Hin as (w0 & <- & _).
  destruct (Nat.eqb (work_shift_id w0) id) eqn:E.
  - discriminate.
  - now apply Nat.eqb_neq.
Qed.

(** X22: a soft-deleted work shift is gone for the calendar: a second
    [deleteWorkShift] and an [updateWorkShift] of the id fail with
    [WORK_SHIFT_NOT_FOUND], whoever calls, and neither [getWorkShifts] nor
    [getDaySchedule] shows the id; the row itself stays in the table. *)
Theorem deleteWorkShift_then_not_found
    now now' user_id caller id (code note_ : Field string) db :
  result (deleteWorkShift now user_id id db) = inr tt ->
  result (deleteWorkShift now' caller id (store (deleteWorkShift now user_id id db)))
  = inl WORK_SHIFT_NOT_FOUND
  /\ result (updateWorkShift caller id code note_
               (store (deleteWorkShift now user_id id db)))
     = inl WORK_SHIFT_NOT_FOUND
  /\ (forall u start_date end_date,
        ~ In id (map detail_work_shift_id
                   (getWorkShifts dateLiteral u start_date end_date
                      (store (deleteWorkShift now user_id id db)))))
  /\ (forall u date events_table,
        ~ In id (map day_work_shift_id
                   (day_work_shifts
                      (getDaySchedule dateLiteral startOfDay endOfDay u date
                         (store (deleteWorkShift now user_id id db))
                         events_table))))
  /\ List.length (work_shifts (store (deleteWorkShift now user_id id db)))
     = List.length (work_shifts db).
Proof.
  intros Hres.
  destruct (deleteWorkShift_inversion _ _ _ _ Hres) as (ws & Hin & Hid & ->).
  assert (Hgone : forall u,
    find (fun w => Nat.eqb (work_shift_id w) id && Nat.eqb (owner_user_id w) u
                   && live_work_shift w)
         (map (fun w => if Nat.eqb (work_shift_id w) id
                        then mark_deleted now user_id ws else w) (work_shifts db))
    = None).
  { intros u. apply find_nothing. intros w Hw.
    destruct (deleted_at w) eqn:Hdel.
    - unfold live_work_shift. rewrite Hdel. cbn [is_null]. now rewrite andb_false_r.
    - pose proof (deleted_rows_not_live _ _ _ _ _ _ Hw Hdel) as Hne.
      apply Nat.eqb_neq in Hne. now rewrite Hne. }
  split; [| split; [| split; [| split]]].
  - unfold deleteWorkShift, autocommit, bind, find_or_throw.
    cbn [set_work_shifts work_shifts]. now rewrite Hgone.
  - unfold updateWorkShift, autocommit, bind, find_or_throw, find_live_work_shift.
    cbn [set_work_shifts work_shifts]. now rewrite Hgone.
  - intros u start_date end_date Hd. apply in_map_iff in Hd.
    destruct Hd as (d & Hdid & Hd). apply getWorkShifts_In in Hd.
    destruct Hd as (w & Hw & _ & _ & Hdel & Hdetail).
    destruct (work_shift_detail_some _ _ _ Hdetail) as (Hwid & _).
    cbn [set_work_shifts work_shifts] in Hw.
    apply (deleted_rows_not_live _ _ _ _ _ _ Hw Hdel). congruence.
  - intros u date events_table Hd. unfold getDaySchedule in Hd.
    cbn [day_work_shifts] in Hd.
    destruct (find _ (work_shifts _)) as [w|] eqn:Hfind; [| destruct Hd].
    apply find_some in Hfind. destruct Hfind as [Hw Hp].
    apply andb_prop in Hp. destruct Hp as [Hp _].
    apply andb_prop in Hp. destruct Hp as [_ Hlive].
    destruct (work_shift_detail _ w) as [d|] eqn:Hdetail; [| destruct Hd].
    cbn [option_to_list map without_date day_work_shift_id] in Hd.
    destruct Hd as [Hd | []].
    destruct (work_shift_detail_some _ _ _ Hdetail) as (Hwid & _).
    cbn [set_work_shifts work_shifts] in Hw.
    unfold live_work_shift in Hlive.
    destruct (deleted_at w) eqn:Hdel; [discriminate |].
    apply (deleted_rows_not_live _ _ _ _ _ _ Hw Hdel). congruence.
  - cbn [set_work_shifts work_shifts]. apply length_map.
Qed.

Lemma deleteEvent_inversion now user_id id events_table :
  snd (deleteEvent now user_id id events_table) = inr tt ->
  fst (deleteEvent now user_id id events_table)
  = map (fun e => if Nat.eqb (event_id e) id
                  then mkEvent (event_id e) (ev_owner_user_id e)
                         (ev_created_by_user_id e) (ev_title e) (ev_memo e)
                         (ev_place e) (ev_all_day e) (start_at e) (end_at e)
                         (ev_visibility_level e) (Some now) (Some user_id)
                  else e)
        events_table.
Proof.
  unfold deleteEvent. destruct (find _ events_table); cbn [fst snd];
    [reflexivity | discriminate].
Qed.

(** X23: a soft-deleted event is gone for the calendar: a second [deleteEvent]
    of the id fails with [EVENT_NOT_FOUND], whoever calls, [getEvents]
    does not show the id and shows the events of other ids as before; the
    row itself stays in the table. *)
Theorem deleteEvent_then_not_found now now' user_id caller id events_table :
  snd (deleteEvent now user_id id events_table) = inr tt ->
  snd (deleteEvent now' caller id (fst (deleteEvent now user_id id events_table)))
  = inl "EVENT_NOT_FOUND"
  /\ (forall u start_date end_date v,
        In v (getEvents startOfDay endOfDay u start_date end_date
                (fst (deleteEvent now user_id id events_table)))
        <-> In v (getEvents startOfDay endOfDay u start_date end_date events_table)
            /\ view_event_id v <> id)
  /\ List.length (fst (deleteEvent now user_id id events_table))
     = List.length events_table.
Proof.
  intros Hres. rewrite (deleteEvent_inversion _ _ _ _ Hres).
  split; [| split].
  - unfold deleteEvent.
    match goal with
    | |- snd (match find ?p ?xs with _ => _ end) = _ =>
        assert (Hnone : find p xs = None); [| now rewrite Hnone]
    end.
    apply find_nothing. intros e He. apply in_map_iff in He.
    destruct He as (e0 & <- & _).
    destruct (Nat.eqb (event_id e0) id) eqn:E.
    + unfold live_event_of. cbn [ev_deleted_at is_null].
      now rewrite !andb_false_r.
    + now rewrite E.
  - intros u start_date end_date v. rewrite !getEvents_In. split.
    + intros (e & He & Ho & Hdel & H1 & H2 & ->). apply in_map_iff in He.
      destruct He as (e0 & <- & He0).
      destruct (Nat.eqb (event_id e0) id) eqn:E; [discriminate |].
      split; [exists e0; auto 10 |].
      cbn [event_view view_event_id]. now apply Nat.eqb_neq.
    + intros [(e & He & Ho & Hdel & H1 & H2 & ->) Hne].
      cbn [event_view view_event_id] in Hne. apply Nat.eqb_neq in Hne.
      exists e. split; [| auto 10].
      apply in_map_iff. exists e. now rewrite Hne.
  - apply length_map.
Qed.

End SoftDeletes.

Lemma deleteWorkShift_then_not_found_witness :
  result (deleteWorkShift 8 bob 1 (store (deleteWorkShift 7 alice 1 assigned_db)))
  = inl WORK_SHIFT_NOT_FOUND
  /\ result (updateWorkShift bob 1 (Value "N") Undefined
               (store (deleteWorkShift 7 alice 1 assigned_db)))
     = inl WORK_SHIFT_NOT_FOUND
  /\ (forall u start_date end_date,
        ~ In 1%nat (map detail_work_shift_id
                      (getWorkShifts iso_day u start_date end_date
                         (store (deleteWorkShift 7 alice 1 assigned_db)))))
  /\ (forall u date events_table,
        ~ In 1%nat (map day_work_shift_id
                      (day_work_shifts
                         (getDaySchedule iso_day day_start day_end u date
                            (store (deleteWorkShift 7 alice 1 assigned_db))
                            events_table))))
  /\ List.length (work_shifts (store (deleteWorkShift 7 alice 1 assigned_db)))
     = List.length (work_shifts assigned_db).
Proof.
  exact (deleteWorkShift_then_not_found iso_day day_start day_end 7 8 alice bob 1
           (Value "N") Undefined assigned_db eq_refl).
Defined.

Lemma deleteEvent_then_not_found_witness :
  snd (deleteEvent 9 bob 1 (fst (deleteEvent 8 alice 1 example_events)))
  = inl "EVENT_NOT_FOUND"
  /\ (forall u start_date end_date v,
        In v (getEvents day_start day_end u start_date end_date
                (fst (deleteEvent 8 alice 1 example_events)))
        <-> In v (getEvents day_start day_end u start_date end_date example_events)
            /\ view_event_id v <> 1%nat)
  /\ List.length (fst (deleteEvent 8 alice 1 example_events))
     = List.length example_events.
Proof.
  exact (deleteEvent_then_not_found day_start day_end 8 9 alice bob 1 example_events
           eq_refl).
Defined.

(* ================================================================== *)
(** ** From a write to the calendar *)
(* ================================================================== *)

Section WriteThenRead.

Variable dateOnly : string -> Date.
Variable dateLiteral : string -> Date.

Lemma find_by_key {X} (key : X -> nat) (xs : list X) (x : X) :
  NoDup (map key xs) -> In x xs ->
  find (fun r => Nat.eqb (key r) (key x)) xs = Some x.
Proof.
  intros Hpk Hin.
  destruct (find (fun r => Nat.eqb (key r) (key x)) xs) as [y|] eqn:Hfind.
  - apply find_some in Hfind. destruct Hfind as [Hy Hk]. apply Nat.eqb_eq in Hk.
    f_equal. exact (NoDup_map_eq key xs y x Hpk Hy Hin Hk).
  - pose proof (find_none _ _ Hfind x Hin) as Hk. cbv beta in Hk.
    rewrite Nat.eqb_refl in Hk. discriminate.
Qed.

Lemma upsert_work_shift_row v db db' w :
  upsert_work_shift v db = (db', inr w) ->
  In w (work_shifts db')
  /\ owner_user_id w = val_owner_user_id v
  /\ work_date w = val_work_date v
  /\ ws_schedule_id w = val_schedule_id v
  /\ note w = val_note v.
Proof.
  unfold upsert_work_shift.
  destruct (find _ (work_shifts db)) as [old|] eqn:Hfind; intros [= <- <-].
  - apply find_some in Hfind. destruct Hfind as [Hin Hconf].
    cbn [set_work_shifts work_shifts]. split; [| cbn; auto].
    apply in_map_iff. exists old. now rewrite Hconf.
  - cbn [set_work_shifts work_shifts]. split; [| cbn; auto].
    apply in_or_app. right. now left.
Qed.

Lemma find_or_create_schedule_keyed_schedules stid vid db db' r :
  find_or_create_schedule stid vid db = (db', r) ->
  NoDup (map schedule_id (shift_type_schedules db)) ->
  NoDup (map schedule_id (shift_type_schedules db')).
Proof.
  unfold find_or_create_schedule, create_schedule.
  cbn [timeConsistency is_null negb Bool.eqb].
  destruct (find_schedule stid vid db); intros [= <- _] Hpk; [exact Hpk |].
  cbn [set_schedules shift_type_schedules]. rewrite map_app. cbn [map schedule_id].
  apply NoDup_app; [exact Hpk | repeat constructor; intros [] |].
  intros x Hx [<- | []]. exact (fresh_uuid_not_In _ Hx).
Qed.

Lemma find_shift_type_of_owner_some code user_id db st :
  find_shift_type_of_owner code user_id db = Some st ->
  In st (shift_types db) /\ st_code st = code.
Proof.
  unfold find_shift_type_of_owner. intros H. apply find_some in H.
  destruct H as [Hin Hp]. apply andb_prop in Hp. destruct Hp as [Hp _].
  apply andb_prop in Hp. destruct Hp as [Hcode _]. apply String.eqb_eq in Hcode.
  auto.
Qed.

(** X24: a work shift put on a day shows in the calendar of that day: after an
    [upsertWorkShift] that returns a live row, [getWorkShifts] for the day
    lists it with the code it was given and its note, provided the ids of
    schedules and shift types are unique and the date string denotes the
    same day to the write and to the query. *)
Theorem upsertWorkShift_then_getWorkShifts user_id wd code note_ db w :
  NoDup (map schedule_id (shift_type_schedules db)) ->
  NoDup (map shift_type_id (shift_types db)) ->
  dateOnly wd = dateLiteral wd ->
  result (upsertWorkShift dateOnly user_id wd code note_ db) = inr w ->
  deleted_at w = None ->
  exists d,
    In d (getWorkShifts dateLiteral user_id wd wd
            (store (upsertWorkShift dateOnly user_id wd code note_ db)))
    /\ detail_work_shift_id d = work_shift_id w
    /\ detail_work_date d = dateLiteral wd
    /\ detail_shift_type_code d = code
    /\ detail_note d = string_or_null (note_or_null note_).
Proof.
  intros Hsch_pk Hst_pk Hdate Hres Hlive.
  destruct (upsertWorkShift_inversion dateOnly _ _ _ _ _ _ Hres)
    as (st & v & db1 & s & Hst & E1 & E2).
  destruct (find_shift_type_of_owner_some _ _ _ _ Hst) as [Hst_in Hcode].
  pose proof (find_or_create_schedule_keyed_schedules _ _ _ _ _ E1 Hsch_pk) as Hpk1.
  destruct (find_or_create_schedule_spec (shift_type_id st) (template_version_id v) db)
    as (db1' & s' & E1' & Hs_in & Hs_st & _ & (_ & _ & Htypes1) & _).
  rewrite E1 in E1'. injection E1' as <- <-.
  destruct (upsert_work_shift_spec
              (mkWorkShiftValues user_id (dateOnly wd) (schedule_id s)
                 (note_or_null note_) 0 user_id) db1)
    as (db2 & w2 & E2' & _ & _ & (_ & _ & Htypes2) & Hsch2).
  rewrite E2 in E2'. injection E2' as <- <-.
  destruct (upsert_work_shift_row _ _ _ _ E2)
    as (Hw_in & Hw_owner & Hw_date & Hw_sid & Hw_note).
  cbn [val_owner_user_id val_work_date val_schedule_id val_note] in *.
  set (db' := store (upsertWorkShift dateOnly user_id wd code note_ db)) in *.
  assert (Hdetail : work_shift_detail db' w
                    = Some (mkWorkShiftDetail (work_shift_id w) (work_date w)
                              (st_code st) (st_name st) (st_color st)
                              (string_or_null (start_time s))
                              (string_or_null (end_time s))
                              (string_or_null (note w)))).
  { unfold work_shift_detail. rewrite Hsch2, Hw_sid.
    rewrite (find_by_key schedule_id _ s Hpk1 Hs_in).
    rewrite Htypes2, Htypes1, Hs_st.
    rewrite (find_by_key shift_type_id _ st Hst_pk Hst_in). reflexivity. }
  eexists. split.
  - apply getWorkShifts_In. exists w.
    split; [exact Hw_in |]. split; [exact Hw_owner |].
    split; [rewrite Hw_date, Hdate; lia |]. split; [exact Hlive | exact Hdetail].
  - cbn [detail_work_shift_id detail_work_date detail_shift_type_code detail_note].
    rewrite Hw_date, Hw_note, Hdate. auto.
Qed.

(** *** What [updateWorkShift] leaves alone *)

Lemma updateWorkShift_work_shifts user_id id code note_ db :
  work_shifts (store (updateWorkShift user_id id code note_ db)) = work_shifts db
  \/ exists sid,
       work_shifts (store (updateWorkShift user_id id code note_ db))
       = map (fun w => if Nat.eqb (work_shift_id w) id
                       then set_schedule_and_note sid note_ w else w)
             (work_shifts db).
Proof.
  unfold updateWorkShift, autocommit, bind, find_or_throw.
  destruct (find_live_work_shift id user_id db) as [w|] eqn:Hfind;
    [| cbn [store]; auto].
  unfold find_live_work_shift in Hfind. apply find_some in Hfind.
  destruct Hfind as [_ Hp]. apply andb_prop in Hp. destruct Hp as [Hp _].
  apply andb_prop in Hp. destruct Hp as [Hid _]. apply Nat.eqb_eq in Hid.
  destruct (truthy code); [destruct (nullish code) as [c|] |].
  2, 3: right; exists None; unfold ret, update_work_shift, write; cbn;
    now rewrite Hid.
  unfold bind, find_or_throw.
  destruct (find_shift_type_of_owner c user_id db) as [st|]; [| cbn [store]; auto].
  destruct (find_active_template user_id db) as [tpl|]; [| cbn [store]; auto].
  destruct (find_latest_version (template_id tpl) db) as [v|]; [| cbn [store]; auto].
  destruct (find_or_create_schedule_spec (shift_type_id st) (template_version_id v) db)
    as (db1 & s & E & _ & _ & _ & _ & Hws).
  rewrite E. right. exists (Some (schedule_id s)).
  unfold ret, update_work_shift, write. cbn. now rewrite Hws, Hid.
Qed.

(** X25: [updateWorkShift] changes the schedule and the note of the rows of the
    given id and nothing else in the table: whatever its arguments and its
    outcome, every row keeps its id, owner, date, visibility, creator and
    deletion marks, and the rows of other ids stay as they are, each in
    its place. *)
Theorem updateWorkShift_changes_schedule_and_note_only user_id id code note_ db :
  map (fun w => (work_shift_id w, owner_user_id w, work_date w, visibility_level w,
                 created_by_user_id w, deleted_at w, deleted_by_user_id w))
      (work_shifts (store (updateWorkShift user_id id code note_ db)))
  = map (fun w => (work_shift_id w, owner_user_id w, work_date w, visibility_level w,
                   created_by_user_id w, deleted_at w, deleted_by_user_id w))
        (work_shifts db)
  /\ forall i w, nth_error (work_shifts db) i = Some w -> work_shift_id w <> id ->
       nth_error (work_shifts (store (updateWorkShift user_id id code note_ db))) i
       = Some w.
Proof.
  destruct (updateWorkShift_work_shifts user_id id code note_ db)
    as [-> | (sid & ->)]; [auto |].
  split.
  - rewrite map_map. apply map_ext. intros w.
    destruct (Nat.eqb (work_shift_id w) id); reflexivity.
  - intros i w Hnth Hne. rewrite nth_error_map, Hnth. cbn [option_map].
    apply Nat.eqb_neq in Hne. now rewrite Hne.
Qed.

End WriteThenRead.

Lemma upsertWorkShift_then_getWorkShifts_witness :
  exists d,
    In d (getWorkShifts iso_day alice "2024-01-15" "2024-01-15"
            (store (upsertWorkShift iso_day alice "2024-01-15" "D" (Value "swap")
                      versioned_db)))
    /\ detail_work_shift_id d
       = work_shift_id (mkWorkShift 1 alice 20240115 2 (Some "swap") 0 alice None None)
    /\ detail_work_date d = iso_day "2024-01-15"
    /\ detail_shift_type_code d = "D"
    /\ detail_note d = string_or_null (note_or_null (Value "swap")).
Proof.
  apply (upsertWorkShift_then_getWorkShifts iso_day iso_day alice "2024-01-15" "D"
           (Value "swap") versioned_db
           (mkWorkShift 1 alice 20240115 2 (Some "swap") 0 alice None None)).
  - cbn. repeat constructor; cbn; intuition discriminate.
  - cbn. repeat constructor; cbn; intuition discriminate.
  - reflexivity.
  - reflexivity.
  - reflexivity.
Defined.

(* ================================================================== *)
(** ** A batch that succeeds *)
(* ================================================================== *)

Section BatchSuccess.

Variable dateOnly : string -> Date.
Variable user_id : uuid.
Variable template : ShiftTemplate.

Lemma upsert_entry_inversion ws db db1 w :
  upsert_entry dateOnly user_id template ws db = (db1, inr w) ->
  exists st s,
    find_shift_type_by_code (entry_shift_type_code ws) (template_id template) db
    = Some st
    /\ In w (work_shifts db1)
    /\ owner_user_id w = user_id
    /\ work_date w = dateOnly (entry_work_date ws)
    /\ note w = note_or_null (entry_note ws)
    /\ In s (shift_type_schedules db1)
    /\ schedule_id s = ws_schedule_id w
    /\ sch_shift_type_id s = shift_type_id st.
Proof.
  unfold upsert_entry, bind, find_or_throw.
  destruct (find_shift_type_by_code _ _ db) as [st|]; [| discriminate].
  destruct (valid_version dateOnly (template_id template) (entry_work_date ws) db)
    as [db0 [e | v]] eqn:Ev; [discriminate |].
  assert (db0 = db) as ->.
  { unfold valid_version in Ev.
    destruct (find_version_in_force _ _ db);
      [| destruct (find_latest_version _ db)]; now injection Ev. }
  destruct (find_or_create_schedule_spec (shift_type_id st) (template_version_id v) db)
    as (db2 & s & E & Hs_in & Hs_st & _).
  rewrite E. intros E2.
  destruct (upsert_work_shift_spec
              (mkWorkShiftValues user_id (dateOnly (entry_work_date ws))
                 (schedule_id s) (note_or_null (entry_note ws)) 0 user_id) db2)
    as (db3 & w3 & E3 & _ & _ & _ & Hsch).
  rewrite E2 in E3. injection E3 as <- <-.
  destruct (upsert_work_shift_row _ _ _ _ E2) as (Hw & Ho & Hd & Hsid & Hn).
  cbn [val_owner_user_id val_work_date val_schedule_id val_note] in *.
  exists st, s. rewrite Hsch. auto 10.
Qed.

(** A later turn of the loop leaves the rows of other days, and every
    schedule, in place. *)
Lemma upsert_entry_keeps ws w s :
  work_date w <> dateOnly (entry_work_date ws) ->
  stmt_preserves (fun db => In w (work_shifts db) /\ In s (shift_type_schedules db))
    (upsert_entry dateOnly user_id template ws).
Proof.
  intros Hday. unfold upsert_entry.
  apply preserves_bind; [apply preserves_find_or_throw | intros st].
  apply preserves_bind; [apply valid_version_preserves | intros v].
  apply preserves_bind; [| intros s0].
  - intros db db' r H [Hw Hs]. unfold find_or_create_schedule, create_schedule in H.
    cbn [timeConsistency is_null negb Bool.eqb] in H.
    destruct (find_schedule _ _ db); injection H as <- _; [auto |].
    cbn [set_schedules work_shifts shift_type_schedules].
    split; [exact Hw | apply in_or_app; now left].
  - intros db db' r H [Hw Hs]. unfold upsert_work_shift in H.
    cbn [val_owner_user_id val_work_date] in H.
    destruct (find _ (work_shifts db)); injection H as <- _;
      cbn [set_work_shifts work_shifts shift_type_schedules];
      (split; [| exact Hs]).
    + apply in_map_iff. exists w. split; [| exact Hw].
      unfold same_day_of_owner.
      replace (work_date w =? dateOnly (entry_work_date ws)) with false
        by (symmetry; now apply Z.eqb_neq).
      now rewrite andb_false_r.
    + apply in_or_app. now left.
Qed.

Lemma upsert_entries_keeps (entries : list BatchEntry) w s :
  ~ In (work_date w) (map (fun x => dateOnly (entry_work_date x)) entries) ->
  forall saved,
    stmt_preserves (fun db => In w (work_shifts db) /\ In s (shift_type_schedules db))
      (upsert_entries dateOnly user_id template entries saved).
Proof.
  induction entries as [|ws rest IH]; intros Hnot saved; cbn [upsert_entries].
  - apply preserves_ret.
  - cbn [map In] in Hnot. apply preserves_bind.
    + apply upsert_entry_keeps. intros Heq. apply Hnot. now left.
    + intros w1. apply IH. intros Hin. apply Hnot. now right.
Qed.

Lemma upsert_entries_rows (entries : list BatchEntry) :
  NoDup (map (fun x => dateOnly (entry_work_date x)) entries) ->
  forall saved db db' saved',
    upsert_entries dateOnly user_id template entries saved db = (db', inr saved') ->
    forall x, In x entries ->
      exists w st s,
        In w (work_shifts db')
        /\ owner_user_id w = user_id
        /\ work_date w = dateOnly (entry_work_date x)
        /\ note w = note_or_null (entry_note x)
        /\ find_shift_type_by_code (entry_shift_type_code x) (template_id template) db
           = Some st
        /\ In s (shift_type_schedules db')
        /\ schedule_id s = ws_schedule_id w
        /\ sch_shift_type_id s = shift_type_id st.
Proof.
  induction entries as [|ws rest IH]; intros Hdays saved db db' saved' Hrun x Hx.
  - destruct Hx.
  - cbn [map] in Hdays. apply NoDup_cons_iff in Hdays. destruct Hdays as [Hnot Hrest].
    cbn [upsert_entries] in Hrun. unfold bind in Hrun.
    destruct (upsert_entry dateOnly user_id template ws db) as [db1 [e | w1]] eqn:E1;
      [discriminate |].
    destruct Hx as [<- | Hx].
    + destruct (upsert_entry_inversion _ _ _ _ E1)
        as (st & s & Hst & Hw & Ho & Hd & Hn & Hs & Hsid & Hsst).
      rewrite <- Hd in Hnot.
      destruct (upsert_entries_keeps rest w1 s Hnot _ _ _ _ Hrun (conj Hw Hs))
        as [Hw' Hs'].
      exists w1, st, s. auto 10.
    + destruct (IH Hrest _ _ _ _ Hrun x Hx)
        as (w & st & s & Hw & Ho & Hd & Hn & Hst & Hs & Hsid & Hsst).
      exists w, st, s.
      rewrite (find_shift_type_by_code_same_definitions _ _ db db1) in Hst
        by exact (upsert_entry_frame dateOnly _ _ _ _ _ _ E1).
      auto 10.
Qed.

(** X26: when a batch succeeds, its transaction is committed and every entry
    has its row: a work shift of the caller on the entry's date, with the
    entry's note, bound to a schedule of the shift type that bears the
    entry's code on the caller's template; this for entries whose date
    strings denote different days. *)
Theorem batch_success_writes_every_entry entries db details :
  find_active_template user_id db = Some template ->
  NoDup (map (fun x => dateOnly (entry_work_date x)) entries) ->
  result (batchUpsertWorkShifts dateOnly user_id entries db) = inr details ->
  events (batchUpsertWorkShifts dateOnly user_id entries db) = [TxBegin; TxCommit]
  /\ forall x, In x entries ->
       exists w st s,
         In w (work_shifts (store (batchUpsertWorkShifts dateOnly user_id entries db)))
         /\ owner_user_id w = user_id
         /\ work_date w = dateOnly (entry_work_date x)
         /\ note w = note_or_null (entry_note x)
         /\ find_shift_type_by_code (entry_shift_type_code x) (template_id template) db
            = Some st
         /\ In s (shift_type_schedules
                    (store (batchUpsertWorkShifts dateOnly user_id entries db)))
         /\ schedule_id s = ws_schedule_id w
         /\ sch_shift_type_id s = shift_type_id st.
Proof.
  intros Ht Hdays.
  assert (Hdates : NoDup (map entry_work_date entries)).
  { rewrite <- (map_map entry_work_date dateOnly) in Hdays.
    exact (NoDup_map_inv _ _ Hdays). }
  rewrite (batchUpsertWorkShifts_loop dateOnly user_id template entries db Hdates Ht).
  destruct (upsert_entries dateOnly user_id template entries [] db)
    as [working [e | saved]] eqn:Hrun; cbn [result events store]; [discriminate |].
  intros _. split; [reflexivity |].
  exact (upsert_entries_rows entries Hdays _ _ _ _ Hrun).
Qed.

End BatchSuccess.

Lemma batch_success_writes_every_entry_witness :
  events (batchUpsertWorkShifts iso_day alice
            [mkBatchEntry "2024-01-15" "D" Null; mkBatchEntry "2024-02-15" "N" Null]
            versioned_db)
  = [TxBegin; TxCommit]
  /\ forall x,
       In x [mkBatchEntry "2024-01-15" "D" Null; mkBatchEntry "2024-02-15" "N" Null] ->
       exists w st s,
         In w (work_shifts
                 (store (batchUpsertWorkShifts iso_day alice
                           [mkBatchEntry "2024-01-15" "D" Null;
                            mkBatchEntry "2024-02-15" "N" Null] versioned_db)))
         /\ owner_user_id w = alice
         /\ work_date w = iso_day (entry_work_date x)
         /\ note w = note_or_null (entry_note x)
         /\ find_shift_type_by_code (entry_shift_type_code x)
              (template_id base_template) versioned_db
            = Some st
         /\ In s (shift_type_schedules
                    (store (batchUpsertWorkShifts iso_day alice
                              [mkBatchEntry "2024-01-15" "D" Null;
                               mkBatchEntry "2024-02-15" "N" Null] versioned_db)))
         /\ schedule_id s = ws_schedule_id w
         /\ sch_shift_type_id s = shift_type_id st.
Proof.
  refine (batch_success_writes_every_entry iso_day alice base_template
            [mkBatchEntry "2024-01-15" "D" Null; mkBatchEntry "2024-02-15" "N" Null]
            versioned_db
            match result (batchUpsertWorkShifts iso_day alice
                            [mkBatchEntry "2024-01-15" "D" Null;
                             mkBatchEntry "2024-02-15" "N" Null] versioned_db) with
            | inr details => details
            | inl _ => []
            end
            eq_refl _ eq_refl).
  vm_compute. repeat constructor; cbn; intuition discriminate.
Defined.

(* ================================================================== *)
(** ** Shift types of other owners *)
(* ================================================================== *)

Section Ownership.

(** X27: [updateShiftType] and [deleteShiftType] fail with [FORBIDDEN] exactly
    when the id is that of a live shift type whose template belongs to
    someone else, and then they change nothing; no other path of the two
    throws that error. *)
Theorem registry_forbidden_iff_foreign now user_id id upd db :
  (result (updateShiftType user_id id upd db) = inl FORBIDDEN
   <-> exists st tpl, find_shift_type_with_template id db = Some (st, tpl)
                      /\ tpl_owner_user_id tpl <> user_id)
  /\ (result (deleteShiftType now user_id id db) = inl FORBIDDEN
      <-> exists st tpl, find_shift_type_with_template id db = Some (st, tpl)
                         /\ tpl_owner_user_id tpl <> user_id)
  /\ (result (updateShiftType user_id id upd db) = inl FORBIDDEN ->
      store (updateShiftType user_id id upd db) = db)
  /\ (result (deleteShiftType now user_id id db) = inl FORBIDDEN ->
      store (deleteShiftType now user_id id db) = db).
Proof.
  split; [| split; [| split]].
  - destruct (find_shift_type_with_template id db) as [[st tpl]|] eqn:Hf.
    2: { unfold updateShiftType, transaction, bind, find_or_throw. rewrite Hf.
         cbn [result]. split; [discriminate | intros (? & ? & ? & _); discriminate]. }
    destruct (Nat.eqb (tpl_owner_user_id tpl) user_id) eqn:Howner.
    + apply Nat.eqb_eq in Howner. split.
      * destruct (save_shift_type_assigned_or_refused upd st db) as [Hsave | Hsave].
        2: { rewrite (updateShiftType_refused _ _ _ _ _ _ Hf Howner Hsave).
             discriminate. }
        destruct (find_latest_version (template_id tpl) db) as [v|] eqn:Hv.
        -- rewrite (updateShiftType_run_from _ _ upd _ _ _ _ Hf Howner Hv Hsave).
           destruct (update_times id v upd
                       (find_schedule id (template_version_id v) db)
                       (after_step_2 upd st db))
             as [db1 [e | [[start_t end_t] time_info]]] eqn:Hstep;
             cbn [result]; [| discriminate].
           apply update_times_error in Hstep. intros [= ->].
           destruct Hstep as [? | [? | ?]]; discriminate.
        -- unfold updateShiftType, transaction, bind, find_or_throw,
             getCurrentVersion.
           rewrite Hf, Howner, Nat.eqb_refl. cbn [negb]. rewrite Hsave, Hv.
           discriminate.
      * intros (st' & tpl' & [= <- <-] & Hne). contradiction.
    + unfold updateShiftType, transaction, bind, find_or_throw. rewrite Hf, Howner.
      cbn [negb result]. split; [| reflexivity].
      intros _. exists st, tpl. split; [reflexivity |]. now apply Nat.eqb_neq.
  - destruct (find_shift_type_with_template id db) as [[st tpl]|] eqn:Hf.
    2: { unfold deleteShiftType, transaction, bind, find_or_throw. rewrite Hf.
         cbn [result]. split; [discriminate | intros (? & ? & ? & _); discriminate]. }
    destruct (Nat.eqb (tpl_owner_user_id tpl) user_id) eqn:Howner.
    + split.
      * unfold deleteShiftType, transaction, bind, find_or_throw, query.
        rewrite Hf, Howner. cbn [negb].
        destruct (0 <? Z.of_nat (List.length (schedule_ids_of id db)));
          [destruct (find_live_reference_in (schedule_ids_of id db) db) |];
          try discriminate;
          unfold ret; rewrite save_shift_type_same_columns by reflexivity;
          discriminate.
      * apply Nat.eqb_eq in Howner.
        intros (st' & tpl' & [= <- <-] & Hne). contradiction.
    + unfold deleteShiftType, transaction, bind, find_or_throw. rewrite Hf, Howner.
      cbn [negb result]. split; [| reflexivity].
      intros _. exists st, tpl. split; [reflexivity |]. now apply Nat.eqb_neq.
  - unfold updateShiftType. apply transaction_failure_store.
  - unfold deleteShiftType. apply transaction_failure_store.
Qed.

End Ownership.

(* ================================================================== *)
(** ** The default template and the constraints of the schema *)
(* ================================================================== *)

Section DefaultTemplateConstraints.

Lemma find_active_template_none user_id db t :
  find_active_template user_id db = None ->
  In t (shift_templates db) -> tpl_owner_user_id t = user_id ->
  tpl_deleted_at t = None -> False.
Proof.
  intros Hnone Hin Ho Hdel.
  pose proof (find_none _ _ Hnone t Hin) as Hp. cbv beta in Hp.
  rewrite Ho, Hdel, Nat.eqb_refl in Hp. discriminate.
Qed.

(** X28: [ensureDefaultTemplate] keeps the constraints of the schema: when an
    owner's live templates bear different names, versions and shift types
    point to templates, schedules point to shift types and no template
    holds more than ten live shift types, the same holds of the store it
    leaves. *)
Theorem ensureDefaultTemplate_keeps_constraints today user_id db :
  live_names_distinct db ->
  templates_referenced db ->
  shift_types_referenced db ->
  within_capacity db ->
  live_names_distinct (store (ensureDefaultTemplate today user_id db))
  /\ templates_referenced (store (ensureDefaultTemplate today user_id db))
  /\ shift_types_referenced (store (ensureDefaultTemplate today user_id db))
  /\ within_capacity (store (ensureDefaultTemplate today user_id db)).
Proof.
  intros Hnames [Hversions Htypes] Hschedules Hcap.
  unfold ensureDefaultTemplate, hasDefaultTemplate.
  destruct (find_active_template user_id db) as [t|] eqn:Hfind;
    cbn [is_null negb store]; [unfold templates_referenced; auto |].
  unfold createDefaultShiftTemplate, transaction.
  rewrite executeInTransaction_run. cbn [store].
  pose proof (fresh_uuid_not_In (map template_id (shift_templates db))) as Htid.
  set (tid := fresh_uuid (map template_id (shift_templates db))) in *.
  set (vid := fresh_uuid (map template_version_id (shift_template_versions db))).
  set (n := fresh_uuid (map shift_type_id (shift_types db))).
  set (k := fresh_uuid (map schedule_id (shift_type_schedules db))).
  clearbody tid vid n k.
  split; [| split; [| split]].
  - (* names *)
    intros t1 t2 H1 H2 Ho Hn Hd1 Hd2. cbn [shift_templates] in H1, H2.
    apply in_app_or in H1. apply in_app_or in H2.
    destruct H1 as [H1 | [<- | []]], H2 as [H2 | [<- | []]].
    + now apply Hnames.
    + exfalso. exact (find_active_template_none _ _ _ Hfind H1 Ho Hd1).
    + exfalso. exact (find_active_template_none _ _ _ Hfind H2 (eq_sym Ho) Hd2).
    + reflexivity.
  - (* versions and shift types point to templates *)
    split.
    + intros v Hv. cbn [shift_template_versions shift_templates] in *.
      rewrite map_app. apply in_or_app. apply in_app_or in Hv.
      destruct Hv as [Hv | [<- | []]]; [left; now apply Hversions | right; now left].
    + intros st Hst. cbn [shift_types shift_templates] in *.
      rewrite map_app. apply in_or_app. apply in_app_or in Hst.
      destruct Hst as [Hst | Hst]; [left; now apply Htypes | right].
      cbn [In] in Hst. cbn [map template_id In].
      destruct Hst as [<- | [<- | [<- | [<- | []]]]]; now left.
  - (* schedules point to shift types *)
    intros s Hs. cbn [shift_type_schedules shift_types] in *.
    rewrite map_app. apply in_or_app. apply in_app_or in Hs.
    destruct Hs as [Hs | Hs]; [left; now apply Hschedules | right].
    cbn [In] in Hs. cbn [map shift_type_id In].
    destruct Hs as [<- | [<- | [<- | [<- | []]]]]; cbn [sch_shift_type_id]; auto.
  - (* the limit *)
    intros tid0. specialize (Hcap tid0).
    unfold count_live_shift_types, MAX_SHIFT_TYPES_PER_TEMPLATE in *.
    cbn [shift_types]. rewrite filter_app, length_app.
    destruct (Nat.eqb tid tid0) eqn:E.
    + apply Nat.eqb_eq in E. subst tid0.
      rewrite (filter_nothing (live_shift_type_of tid) (shift_types db)).
      * match goal with
        | |- context [List.length (filter ?p ?l)] =>
            pose proof (filter_length_le p l) as Hle
        end.
        cbn [List.length] in Hle |- *. lia.
      * intros st Hst. unfold live_shift_type_of.
        replace (st_template_id st =? tid)%nat with false; [reflexivity |].
        symmetry. apply Nat.eqb_neq. intros Heq. apply Htid. rewrite <- Heq.
        now apply Htypes.
    + unfold filter at 2. unfold live_shift_type_of in *. cbn [st_template_id].
      rewrite E. cbn [andb List.length]. lia.
Qed.

Lemma ensureDefaultTemplate_keeps_constraints_witness :
  live_names_distinct (store (ensureDefaultTemplate 20240101 alice empty_db))
  /\ templates_referenced (store (ensureDefaultTemplate 20240101 alice empty_db))
  /\ shift_types_referenced (store (ensureDefaultTemplate 20240101 alice empty_db))
  /\ within_capacity (store (ensureDefaultTemplate 20240101 alice empty_db)).
Proof.
  apply (ensureDefaultTemplate_keeps_constraints 20240101 alice empty_db).
  - intros t1 t2 [].
  - split; intros ? [].
  - intros ? [].
  - intros tid. unfold count_live_shift_types, MAX_SHIFT_TYPES_PER_TEMPLATE.
    cbn. lia.
Defined.

End DefaultTemplateConstraints.

(* ================================================================== *)
(** ** The schedules of other versions *)
(* ================================================================== *)

Section OtherVersions.

Lemma update_times_other_schedules id v data existing db0 db1 r s :
  update_times id v data existing db0 = (db1, r) ->
  In s (shift_type_schedules db0) ->
  (forall e, existing = Some e -> schedule_id s <> schedule_id e) ->
  In s (shift_type_schedules db1).
Proof.
  intros Hrun Hin Hother.
  assert (Hsave : forall e s', existing = Some e ->
            In s (map (fun r => if Nat.eqb (schedule_id r) (schedule_id e)
                                then s' else r)
                      (shift_type_schedules db0))).
  { intros e s' He. apply in_map_iff. exists s. split; [| exact Hin].
    specialize (Hother e He). apply Nat.eqb_neq in Hother. now rewrite Hother. }
  assert (Hdrop : forall e, existing = Some e ->
            In s (filter (fun r => negb (Nat.eqb (schedule_id r) (schedule_id e)))
                         (shift_type_schedules db0))).
  { intros e He. apply filter_In. split; [exact Hin |].
    specialize (Hother e He). apply Nat.eqb_neq in Hother. now rewrite Hother. }
  revert Hrun.
  unfold update_times, bind, query, save_schedule, create_schedule, destroy_schedule,
    ret.
  repeat match goal with
         | |- context [match schedule_columns ?a ?b ?c with _ => _ end] =>
             destruct (schedule_columns a b c) as [? | [? ?]]
         | |- context [if ?c then _ else _] => destruct c
         | |- context [match ?x with Some _ => _ | None => _ end] => destruct x
         end;
    intros [= <- _]; cbn [set_schedules shift_type_schedules];
    try exact Hin;
    try (apply Hsave; reflexivity);
    try (apply Hdrop; reflexivity);
    try (apply in_or_app; now left).
Qed.

(** X29: editing a shift type leaves the history alone: whatever its arguments
    and its outcome, [updateShiftType] keeps every schedule row that is
    not the one of the shift type under the current version of its
    template, so the work shifts bound to older versions keep their
    times.  The ids of the schedules are taken to be unique. *)
Theorem updateShiftType_keeps_other_schedules user_id id data db s :
  NoDup (map schedule_id (shift_type_schedules db)) ->
  In s (shift_type_schedules db) ->
  (sch_shift_type_id s <> id
   \/ forall st tpl v,
        find_shift_type_with_template id db = Some (st, tpl) ->
        find_latest_version (template_id tpl) db = Some v ->
        sch_template_version_id s <> template_version_id v) ->
  In s (shift_type_schedules (store (updateShiftType user_id id data db))).
Proof.
  intros Hpk Hin Hother.
  destruct (find_shift_type_with_template id db) as [[st tpl]|] eqn:Hf.
  2: { unfold updateShiftType, transaction, bind, find_or_throw. rewrite Hf.
       exact Hin. }
  destruct (Nat.eqb (tpl_owner_user_id tpl) user_id) eqn:Howner.
  2: { unfold updateShiftType, transaction, bind, find_or_throw. rewrite Hf, Howner.
       exact Hin. }
  apply Nat.eqb_eq in Howner.
  destruct (save_shift_type_assigned_or_refused data st db) as [Hsave | Hsave].
  2: { rewrite (updateShiftType_refused _ _ _ _ _ _ Hf Howner Hsave). exact Hin. }
  destruct (find_latest_version (template_id tpl) db) as [v|] eqn:Hv.
  2: { unfold updateShiftType, transaction, bind, find_or_throw, getCurrentVersion.
       rewrite Hf, Howner, Nat.eqb_refl. cbn [negb]. rewrite Hsave, Hv. exact Hin. }
  rewrite (updateShiftType_run_from _ _ data _ _ _ _ Hf Howner Hv Hsave).
  destruct (update_times id v data (find_schedule id (template_version_id v) db)
              (after_step_2 data st db))
    as [working [e | [[start_t end_t] time_info]]] eqn:Hrun; cbn [store];
    [exact Hin |].
  apply (update_times_other_schedules _ _ _ _ _ _ _ s Hrun); [exact Hin |].
  intros e He Hsame.
  destruct (find_schedule_some _ _ _ _ He) as (He_in & He_st & He_v).
  pose proof (NoDup_map_eq schedule_id _ s e Hpk Hin He_in Hsame) as ->.
  destruct Hother as [Hne | Hne]; [contradiction |].
  exact (Hne st tpl v eq_refl Hv He_v).
Qed.

Lemma updateShiftType_keeps_other_schedules_witness :
  In day_schedule_v1
     (shift_type_schedules
        (store (updateShiftType alice 1
                  (mkUpdateShiftTypeData None None Undefined (Value "08:00")
                     (Value "16:00") Undefined) versioned_db))).
Proof.
  apply (updateShiftType_keeps_other_schedules alice 1
           (mkUpdateShiftTypeData None None Undefined (Value "08:00")
              (Value "16:00") Undefined) versioned_db day_schedule_v1).
  - cbn. repeat constructor; cbn; intuition discriminate.
  - cbn. auto.
  - right. intros st tpl v Hf Hv. vm_compute in Hf. injection Hf as <- <-.
    vm_compute in Hv. injection Hv as <-. discriminate.
Defined.

End OtherVersions.

(* ================================================================== *)
(** ** Upserting twice *)
(* ================================================================== *)

Section UpsertTwice.

Variable dateOnly : string -> Date.

Lemma upsert_work_shift_again v db db' w :
  upsert_work_shift v db = (db', inr w) ->
  upsert_work_shift v db' = (db', inr w).
Proof.
  unfold upsert_work_shift.
  set (conflicts := same_day_of_owner (val_owner_user_id v) (val_work_date v)).
  assert (Hover : forall r, conflicts (overwrite v r) = true).
  { intros r. apply same_day_of_owner_overwrite. }
  assert (Hsame : forall rows : list WorkShift,
            (forall r, In r rows -> conflicts r = true -> overwrite v r = r) ->
            map (fun r => if conflicts r then overwrite v r else r) rows = rows).
  { intros rows Hrows. rewrite <- (map_id rows) at 2. apply map_ext_in.
    intros r Hr. destruct (conflicts r) eqn:E; [now apply Hrows | reflexivity]. }
  assert (Hfirst : forall (rows : list WorkShift) o,
            find conflicts rows = Some o ->
            find conflicts (map (fun r => if conflicts r then overwrite v r else r) rows)
            = Some (overwrite v o)).
  { induction rows as [|a rest IH]; cbn [find map]; intros o; [discriminate |].
    destruct (conflicts a) eqn:E.
    - intros [= <-]. now rewrite Hover.
    - rewrite E. apply IH. }
  destruct (find conflicts (work_shifts db)) as [old|] eqn:Hfind; intros [= <- <-];
    unfold set_work_shifts;
    cbn [work_shifts shift_templates shift_template_versions shift_types
         shift_type_schedules].
  - rewrite (Hfirst _ _ Hfind).
    f_equal. f_equal. apply Hsame.
    intros r Hr Hc. apply in_map_iff in Hr. destruct Hr as (r0 & <- & _).
    destruct (conflicts r0) eqn:E; [reflexivity | congruence].
  - set (row := mkWorkShift _ _ _ _ _ _ _ None None).
    assert (Hrow : conflicts row = true).
    { unfold conflicts, same_day_of_owner, row. cbn [owner_user_id work_date].
      now rewrite Nat.eqb_refl, Z.eqb_refl. }
    rewrite find_app_none by (intros r Hr; exact (find_none _ _ Hfind r Hr)).
    cbn [find]. rewrite Hrow.
    f_equal. f_equal. apply Hsame.
    intros r Hr Hc. apply in_app_or in Hr. destruct Hr as [Hr | [<- | []]].
    + rewrite (find_none _ _ Hfind r Hr) in Hc. discriminate.
    + reflexivity.
Qed.

Lemma find_shift_type_of_owner_same_definitions code user_id db db' :
  same_definitions db db' ->
  find_shift_type_of_owner code user_id db' = find_shift_type_of_owner code user_id db.
Proof.
  intros (H1 & _ & H3). unfold find_shift_type_of_owner. now rewrite H1, H3.
Qed.

Lemma find_or_create_schedule_again stid vid db db1 s db2 :
  find_or_create_schedule stid vid db = (db1, inr s) ->
  shift_type_schedules db2 = shift_type_schedules db1 ->
  find_or_create_schedule stid vid db2 = (db2, inr s).
Proof.
  unfold find_or_create_schedule, create_schedule, find_schedule.
  cbn [timeConsistency is_null negb Bool.eqb].
  destruct (find _ (shift_type_schedules db)) as [s0|] eqn:Hfind;
    intros [= <- <-] ->.
  - now rewrite Hfind.
  - cbn [set_schedules shift_type_schedules].
    rewrite find_app_none by (intros r Hr; exact (find_none _ _ Hfind r Hr)).
    cbn [find sch_shift_type_id sch_template_version_id].
    now rewrite !Nat.eqb_refl.
Qed.

(** A second [upsertWorkShift] with the same arguments, right after the
    first, runs as the first did and writes the values that are there. *)
Lemma upsertWorkShift_again user_id wd code note_ db :
  upsertWorkShift dateOnly user_id wd code note_
    (store (upsertWorkShift dateOnly user_id wd code note_ db))
  = mkRun (store (upsertWorkShift dateOnly user_id wd code note_ db)) []
          (result (upsertWorkShift dateOnly user_id wd code note_ db)).
Proof.
  destruct (find_shift_type_of_owner code user_id db) as [st|] eqn:Hst.
  2: { unfold upsertWorkShift, autocommit, bind, find_or_throw.
       rewrite Hst. cbn [store]. rewrite Hst. reflexivity. }
  destruct (find_active_template user_id db) as [tpl|] eqn:Ht.
  2: { unfold upsertWorkShift, autocommit, bind, find_or_throw.
       rewrite Hst, Ht. cbn [store]. rewrite Hst, Ht. reflexivity. }
  destruct (find_latest_version (template_id tpl) db) as [v|] eqn:Hv.
  2: { unfold upsertWorkShift, autocommit, bind, find_or_throw.
       rewrite Hst, Ht, Hv. cbn [store]. rewrite Hst, Ht, Hv. reflexivity. }
  destruct (upsertWorkShift_run dateOnly user_id wd code note_ db st tpl v Hst Ht Hv)
    as (db1 & s & w1 & E1 & E2 & Hres).
  rewrite Hres.
  set (db2 := store (upsertWorkShift dateOnly user_id wd code note_ db)) in *.
  destruct (find_or_create_schedule_spec (shift_type_id st) (template_version_id v) db)
    as (db1' & s' & E1' & _ & _ & _ & Hdefs1 & _).
  rewrite E1 in E1'. injection E1' as <- <-.
  destruct (upsert_work_shift_spec
              (mkWorkShiftValues user_id (dateOnly wd) (schedule_id s)
                 (note_or_null note_) 0 user_id) db1)
    as (db2' & w2 & E2' & _ & _ & Hdefs2 & Hsch2).
  rewrite E2 in E2'. injection E2' as <- <-.
  assert (Hdefs : same_definitions db db2).
  { destruct Hdefs1 as (A1 & A2 & A3), Hdefs2 as (B1 & B2 & B3).
    unfold same_definitions. rewrite B1, B2, B3. auto. }
  pose proof (upsert_work_shift_again _ _ _ _ E2) as E3.
  unfold upsertWorkShift at 1. unfold autocommit, bind, find_or_throw.
  rewrite (find_shift_type_of_owner_same_definitions _ _ _ _ Hdefs), Hst.
  destruct Hdefs as (D1 & D2 & D3).
  unfold find_active_template, find_latest_version in Ht, Hv |- *.
  rewrite D1, Ht, D2, Hv.
  rewrite (find_or_create_schedule_again _ _ _ _ _ db2 E1 Hsch2), E3.
  reflexivity.
Qed.

(** X30: [upsertWorkShift] is idempotent: a second call with the same
    arguments, right after the first, adds no row and changes no value
    that the first left.  Templates, versions, shift types and schedules
    are the same, and the work shifts are the same rows in the same
    places, each with the same id, owner, date, schedule, note,
    visibility, creator and deletion marks; and when the first call
    returned a work shift, the second returns one with these same
    columns.  The timestamps of a row are not among the columns
    compared. *)
Theorem upsertWorkShift_idempotent user_id wd code note_ db :
  let columns w :=
    (work_shift_id w, owner_user_id w, work_date w, ws_schedule_id w, note w,
     visibility_level w, created_by_user_id w, deleted_at w, deleted_by_user_id w) in
  let first := upsertWorkShift dateOnly user_id wd code note_ db in
  let second := upsertWorkShift dateOnly user_id wd code note_ (store first) in
  shift_templates (store second) = shift_templates (store first)
  /\ shift_template_versions (store second) = shift_template_versions (store first)
  /\ shift_types (store second) = shift_types (store first)
  /\ shift_type_schedules (store second) = shift_type_schedules (store first)
  /\ map columns (work_shifts (store second)) = map columns (work_shifts (store first))
  /\ forall w, result first = inr w ->
       exists w', result second = inr w' /\ columns w' = columns w.
Proof.
  intros columns first second. unfold second, first.
  rewrite upsertWorkShift_again. cbn [store result].
  repeat (split; [reflexivity |]).
  intros w ->. exists w. split; reflexivity.
Qed.

End UpsertTwice.

(** Alice puts the day shift on 2024-01-15 twice: the second call returns
    the row of the first and leaves the one work shift as it is. *)
Example upsertWorkShift_twice :
  let first := upsertWorkShift iso_day alice "2024-01-15" "D" Null versioned_db in
  let second := upsertWorkShift iso_day alice "2024-01-15" "D" Null (store first) in
  result first = inr (mkWorkShift 1 alice 20240115 2 None 0 alice None None)
  /\ result second = result first
  /\ work_shifts (store second)
     = [mkWorkShift 1 alice 20240115 2 None 0 alice None None].
Proof. repeat split. Qed.

